(** * Scottish budget dashboard: the metric calculators and the reform processor

    A shallow embedding of [scottish_budget_data/calculators.py] and of
    [ReformProcessor] in [scottish_budget_data/pipeline.py].

    Numbers.  The Python code computes on IEEE doubles.  Here a finite number
    is an exact rational ([Q], compared with [==]); rounding is not modelled.
    Where the source divides without a guard, the quotient is taken in [ext],
    which keeps the non-finite results ([inf], [nan]) that numpy returns
    instead of raising.

    Effects.  A Python exception is a value of [exn]; code that can raise
    lives in the error monad [M].  A loop that appends rows to [results] is
    [for_each]. *)

From Stdlib Require Import QArith Qminmax Qabs ZArith List String Bool Lia Lqa.
From Stdlib Require Import DecimalString DecimalZ Setoid Morphisms.
Import ListNotations.
Open Scope string_scope.
Open Scope list_scope.
Open Scope Q_scope.

(* ================================================================== *)
(** ** Exceptions *)

Inductive exn : Type :=
| FileNotFoundError (msg : string)
| IndexError
| ValueError
| SimulationError (variable : string).

Definition M (A : Type) : Type := (exn + A)%type.

Definition ret {A} (a : A) : M A := inr a.
Definition raise {A} (e : exn) : M A := inl e.
Definition bind {A B} (c : M A) (k : A -> M B) : M B :=
  match c with
  | inl e => inl e
  | inr a => k a
  end.

Notation "x <- c ;; k" := (bind c (fun x => k))
  (at level 61, c at next level, right associativity).
Notation "' pat <- c ;; k" := (bind c (fun x => match x with pat => k end))
  (at level 61, pat pattern, c at next level, right associativity).

(** [results = []; for x in xs: ... results.append(row) ...; return results]:
    the body gives the rows appended in one iteration, and an exception in
    any iteration leaves the loop. *)
Fixpoint for_each {A B} (xs : list A) (body : A -> M (list B)) : M (list B) :=
  match xs with
  | [] => ret []
  | x :: xs' =>
      rows <- body x ;;
      rest <- for_each xs' body ;;
      ret (rows ++ rest)
  end.

(** [range(lo, hi)] *)
Definition range (lo hi : Z) : list Z :=
  map (fun i => (lo + Z.of_nat i)%Z) (seq 0 (Z.to_nat (hi - lo))).

(** [str(n)] for an integer *)
Definition str (n : Z) : string := NilZero.string_of_int (Z.to_int n).

(** [l[i]] on a Python list: a negative index counts from the end, an index
    out of range raises [IndexError]. *)
Definition list_index {A} (l : list A) (i : Z) : M A :=
  let j := if (i <? 0)%Z then (i + Z.of_nat (List.length l))%Z else i in
  if (j <? 0)%Z then raise IndexError
  else match nth_error l (Z.to_nat j) with
       | Some a => ret a
       | None => raise IndexError
       end.

(* ================================================================== *)
(** ** numpy on one-dimensional arrays *)

Module np.

(** [a.sum()] *)
Definition sum (a : list Q) : Q := fold_right Qplus 0 a.

(** [x > y], [x >= y] and [x == y] on numbers *)
Definition gt (x y : Q) : bool := negb (Qle_bool x y).
Definition ge (x y : Q) : bool := Qle_bool y x.
Definition eq (x y : Q) : bool := Qeq_bool x y.

(** elementwise [a * b] and [a - b] of two arrays of one length *)
Definition mul (a b : list Q) : list Q :=
  map (fun p => fst p * snd p) (combine a b).
Definition sub (a b : list Q) : list Q :=
  map (fun p => fst p - snd p) (combine a b).

(** [np.maximum(a, c)] and [np.minimum(a, c)] with a scalar [c] *)
Definition maximum (a : list Q) (c : Q) : list Q := map (fun x => Qmax x c) a.
Definition minimum (a : list Q) (c : Q) : list Q := map (fun x => Qmin x c) a.

(** [a.astype(int)] and [int(x)]: truncation towards zero *)
Definition trunc (x : Q) : Z := Z.quot (Qnum x) (Zpos (Qden x)).
Definition astype_int (a : list Q) : list Z := map trunc a.

(** a boolean used as a number *)
Definition of_bool (b : bool) : Q := if b then 1 else 0.

(** [a[mask]] with a boolean mask of the same length *)
Definition select {A} (a : list A) (mask : list bool) : list A :=
  map fst (filter snd (combine a mask)).

End np.

(* ================================================================== *)
(** ** Numbers that may be infinite or undefined

    numpy does not raise on a division by zero: [x / 0] is [inf], [-inf] or
    [nan], and these values propagate.  [ext] is the result type of the
    divisions the source does not guard.  Signed zeros are not modelled: a
    zero divisor counts as [+0]. *)

Inductive ext : Type :=
| Fin (q : Q)
| PInf
| NInf
| NaN.

Module Ext.

Definition opp (x : ext) : ext :=
  match x with
  | Fin q => Fin (- q)
  | PInf => NInf
  | NInf => PInf
  | NaN => NaN
  end.

Definition add (x y : ext) : ext :=
  match x, y with
  | NaN, _ | _, NaN => NaN
  | PInf, NInf | NInf, PInf => NaN
  | PInf, _ | _, PInf => PInf
  | NInf, _ | _, NInf => NInf
  | Fin a, Fin b => Fin (a + b)
  end.

Definition sub (x y : ext) : ext := add x (opp y).

(** the sign of a finite number: [Lt], [Eq] or [Gt] *)
Definition sign (q : Q) : comparison := q ?= 0.

(** an infinity times, or divided by, a finite number of the given sign *)
Definition signed (inf : ext) (s : comparison) : ext :=
  match s with
  | Gt => inf
  | Lt => opp inf
  | Eq => NaN
  end.

Definition mul (x y : ext) : ext :=
  match x, y with
  | NaN, _ | _, NaN => NaN
  | Fin a, Fin b => Fin (a * b)
  | Fin a, PInf | PInf, Fin a => signed PInf (sign a)
  | Fin a, NInf | NInf, Fin a => signed NInf (sign a)
  | PInf, PInf | NInf, NInf => PInf
  | PInf, NInf | NInf, PInf => NInf
  end.

Definition div (x y : ext) : ext :=
  match x, y with
  | NaN, _ | _, NaN => NaN
  | Fin a, Fin b =>
      if Qeq_bool b 0 then signed PInf (sign a) else Fin (a / b)
  | Fin _, PInf | Fin _, NInf => Fin 0
  | PInf, Fin b => match sign b with Lt => NInf | _ => PInf end
  | NInf, Fin b => match sign b with Lt => PInf | _ => NInf end
  | PInf, PInf | PInf, NInf | NInf, PInf | NInf, NInf => NaN
  end.

(** [x > y]: false as soon as one side is [nan] *)
Definition gt (x y : ext) : bool :=
  match x, y with
  | NaN, _ | _, NaN => false
  | Fin a, Fin b => negb (Qle_bool a b)
  | PInf, PInf => false
  | PInf, _ => true
  | _, NInf => match x with NInf => false | _ => true end
  | _, _ => false
  end.

(** the same value: finite numbers up to [==] *)
Definition eqv (x y : ext) : Prop :=
  match x, y with
  | Fin a, Fin b => a == b
  | PInf, PInf | NInf, NInf | NaN, NaN => True
  | _, _ => False
  end.

End Ext.

(* ================================================================== *)
(** ** The simulation adapter (external)

    [baseline.calculate(variable, period=year, map_to=...)] returns a
    MicroSeries.  The series type and its operations belong to the
    microsimulation libraries; the calculators use them through this
    interface.  A missing or undefined variable raises. *)

Class MicroSeriesOps (MS : Type) : Type := {
  values : MS -> list Q;          (* [.values] of a numeric variable *)
  flags : MS -> list bool;        (* [.values] of a boolean variable *)
  ms_sub : MS -> MS -> MS;        (* [a - b] *)
  ms_sum : MS -> Q;               (* [a.sum()] *)
  MicroSeries : list Q -> list Q -> MS;   (* [MicroSeries(v, weights=w)] *)
  gini : MS -> ext                (* [a.gini()] *)
}.

Module Microsimulation.
Record t (MS : Type) : Type := {
  calculate : string -> Z -> option string -> M MS
}.
Arguments calculate {MS} _ _ _ _.
End Microsimulation.

(* ================================================================== *)
(** ** The decile table

    The DataFrame built by [DistributionalImpactCalculator.calculate]: one
    row per household. *)

Record decile_row : Type := {
  household_income_decile : Q;
  baseline_income : Q;
  reform_income : Q;
  income_change : Q;
  household_weight : Q
}.

Definition DataFrame : Type := list decile_row.

(** [pd.DataFrame({...})] from five columns: the columns must have one
    length, pandas raises [ValueError] otherwise. *)
Fixpoint zip_rows (d b r c w : list Q) : DataFrame :=
  match d, b, r, c, w with
  | d0 :: d', b0 :: b', r0 :: r', c0 :: c', w0 :: w' =>
      {| household_income_decile := d0; baseline_income := b0;
         reform_income := r0; income_change := c0; household_weight := w0 |}
      :: zip_rows d' b' r' c' w'
  | _, _, _, _, _ => []
  end.

Definition same_length (d b r c w : list Q) : bool :=
  (List.length b =? List.length d)%nat
  && (List.length r =? List.length d)%nat
  && (List.length c =? List.length d)%nat
  && (List.length w =? List.length d)%nat.

Definition pd_DataFrame (d b r c w : list Q) : M DataFrame :=
  if same_length d b r c w then ret (zip_rows d b r c w) else raise ValueError.

(** [decile_df[decile_df["household_income_decile"] == decile_num]] *)
Definition decile_data (decile_df : DataFrame) (decile_num : Z) : DataFrame :=
  filter (fun r => np.eq (household_income_decile r) (inject_Z decile_num))
         decile_df.

(** [(decile_data[col] * decile_data["household_weight"]).sum()] *)
Definition weighted (col : decile_row -> Q) (df : DataFrame) : Q :=
  np.sum (map (fun r => col r * household_weight r) df).

(** [decile_data["household_weight"].sum()] *)
Definition total_weight (df : DataFrame) : Q :=
  np.sum (map household_weight df).

(* ================================================================== *)
(** ** DistributionalImpactCalculator *)

Module DistributionalImpactCalculator.

Record t : Type := { decile_names : list string }.

Definition default : t :=
  {| decile_names :=
       [ "1st"; "2nd"; "3rd"; "4th"; "5th";
         "6th"; "7th"; "8th"; "9th"; "10th" ] |}.

Record row : Type := {
  reform_id : string;
  reform_name : string;
  year : Z;
  decile : string;
  value : Q
}.

(** lines 196-208 *)
Definition rel_change (decile_data : DataFrame) : Q :=
  let weighted_change := weighted income_change decile_data in
  let weighted_baseline := weighted baseline_income decile_data in
  if np.gt weighted_baseline 0
  then (weighted_change / weighted_baseline) * 100
  else 0.

Definition calculate_from_dataframe (self : t) (reform_id reform_name : string)
    (year : Z) (decile_df : DataFrame) : M (list row) :=
  for_each (range 1 11) (fun decile_num =>
    let decile_data := decile_data decile_df decile_num in
    if (0 <? List.length decile_data)%nat then
      name <- list_index (decile_names self) (decile_num - 1) ;;
      ret [ {| reform_id := reform_id; reform_name := reform_name;
               year := year; decile := name;
               value := rel_change decile_data |} ]
    else ret []).

Section Calculate.
Context {MS : Type} `{MicroSeriesOps MS}.

Definition calculate (self : t) (baseline reformed : Microsimulation.t MS)
    (reform_id reform_name : string) (year : Z)
    : M (list row * DataFrame) :=
  baseline_income <-
    Microsimulation.calculate baseline "household_net_income" year
      (Some "household") ;;
  reform_income <-
    Microsimulation.calculate reformed "household_net_income" year
      (Some "household") ;;
  household_decile <-
    Microsimulation.calculate baseline "household_income_decile" year
      (Some "household") ;;
  household_weight <-
    Microsimulation.calculate baseline "household_weight" year
      (Some "household") ;;
  decile_df <- pd_DataFrame (values household_decile)
                 (values baseline_income) (values reform_income)
                 (values (ms_sub reform_income baseline_income))
                 (values household_weight) ;;
  let decile_df :=
    filter (fun r => np.ge (household_income_decile r) 1) decile_df in
  results <-
    calculate_from_dataframe self reform_id reform_name year decile_df ;;
  ret (results, decile_df).

End Calculate.

End DistributionalImpactCalculator.

(* ================================================================== *)
(** ** WinnersLosersCalculator *)

Module WinnersLosersCalculator.

Record row : Type := {
  reform_id : string;
  reform_name : string;
  year : Z;
  decile : string;
  avg_change : Q
}.

(** [weighted_change / total_hh if total_hh > 0 else 0], lines 253-258 and
    270-274 *)
Definition average_change (df : DataFrame) : Q :=
  let weighted_change := weighted income_change df in
  let total_hh := total_weight df in
  if np.gt total_hh 0 then weighted_change / total_hh else 0.

Definition decile_rows (reform_id reform_name : string) (year : Z)
    (decile_df : DataFrame) (decile_num : Z) : list row :=
  let decile_data := decile_data decile_df decile_num in
  if (0 <? List.length decile_data)%nat then
    [ {| reform_id := reform_id; reform_name := reform_name; year := year;
         decile := str decile_num;
         avg_change := average_change decile_data |} ]
  else [].

Definition calculate_from_dataframe (reform_id reform_name : string)
    (year : Z) (decile_df : DataFrame) : list row :=
  let results :=
    flat_map (decile_rows reform_id reform_name year decile_df)
             (range 1 11) in
  results ++
  [ {| reform_id := reform_id; reform_name := reform_name; year := year;
       decile := "all";
       avg_change := average_change decile_df |} ].

Definition calculate (decile_df : DataFrame) (reform_id reform_name : string)
    (year : Z) : list row :=
  calculate_from_dataframe reform_id reform_name year decile_df.

End WinnersLosersCalculator.

(* ================================================================== *)
(** ** Python dicts

    A dict is the list of its items, with distinct keys; [k in d] and [d[k]]
    read the item of the key [k]. *)

Fixpoint dict_get {V} (d : list (Z * V)) (k : Z) : option V :=
  match d with
  | [] => None
  | (k', v) :: d' => if (k' =? k)%Z then Some v else dict_get d' k
  end.

Fixpoint str_dict_get {V} (d : list (string * V)) (k : string) : option V :=
  match d with
  | [] => None
  | (k', v) :: d' => if String.eqb k' k then Some v else str_dict_get d' k
  end.

(* ================================================================== *)
(** ** BudgetaryImpactCalculator *)

Module BudgetaryImpactCalculator.

Record t : Type := { years : list Z }.

Definition default : t := {| years := [2026; 2027; 2028; 2029; 2030]%Z |}.

(** Reforms that use the student loan repayments instead of [gov_balance] *)
Definition STUDENT_LOAN_REFORMS : list string :=
  [ "freeze_student_loan_thresholds" ].

(** [x in l] on a list of strings *)
Definition str_in (x : string) (l : list string) : bool :=
  existsb (String.eqb x) l.

Record row : Type := {
  reform_id : string;
  reform_name : string;
  year : Z;
  value : Q
}.

Section Calculate.
Context {MS : Type} `{MicroSeriesOps MS}.

Definition calculate (self : t) (baseline reformed : Microsimulation.t MS)
    (reform_id reform_name : string) : M (list row) :=
  for_each (years self) (fun year =>
    impact <-
      (if str_in reform_id STUDENT_LOAN_REFORMS then
         baseline_repayments <-
           Microsimulation.calculate baseline "student_loan_repayment" year
             None ;;
         reformed_repayments <-
           Microsimulation.calculate reformed "student_loan_repayment" year
             None ;;
         ret (ms_sum (ms_sub reformed_repayments baseline_repayments)
              / 1000000000)
       else
         baseline_balance <-
           Microsimulation.calculate baseline "gov_balance" year
             None ;;
         reformed_balance <-
           Microsimulation.calculate reformed "gov_balance" year
             None ;;
         ret (ms_sum (ms_sub reformed_balance baseline_balance)
              / 1000000000)) ;;
    ret [ {| reform_id := reform_id; reform_name := reform_name;
             year := year; value := impact |} ]).

End Calculate.

(** lines 85-117: the variant on pre-computed balances [{year: balance}];
    a year is reported when both dicts have it, so no lookup fails *)
Definition calculate_from_values (self : t) (reform_id reform_name : string)
    (baseline_balances reformed_balances : list (Z * Q)) : list row :=
  flat_map (fun year =>
    match dict_get baseline_balances year, dict_get reformed_balances year with
    | Some baseline_balance, Some reformed_balance =>
        let impact := (reformed_balance - baseline_balance) / 1000000000 in
        [ {| reform_id := reform_id; reform_name := reform_name;
             year := year; value := impact |} ]
    | _, _ => []
    end) (years self).

End BudgetaryImpactCalculator.

(* ================================================================== *)
(** ** MetricsCalculator *)

Module MetricsCalculator.

Record row : Type := {
  reform_id : string;
  reform_name : string;
  year : Z;
  people_affected : Q;
  gini_change : ext;
  poverty_change_pp : ext;
  poverty_change_pct : ext
}.

(** elementwise [a / b]; the divisors here are at least 1 *)
Definition divide (a b : list Q) : list Q :=
  map (fun p => fst p / snd p) (combine a b).

(** elementwise [a & b] of two masks *)
Definition mask_and (a b : list bool) : list bool :=
  map (fun p => fst p && snd p) (combine a b).

(** lines 320-332 *)
Definition percent_affected (income_change baseline_income household_decile
    household_count household_weight : list Q) : Q :=
  let capped_baseline := np.maximum baseline_income 1 in
  let income_change_pct := divide income_change capped_baseline in
  let weighted_people := np.mul household_count household_weight in
  let income_changed :=
    map (fun x => np.gt (Qabs x) (1 # 10000)) income_change_pct in
  let valid_deciles := map (fun d => np.ge d 1) household_decile in
  let people_affected :=
    np.sum (np.select weighted_people
                      (mask_and income_changed valid_deciles)) in
  let total_people := np.sum (np.select weighted_people valid_deciles) in
  if np.gt total_people 0 then (people_affected / total_people) * 100 else 0.

(** lines 371-381: the two poverty figures, [(poverty_pp, poverty_pct)] *)
Definition poverty_change (baseline_poverty reformed_poverty : list bool)
    (person_weight : list Q) : ext * ext :=
  let baseline_rate :=
    Ext.mul (Ext.div (Fin (np.sum (np.select person_weight baseline_poverty)))
                     (Fin (np.sum person_weight)))
            (Fin 100) in
  let reformed_rate :=
    Ext.mul (Ext.div (Fin (np.sum (np.select person_weight reformed_poverty)))
                     (Fin (np.sum person_weight)))
            (Fin 100) in
  let poverty_pp := Ext.sub reformed_rate baseline_rate in
  let poverty_pct :=
    if Ext.gt baseline_rate (Fin 0)
    then Ext.mul (Ext.div poverty_pp baseline_rate) (Fin 100)
    else Fin 0 in
  (poverty_pp, poverty_pct).

Section Calculate.
Context {MS : Type} `{MicroSeriesOps MS}.

(** lines 348-358 *)
Definition gini_change_of (baseline_equiv reformed_equiv hh_weight hh_count
    : list Q) : ext :=
  let baseline_equiv_values := np.maximum baseline_equiv 0 in
  let reformed_equiv_values := np.maximum reformed_equiv 0 in
  let adjusted_weights := np.mul hh_weight hh_count in
  let baseline_gini :=
    gini (MicroSeries baseline_equiv_values adjusted_weights) in
  let reformed_gini :=
    gini (MicroSeries reformed_equiv_values adjusted_weights) in
  Ext.div (Ext.sub reformed_gini baseline_gini) baseline_gini.

Definition calculate (baseline reformed : Microsimulation.t MS)
    (reform_id reform_name : string) (year : Z) : M (list row) :=
  (* people affected *)
  baseline_income <-
    Microsimulation.calculate baseline "household_net_income" year
      (Some "household") ;;
  reform_income <-
    Microsimulation.calculate reformed "household_net_income" year
      (Some "household") ;;
  household_decile <-
    Microsimulation.calculate baseline "household_income_decile" year
      (Some "household") ;;
  household_count <-
    Microsimulation.calculate baseline "household_count_people" year
      (Some "household") ;;
  household_weight <-
    Microsimulation.calculate baseline "household_weight" year
      (Some "household") ;;
  let income_change := ms_sub reform_income baseline_income in
  let percent_affected :=
    percent_affected (values income_change) (values baseline_income)
      (values household_decile) (values household_count)
      (values household_weight) in
  (* Gini change *)
  baseline_equiv <-
    Microsimulation.calculate baseline "equiv_household_net_income" year
      (Some "household") ;;
  reformed_equiv <-
    Microsimulation.calculate reformed "equiv_household_net_income" year
      (Some "household") ;;
  hh_count <-
    Microsimulation.calculate baseline "household_count_people" year
      (Some "household") ;;
  hh_weight <-
    Microsimulation.calculate baseline "household_weight" year
      (Some "household") ;;
  let gini_change :=
    gini_change_of (values baseline_equiv) (values reformed_equiv)
      (values hh_weight) (values hh_count) in
  (* poverty change *)
  baseline_poverty <-
    Microsimulation.calculate baseline "in_poverty_bhc" year (Some "person") ;;
  reformed_poverty <-
    Microsimulation.calculate reformed "in_poverty_bhc" year (Some "person") ;;
  person_weight <-
    Microsimulation.calculate baseline "person_weight" year
      (Some "person") ;;
  let '(poverty_pp, poverty_pct) :=
    poverty_change (flags baseline_poverty) (flags reformed_poverty)
      (values person_weight) in
  ret [ {| reform_id := reform_id; reform_name := reform_name; year := year;
           people_affected := percent_affected;
           gini_change := gini_change;
           poverty_change_pp := poverty_pp;
           poverty_change_pct := poverty_pct |} ].

End Calculate.

(** lines 395-416: a row from pre-computed values *)
Definition calculate_from_values (reform_id reform_name : string) (year : Z)
    (percent_affected : Q) (gini_change poverty_change_pp poverty_change_pct
    : ext) : list row :=
  [ {| reform_id := reform_id; reform_name := reform_name; year := year;
       people_affected := percent_affected;
       gini_change := gini_change;
       poverty_change_pp := poverty_change_pp;
       poverty_change_pct := poverty_change_pct |} ].

End MetricsCalculator.

(* ================================================================== *)
(** ** HouseholdScatterCalculator *)

(** [a[i]] on an array with [0 <= i]: out of range raises [IndexError]. *)
Definition np_index {A} (a : list A) (i : nat) : M A :=
  match nth_error a i with
  | Some x => ret x
  | None => raise IndexError
  end.

Module HouseholdScatterCalculator.

Record t : Type := {
  max_income : Z;
  min_income : Z;
  sample_size : Z
}.

Definition default : t :=
  {| max_income := 150000; min_income := 0; sample_size := 2000 |}.

Record row : Type := {
  reform_id : string;
  reform_name : string;
  year : Z;
  baseline_income : Q;
  income_change : Q;
  household_weight : Q;
  household_id : option Z      (* the key is absent without [household_ids] *)
}.

(** [(baseline_incomes >= self.min_income)
     & (baseline_incomes <= self.max_income)] *)
Definition in_window (self : t) (income : Q) : bool :=
  np.ge income (inject_Z (min_income self))
  && Qle_bool income (inject_Z (max_income self)).

Definition calculate_from_arrays (self : t) (reform_id reform_name : string)
    (year : Z) (baseline_incomes income_changes weights : list Q)
    (household_ids : option (list Q)) : M (list row) :=
  let mask := map (in_window self) baseline_incomes in
  for_each (seq 0 (List.length baseline_incomes)) (fun i =>
    m <- np_index mask i ;;
    if (m : bool) then
      b <- np_index baseline_incomes i ;;
      c <- np_index income_changes i ;;
      w <- np_index weights i ;;
      hid <- match household_ids with
             | None => ret None
             | Some ids => x <- np_index ids i ;; ret (Some (np.trunc x))
             end ;;
      ret [ {| reform_id := reform_id; reform_name := reform_name;
               year := year; baseline_income := b; income_change := c;
               household_weight := w; household_id := hid |} ]
    else ret []).

Section Calculate.
Context {MS : Type} `{MicroSeriesOps MS}.

Definition calculate (self : t) (baseline reformed : Microsimulation.t MS)
    (reform_id reform_name : string) (year : Z) : M (list row) :=
  baseline_income <-
    Microsimulation.calculate baseline "household_net_income" year
      (Some "household") ;;
  reform_income <-
    Microsimulation.calculate reformed "household_net_income" year
      (Some "household") ;;
  household_weight <-
    Microsimulation.calculate baseline "household_weight" year
      (Some "household") ;;
  household_id <-
    Microsimulation.calculate baseline "household_id" year (Some "household") ;;
  calculate_from_arrays self reform_id reform_name year
    (values baseline_income)
    (values (ms_sub reform_income baseline_income))
    (values household_weight)
    (Some (values household_id)).

End Calculate.

End HouseholdScatterCalculator.

(* ================================================================== *)
(** ** DemographicConstituencyCalculator *)

(** A row of the constituency reference table. *)
Record constituency : Type := {
  name : string;
  code : string
}.

Module DemographicConstituencyCalculator.

Record row : Type := {
  reform_id : string;
  year : Z;
  constituency_code : string;
  constituency_name : string;
  num_children : string;
  is_married : bool;
  average_gain : Q;
  relative_change : Q;
  household_count : Q
}.

(** [(num_children_capped == n_children) & (is_married == married)] *)
Definition combination_mask (num_children_capped : list Z)
    (is_married : list bool) (n_children : Z) (married : bool) : list bool :=
  map (fun p => (fst p =? n_children)%Z && Bool.eqb (snd p) married)
      (combine num_children_capped is_married).

(** [mask.sum()] *)
Definition mask_sum (mask : list bool) : nat := List.length (filter id mask).

(** [f"{n_children}+" if n_children == 4 else str(n_children)] *)
Definition children_label (n_children : Z) : string :=
  if (n_children =? 4)%Z then (str n_children ++ "+")%string
  else str n_children.

(** lines 761-802: the rows appended for one geography, one number of
    children and one marital status *)
Definition combination_rows (reform_id : string) (year : Z) (c : constituency)
    (weights income_change baseline_income : list Q)
    (num_children_capped : list Z) (is_married : list bool)
    (n_children : Z) (married : bool) : list row :=
  let mask :=
    combination_mask num_children_capped is_married n_children married in
  if (mask_sum mask =? 0)%nat then []
  else
    let masked_weights := np.mul weights (map np.of_bool mask) in
    let total_weight := np.sum masked_weights in
    if np.eq total_weight 0 then []
    else
      let avg_change :=
        np.sum (np.mul income_change masked_weights) / total_weight in
      let avg_baseline :=
        np.sum (np.mul baseline_income masked_weights) / total_weight in
      let rel_change :=
        if np.gt avg_baseline 0 then (avg_change / avg_baseline) * 100 else 0 in
      [ {| reform_id := reform_id; year := year;
           constituency_code := code c; constituency_name := name c;
           num_children := children_label n_children;
           is_married := married;
           average_gain := avg_change;
           relative_change := rel_change;
           household_count := total_weight |} ].

(** lines 755-802: one iteration of the loop over the geographies *)
Definition geography_rows (reform_id : string) (year : Z) (c : constituency)
    (weights income_change baseline_income : list Q)
    (num_children_capped : list Z) (is_married : list bool) : list row :=
  flat_map (fun n_children =>
    flat_map (fun married =>
      combination_rows reform_id year c weights income_change baseline_income
        num_children_capped is_married n_children married)
      [true; false])
    (range 0 5).

Section Calculate.
Context {MS : Type} `{MicroSeriesOps MS}.

Definition calculate (baseline reformed : Microsimulation.t MS)
    (reform_id : string) (year : Z) (constituency_weights : list (list Q))
    (constituency_df : list constituency) : M (list row) :=
  baseline_income <-
    Microsimulation.calculate baseline "household_net_income" year
      (Some "household") ;;
  reform_income <-
    Microsimulation.calculate reformed "household_net_income" year
      (Some "household") ;;
  let baseline_income := values baseline_income in
  let reform_income := values reform_income in
  let income_change := np.sub reform_income baseline_income in
  num_children <-
    Microsimulation.calculate baseline "num_children" year
      (Some "household") ;;
  is_married <-
    Microsimulation.calculate baseline "is_married" year
      (Some "household") ;;
  let num_children := values num_children in
  let is_married := flags is_married in
  (* cap children at 4+ *)
  let num_children_capped := np.astype_int (np.minimum num_children 4) in
  for_each (seq 0 (List.length constituency_df)) (fun const_idx =>
    c <- np_index constituency_df const_idx ;;
    weights <- np_index constituency_weights const_idx ;;
    ret (geography_rows reform_id year c weights income_change baseline_income
           num_children_capped is_married)).

End Calculate.

End DemographicConstituencyCalculator.

(* ================================================================== *)
(** ** ConstituencyCalculator

    [MicroSeries.count()] is read through an interface of its own.  The two
    divisions by the count are not guarded, and the sums and the count are
    numpy floats: the averages may be infinite or undefined. *)

Class MicroSeriesCount (MS : Type) : Type := {
  ms_count : MS -> Q              (* [a.count()] *)
}.

Module ConstituencyCalculator.

Record row : Type := {
  reform_id : string;
  year : Z;
  constituency_code : string;
  constituency_name : string;
  average_gain : ext;
  relative_change : ext
}.

(** lines 700-717: a single constituency result *)
Definition calculate_from_values (reform_id : string) (year : Z)
    (constituency_code constituency_name : string)
    (average_gain relative_change : ext) : row :=
  {| reform_id := reform_id; year := year;
     constituency_code := constituency_code;
     constituency_name := constituency_name;
     average_gain := average_gain;
     relative_change := relative_change |}.

Section Calculate.
Context {MS : Type} `{MicroSeriesOps MS} `{MicroSeriesCount MS}.

(** lines 676-696: the row of one geography *)
Definition geography_row (reform_id : string) (year : Z) (c : constituency)
    (weight baseline_income reform_income : list Q) : row :=
  let baseline_ms := MicroSeries baseline_income weight in
  let reform_ms := MicroSeries reform_income weight in
  let avg_change :=
    Ext.div (Fin (ms_sum reform_ms - ms_sum baseline_ms))
            (Fin (ms_count baseline_ms)) in
  let avg_baseline :=
    Ext.div (Fin (ms_sum baseline_ms)) (Fin (ms_count baseline_ms)) in
  let rel_change :=
    if Ext.gt avg_baseline (Fin 0)
    then Ext.mul (Ext.div avg_change avg_baseline) (Fin 100)
    else Fin 0 in
  calculate_from_values reform_id year (code c) (name c) avg_change rel_change.

Definition calculate (baseline reformed : Microsimulation.t MS)
    (reform_id : string) (year : Z) (constituency_weights : list (list Q))
    (constituency_df : list constituency) : M (list row) :=
  baseline_income <-
    Microsimulation.calculate baseline "household_net_income" year
      (Some "household") ;;
  reform_income <-
    Microsimulation.calculate reformed "household_net_income" year
      (Some "household") ;;
  let baseline_income := values baseline_income in
  let reform_income := values reform_income in
  for_each (seq 0 (List.length constituency_df)) (fun i =>
    c <- np_index constituency_df i ;;
    weight <- np_index constituency_weights i ;;
    ret [ geography_row reform_id year c weight baseline_income
            reform_income ]).

End Calculate.

End ConstituencyCalculator.

(* ================================================================== *)
(** ** Reform and DataConfig (models.py) *)

(** [Scenario(simulation_modifier=..., parameter_changes=...)], a class of the
    simulation library: the two keyword arguments it was built with. *)
Record Scenario (Modifier Params : Type) : Type := {
  scenario_simulation_modifier : option Modifier;
  scenario_parameter_changes : option Params
}.
Arguments Build_Scenario {Modifier Params} _ _.

Module Reform.
Section Reform.
Context {Modifier Params : Type}.

Record t : Type := {
  id : string;
  name : string;
  description : string;
  parameter_changes : option Params;
  baseline_parameter_changes : option Params;
  baseline_simulation_modifier : option Modifier;
  simulation_modifier : option Modifier
}.

Definition to_scenario (self : t) : Scenario Modifier Params :=
  match simulation_modifier self, parameter_changes self with
  | Some m, Some p => Build_Scenario (Some m) (Some p)
  | Some m, None => Build_Scenario (Some m) None
  | None, Some p => Build_Scenario None (Some p)
  | None, None => Build_Scenario None None
  end.

Definition to_baseline_scenario (self : t)
    : option (Scenario Modifier Params) :=
  match baseline_simulation_modifier self, baseline_parameter_changes self with
  | Some m, Some p => Some (Build_Scenario (Some m) (Some p))
  | Some m, None => Some (Build_Scenario (Some m) None)
  | None, Some p => Some (Build_Scenario None (Some p))
  | None, None => None
  end.

Definition has_custom_baseline (self : t) : bool :=
  match baseline_parameter_changes self with Some _ => true | None => false end
  || match baseline_simulation_modifier self with
     | Some _ => true
     | None => false
     end.

End Reform.
Arguments t : clear implicits.
End Reform.

Record DataConfig (Params : Type) : Type := {
  years : list Z;
  output_dir : string;
  data_dir : string;
  data_inputs_dir : string;
  dataset_path : option string;
  income_curve_max : Z;
  income_curve_points : Z;
  household_scatter_max_income : Z;
  config_baseline_parameter_changes : option Params
}.
Arguments years {Params} _.
Arguments output_dir {Params} _.
Arguments data_dir {Params} _.
Arguments data_inputs_dir {Params} _.
Arguments dataset_path {Params} _.
Arguments income_curve_max {Params} _.
Arguments income_curve_points {Params} _.
Arguments household_scatter_max_income {Params} _.
Arguments config_baseline_parameter_changes {Params} _.

Definition get_baseline_scenario {Modifier Params} (self : DataConfig Params)
    : option (Scenario Modifier Params) :=
  match config_baseline_parameter_changes self with
  | Some p => Some (Build_Scenario None (Some p))
  | None => None
  end.

(** [dir / file] on paths *)
Definition path_join (dir file : string) : string :=
  (dir ++ "/" ++ file)%string.

(* ================================================================== *)
(** ** IncomeCurveCalculator

    [Simulation(scenario=..., situation=...)] and its [calculate] belong to
    the simulation library; the calculator uses them through
    [SimulationLib].  A situation is a tree of dicts, lists and scalars. *)

(** [np.linspace(start, stop, num)]: [num] evenly spaced samples over the
    closed interval, the last one being [stop]; a negative [num] raises
    [ValueError]. *)
Definition np_linspace (start stop : Q) (num : Z) : M (list Q) :=
  if (num <? 0)%Z then raise ValueError
  else
    let div := (num - 1)%Z in
    let delta := stop - start in
    ret (map (fun i =>
           if (0 <? div)%Z
           then if (i =? div)%Z then stop
                else start + inject_Z i * (delta / inject_Z div)
           else start + inject_Z i * delta)
         (range 0 num)).

#[warnings="-register-all"]
Inductive json : Type :=
| JInt (n : Z)
| JBool (b : bool)
| JStr (s : string)
| JList (l : list json)
| JDict (d : list (string * json)).

Record SimulationLib (Modifier Params Sim : Type) : Type := {
  (* [Simulation(scenario=s, situation=...)], [Simulation(situation=...)] *)
  Simulation : option (Scenario Modifier Params) -> json -> M Sim;
  (* [sim.calculate(variable, year)] *)
  sim_calculate : Sim -> string -> Z -> M (list Q)
}.
Arguments Simulation {Modifier Params Sim} _ _ _.
Arguments sim_calculate {Modifier Params Sim} _ _ _ _.

Module IncomeCurveCalculator.

Record t : Type := {
  max_income : Z;
  num_points : Z
}.

Definition default : t := {| max_income := 150000; num_points := 201 |}.

Record row : Type := {
  reform_id : string;
  reform_name : string;
  year : Z;
  employment_income : Q;
  baseline_net_income : Q;
  reform_net_income : Q
}.

Definition get_income_range (self : t) : M (list Q) :=
  np_linspace 0 (inject_Z (max_income self)) (num_points self).

Definition get_base_situation (self : t) (year : Z) : json :=
  let y := str year in
  let members :=
    JList [ JStr "adult1"; JStr "adult2"; JStr "child1"; JStr "child2";
            JStr "child3" ] in
  JDict
    [ ("people",
       JDict
         [ ("adult1",
            JDict [ ("age", JDict [ (y, JInt 40) ]);
                    ("employment_income", JDict [ (y, JInt 0) ]);
                    ("employee_pension_contributions",
                     JDict [ (y, JInt 10000) ]) ]);
           ("adult2",
            JDict [ ("age", JDict [ (y, JInt 40) ]);
                    ("employment_income", JDict [ (y, JInt 0) ]) ]);
           ("child1",
            JDict [ ("age", JDict [ (y, JInt 7) ]);
                    ("employment_income", JDict [ (y, JInt 0) ]) ]);
           ("child2",
            JDict [ ("age", JDict [ (y, JInt 5) ]);
                    ("employment_income", JDict [ (y, JInt 0) ]) ]);
           ("child3",
            JDict [ ("age", JDict [ (y, JInt 3) ]);
                    ("employment_income", JDict [ (y, JInt 0) ]) ]) ]);
      ("benunits",
       JDict
         [ ("family",
            JDict [ ("members", members);
                    ("would_claim_uc", JDict [ (y, JBool true) ]) ]) ]);
      ("households",
       JDict
         [ ("household",
            JDict [ ("brma", JDict [ (y, JStr "MAIDSTONE") ]);
                    ("region", JDict [ (y, JStr "LONDON") ]);
                    ("members", members);
                    ("local_authority", JDict [ (y, JStr "MAIDSTONE") ]) ]) ]);
      ("axes",
       JList
         [ JList
             [ JDict [ ("name", JStr "employment_income");
                       ("min", JInt 0);
                       ("max", JInt (max_income self));
                       ("count", JInt (num_points self));
                       ("period", JStr y) ] ] ]) ].

Section Calculate.
Context {Modifier Params Sim : Type}.

Definition calculate (self : t) (lib : SimulationLib Modifier Params Sim)
    (baseline_scenario : option (Scenario Modifier Params))
    (reform_scenario : Scenario Modifier Params)
    (reform_id reform_name : string) (year : Z) : M (list row) :=
  let base_situation := get_base_situation self year in
  baseline_sim <-
    match baseline_scenario with
    | Some s => Simulation lib (Some s) base_situation
    | None => Simulation lib None base_situation
    end ;;
  reform_sim <- Simulation lib (Some reform_scenario) base_situation ;;
  employment_incomes <- get_income_range self ;;
  baseline_hnet <- sim_calculate lib baseline_sim "household_net_income" year ;;
  reform_hnet <- sim_calculate lib reform_sim "household_net_income" year ;;
  for_each (seq 0 (List.length employment_incomes)) (fun i =>
    e <- np_index employment_incomes i ;;
    b <- np_index baseline_hnet i ;;
    r <- np_index reform_hnet i ;;
    ret [ {| reform_id := reform_id; reform_name := reform_name;
             year := year; employment_income := e;
             baseline_net_income := b; reform_net_income := r |} ]).

End Calculate.

End IncomeCurveCalculator.

(* ================================================================== *)
(** ** ReformProcessor (pipeline.py)

    The processor holds one calculator per metric family and calls their
    [calculate] methods; the file system is read through [path_exists],
    [h5_dataset] ([h5py.File(path)[key][...]]) and [read_csv]. *)

(** [try: body except FileNotFoundError: handler] *)
Definition except_FileNotFoundError {A} (body : M A) (handler : M A) : M A :=
  match body with
  | inl (FileNotFoundError _) => handler
  | _ => body
  end.

(** A loop that updates its accumulators in every iteration. *)
Fixpoint for_fold {A S} (xs : list A) (acc : S) (body : S -> A -> M S) : M S :=
  match xs with
  | [] => ret acc
  | x :: xs' => acc' <- body acc x ;; for_fold xs' acc' body
  end.

Module ReformProcessor.
Section Processor.
Context {Sim Modifier Params Weights ConstituencyDF Table : Type}.
Context {BudgetRow DistRow WLRow MetricRow CurveRow ScatterRow ConstRow DemoRow
         : Type}.

Record ReformResult : Type := {
  reform_id : string;
  reform_name : string;
  budgetary_impact : list BudgetRow;
  distributional_impact : list DistRow;
  winners_losers : list WLRow;
  metrics : list MetricRow;
  income_curve : list CurveRow;
  household_scatter : list ScatterRow;
  constituency : list ConstRow;
  demographic_constituency : list DemoRow
}.

Record FileSystem : Type := {
  path_exists : string -> bool;
  h5_dataset : string -> string -> M Weights;
  read_csv : string -> M ConstituencyDF
}.

(** the [calculate] methods of the eight calculators *)
Record Calculators : Type := {
  budgetary_calc : Sim -> Sim -> string -> string -> M (list BudgetRow);
  distributional_calc :
    Sim -> Sim -> string -> string -> Z -> M (list DistRow * Table);
  winners_losers_calc : Table -> string -> string -> Z -> M (list WLRow);
  metrics_calc : Sim -> Sim -> string -> string -> Z -> M (list MetricRow);
  income_curve_calc :
    option (Scenario Modifier Params) -> Scenario Modifier Params ->
    string -> string -> Z -> M (list CurveRow);
  household_scatter_calc :
    Sim -> Sim -> string -> string -> Z -> M (list ScatterRow);
  constituency_calc :
    Sim -> Sim -> string -> Z -> Weights -> ConstituencyDF -> M (list ConstRow);
  demographic_calc :
    Sim -> Sim -> string -> Z -> Weights -> ConstituencyDF -> M (list DemoRow)
}.

Record t : Type := {
  reform : Reform.t Modifier Params;
  config : DataConfig Params;
  calculators : Calculators
}.

Definition weights_path (self : t) : string :=
  path_join (data_dir (config self)) "parliamentary_constituency_weights.h5".

Definition constituencies_path (self : t) : string :=
  path_join (data_inputs_dir (config self)) "constituencies_2024.csv".

Definition _calculate_constituency (fs : FileSystem) (self : t)
    (baseline reformed : Sim) (reform_id : string) (year : Z)
    : M (list ConstRow * list DemoRow) :=
  let weights_path := weights_path self in
  let constituencies_path := constituencies_path self in
  if negb (path_exists fs weights_path)
     || negb (path_exists fs constituencies_path)
  then raise (FileNotFoundError "Constituency data not found")
  else
    weights <- h5_dataset fs weights_path "2025" ;;
    constituency_df <- read_csv fs constituencies_path ;;
    constituency <-
      constituency_calc (calculators self) baseline reformed reform_id year
        weights constituency_df ;;
    demographic <-
      demographic_calc (calculators self) baseline reformed reform_id year
        weights constituency_df ;;
    ret (constituency, demographic).

(** the lists [all_distributional], ..., [all_demographic] of [process] *)
Record per_year : Type := {
  all_distributional : list DistRow;
  all_winners_losers : list WLRow;
  all_metrics : list MetricRow;
  all_income_curve : list CurveRow;
  all_household_scatter : list ScatterRow;
  all_constituency : list ConstRow;
  all_demographic : list DemoRow
}.

Definition no_rows : per_year :=
  {| all_distributional := []; all_winners_losers := []; all_metrics := [];
     all_income_curve := []; all_household_scatter := [];
     all_constituency := []; all_demographic := [] |}.

(** lines 131-171: the body of the loop over the years *)
Definition process_year (fs : FileSystem) (self : t) (baseline reformed : Sim)
    (acc : per_year) (year : Z) : M per_year :=
  let reform_id := Reform.id (reform self) in
  let reform_name := Reform.name (reform self) in
  let scenario := Reform.to_scenario (reform self) in
  ' (distributional, decile_df) <-
    distributional_calc (calculators self) baseline reformed reform_id
      reform_name year ;;
  winners_losers <-
    winners_losers_calc (calculators self) decile_df reform_id reform_name
      year ;;
  metrics <-
    metrics_calc (calculators self) baseline reformed reform_id reform_name
      year ;;
  let baseline_scenario := Reform.to_baseline_scenario (reform self) in
  income_curve <-
    income_curve_calc (calculators self) baseline_scenario scenario reform_id
      reform_name year ;;
  household_scatter <-
    household_scatter_calc (calculators self) baseline reformed reform_id
      reform_name year ;;
  ' (all_constituency, all_demographic) <-
    except_FileNotFoundError
      (' (constituency, demographic) <-
         _calculate_constituency fs self baseline reformed reform_id year ;;
       ret (all_constituency acc ++ constituency,
            all_demographic acc ++ demographic))
      (ret (all_constituency acc, all_demographic acc)) ;;
  ret {| all_distributional := all_distributional acc ++ distributional;
         all_winners_losers := all_winners_losers acc ++ winners_losers;
         all_metrics := all_metrics acc ++ metrics;
         all_income_curve := all_income_curve acc ++ income_curve;
         all_household_scatter :=
           all_household_scatter acc ++ household_scatter;
         all_constituency := all_constituency;
         all_demographic := all_demographic |}.

Definition process (fs : FileSystem) (self : t) (baseline reformed : Sim)
    : M ReformResult :=
  let reform_id := Reform.id (reform self) in
  let reform_name := Reform.name (reform self) in
  budgetary <-
    budgetary_calc (calculators self) baseline reformed reform_id reform_name ;;
  acc <- for_fold (years (config self)) no_rows
           (process_year fs self baseline reformed) ;;
  ret {| reform_id := reform_id;
         reform_name := reform_name;
         budgetary_impact := budgetary;
         distributional_impact := all_distributional acc;
         winners_losers := all_winners_losers acc;
         metrics := all_metrics acc;
         income_curve := all_income_curve acc;
         household_scatter := all_household_scatter acc;
         constituency := all_constituency acc;
         demographic_constituency := all_demographic acc |}.

End Processor.
Arguments ReformResult : clear implicits.
Arguments FileSystem : clear implicits.
Arguments Calculators : clear implicits.
Arguments per_year : clear implicits.
Arguments t : clear implicits.
End ReformProcessor.

(* ================================================================== *)
(** ** The input check and the processor of a reform (pipeline.py) *)

(** [DataConfig()]; a [Path] drops the leading [./] *)
Definition default_config {Params : Type} : DataConfig Params :=
  {| years := [2026; 2027; 2028; 2029; 2030]%Z;
     output_dir := "public/data";
     data_dir := "data";
     data_inputs_dir := "data_inputs";
     dataset_path := None;
     income_curve_max := 150000;
     income_curve_points := 201;
     household_scatter_max_income := 150000;
     config_baseline_parameter_changes := None |}.

(** lines 39-61 *)
Definition check_input_data {Params Weights ConstituencyDF : Type}
    (fs : ReformProcessor.FileSystem Weights ConstituencyDF)
    (config : DataConfig Params) : M unit :=
  let weights_path :=
    path_join (data_dir config) "parliamentary_constituency_weights.h5" in
  let constituencies_path :=
    path_join (data_inputs_dir config) "constituencies_2024.csv" in
  if negb (ReformProcessor.path_exists fs weights_path) then
    raise (FileNotFoundError ("Required file not found: " ++ weights_path))
  else if negb (ReformProcessor.path_exists fs constituencies_path) then
    raise (FileNotFoundError
             ("Required file not found: " ++ constituencies_path))
  else ret tt.

Section NewReformProcessor.
Context {MS : Type} `{MicroSeriesOps MS} `{MicroSeriesCount MS}.
Context {Modifier Params Sim : Type}.

(** lines 67-96: [ReformProcessor(reform, config)], with the simulation
    library its income-curve calculator imports *)
Definition new_ReformProcessor (lib : SimulationLib Modifier Params Sim)
    (reform : Reform.t Modifier Params) (config : option (DataConfig Params))
    : ReformProcessor.t (Microsimulation.t MS) Modifier Params
        (list (list Q)) (list constituency) DataFrame
        BudgetaryImpactCalculator.row DistributionalImpactCalculator.row
        WinnersLosersCalculator.row MetricsCalculator.row
        IncomeCurveCalculator.row HouseholdScatterCalculator.row
        ConstituencyCalculator.row DemographicConstituencyCalculator.row :=
  let config := match config with Some c => c | None => default_config end in
  let budgetary_calc :=
    {| BudgetaryImpactCalculator.years := years config |} in
  let distributional_calc := DistributionalImpactCalculator.default in
  let income_curve_calc :=
    {| IncomeCurveCalculator.max_income := income_curve_max config;
       IncomeCurveCalculator.num_points := income_curve_points config |} in
  let household_scatter_calc :=
    {| HouseholdScatterCalculator.max_income :=
         household_scatter_max_income config;
       HouseholdScatterCalculator.min_income := 0;
       HouseholdScatterCalculator.sample_size := 2000 |} in
  {| ReformProcessor.reform := reform;
     ReformProcessor.config := config;
     ReformProcessor.calculators :=
       {| ReformProcessor.budgetary_calc :=
            BudgetaryImpactCalculator.calculate budgetary_calc;
          ReformProcessor.distributional_calc :=
            DistributionalImpactCalculator.calculate distributional_calc;
          ReformProcessor.winners_losers_calc :=
            fun decile_df reform_id reform_name year =>
              ret (WinnersLosersCalculator.calculate decile_df reform_id
                     reform_name year);
          ReformProcessor.metrics_calc := MetricsCalculator.calculate;
          ReformProcessor.income_curve_calc :=
            IncomeCurveCalculator.calculate income_curve_calc lib;
          ReformProcessor.household_scatter_calc :=
            HouseholdScatterCalculator.calculate household_scatter_calc;
          ReformProcessor.constituency_calc :=
            ConstituencyCalculator.calculate;
          ReformProcessor.demographic_calc :=
            DemographicConstituencyCalculator.calculate |} |}.

End NewReformProcessor.

(* ================================================================== *)
(** ** The reforms of the budget (reforms.py) *)

(** [d[k] = v] on a dict: the value of an existing key is replaced where it
    is, a new key is added at the end. *)
Fixpoint str_dict_set {V} (d : list (string * V)) (k : string) (v : V)
    : list (string * V) :=
  match d with
  | [] => [ (k, v) ]
  | (k', v') :: d' =>
      if String.eqb k' k then (k', v) :: d'
      else (k', v') :: str_dict_set d' k v
  end.

(** [{key(x): value(x) for x in xs}] *)
Definition dict_comprehension {A V} (key : A -> string) (value : A -> V)
    (xs : list A) : list (string * V) :=
  fold_left (fun d x => str_dict_set d (key x) (value x)) xs [].

Module reforms.

Definition DEFAULT_YEARS : list Z := [2026; 2027; 2028; 2029; 2030]%Z.

(** the simulation modifiers the reforms are built with *)
Inductive modifier : Type :=
| freeze_scottish_thresholds_all_years.

(** [dict[str, dict[str, Any]]]: parameter path -> {period: value} *)
Definition params : Type := list (string * list (string * Q)).

(** lines 140-143; [years or DEFAULT_YEARS] takes the default for [None]
    and for an empty list *)
Definition _years_dict {V} (value : V) (years : option (list Z))
    : list (string * V) :=
  let years :=
    match years with
    | Some (y :: ys) => y :: ys
    | _ => DEFAULT_YEARS
    end in
  dict_comprehension str (fun _ => value) years.

Definition _create_scottish_threshold_freeze : Reform.t modifier params :=
  {| Reform.id := "scottish_threshold_freeze";
     Reform.name := "Scottish threshold freeze";
     Reform.description :=
       "Freezes Scottish Higher (42%), Advanced (45%), and Top (48%) "
       ++ "rate thresholds at £43,662, £75,000, and £125,140 respectively "
       ++ "through 2026-27. Meanwhile, Starter/Basic/Intermediate thresholds "
       ++ "rise by 3.5%. This 'fiscal drag' means wage inflation pushes more "
       ++ "income into higher bands. IFS estimates this raises £223m in 2026-27. "
       ++ "Compares frozen thresholds (actual policy) against CPI-uprated "
       ++ "thresholds (counterfactual).";
     Reform.parameter_changes := None;
     Reform.baseline_parameter_changes := None;
     Reform.baseline_simulation_modifier := None;
     Reform.simulation_modifier := Some freeze_scottish_thresholds_all_years |}.

Definition _create_two_child_limit_removal : Reform.t modifier params :=
  {| Reform.id := "two_child_limit_removal";
     Reform.name := "Two Child Limit removal";
     Reform.description :=
       "Removes the two-child limit on Universal Credit and Tax Credits from "
       ++ "April 2026. The limit restricted child-related payments to the first "
       ++ "two children in a family. Compares UK Government policy (limit removed) "
       ++ "against previous baseline (limit of 2). Lifts 450,000 children out of "
       ++ "poverty, with average gains of £5,310/year per affected family.";
     Reform.parameter_changes := Some [];
     Reform.baseline_parameter_changes :=
       Some [ ("gov.dwp.tax_credits.child_tax_credit.limit.child_count",
               _years_dict 2 None);
              ("gov.dwp.universal_credit.elements.child.limit.child_count",
               _years_dict 2 None) ];
     Reform.baseline_simulation_modifier := None;
     Reform.simulation_modifier := None |}.

Definition _create_scottish_child_payment_increase
    : Reform.t modifier params :=
  {| Reform.id := "scottish_child_payment_increase";
     Reform.name := "Scottish Child Payment increase";
     Reform.description :=
       "Increases Scottish Child Payment by £5/week from £27.15 to £32.15. "
       ++ "The SCP supports 322,000 children in Scotland with a 94% take-up rate, "
       ++ "keeping 40,000 children out of poverty. This £260/year increase per "
       ++ "child would further reduce child poverty in Scotland.";
     Reform.parameter_changes :=
       Some [ ("gov.social_security_scotland.scottish_child_payment.amount",
               _years_dict (3215 # 100) None) ];
     Reform.baseline_parameter_changes := Some [];
     Reform.baseline_simulation_modifier := None;
     Reform.simulation_modifier := None |}.

(** lines 229-239; the cache holds this list from the first call on *)
Definition _get_scottish_budget_2026_reforms
    : list (Reform.t modifier params) :=
  [ _create_scottish_threshold_freeze; _create_two_child_limit_removal ].

(** lines 242-249 *)
Definition _get_reform_lookup : list (string * Reform.t modifier params) :=
  dict_comprehension Reform.id (fun r => r) _get_scottish_budget_2026_reforms.

Definition get_scottish_budget_2026_reforms
    : list (Reform.t modifier params) :=
  _get_scottish_budget_2026_reforms.

Definition get_reform (reform_id : string)
    : option (Reform.t modifier params) :=
  str_dict_get _get_reform_lookup reform_id.

Definition list_reform_ids : list string := map fst _get_reform_lookup.

End reforms.

(* ================================================================== *)
(** ** DataPipeline (pipeline.py)

    The microsimulation classes and the two pandas calls on the SFC
    estimates belong to libraries and are used through interfaces.  A
    [Scenario], a [DataConfig] and a [Path] are objects without a truth
    value of their own: [x or y] and [if x] only test them against
    [None]. *)

Record MicrosimulationLib (MS Modifier Params Dataset : Type) : Type := {
  (* [UKSingleYearDataset(file_path=...)] *)
  UKSingleYearDataset : string -> M Dataset;
  (* the truth value of a dataset, for [if dataset:] *)
  dataset_bool : Dataset -> bool;
  (* [Microsimulation(dataset=..., scenario=...)], either keyword optional *)
  new_Microsimulation :
    option Dataset -> option (Scenario Modifier Params) ->
    M (Microsimulation.t MS)
}.
Arguments UKSingleYearDataset {MS Modifier Params Dataset} _ _.
Arguments dataset_bool {MS Modifier Params Dataset} _ _.
Arguments new_Microsimulation {MS Modifier Params Dataset} _ _ _.

(** a row of [pe_df]: a budgetary row with [value] renamed *)
Record pe_row : Type := {
  pe_reform_id : string;
  pe_reform_name : string;
  pe_year : Z;
  policyengine_value : Q
}.

Record PandasLib (SfcDF Comparison : Type) : Type := {
  (* [pd.read_csv(sfc_path)] *)
  read_sfc_csv : string -> M SfcDF;
  (* [sfc_df.columns] *)
  sfc_columns : SfcDF -> list string;
  (* [pd.merge(pe_df, sfc_df[sfc_cols], on=["reform_id", "year"],
                how="left")] *)
  merge_left : list pe_row -> SfcDF -> list string -> M Comparison;
  (* [len(comparison)] *)
  comparison_len : Comparison -> nat
}.
Arguments read_sfc_csv {SfcDF Comparison} _ _.
Arguments sfc_columns {SfcDF Comparison} _ _.
Arguments merge_left {SfcDF Comparison} _ _ _ _.
Arguments comparison_len {SfcDF Comparison} _ _.

(** The DataFrames of the output: [pd.DataFrame()], the frame of the rows
    of one calculator, or the merged comparison. *)
Inductive table (Comparison : Type) : Type :=
| EmptyFrame
| BudgetaryFrame (rows : list BudgetaryImpactCalculator.row)
| DistributionalFrame (rows : list DistributionalImpactCalculator.row)
| WinnersLosersFrame (rows : list WinnersLosersCalculator.row)
| MetricsFrame (rows : list MetricsCalculator.row)
| IncomeCurveFrame (rows : list IncomeCurveCalculator.row)
| HouseholdScatterFrame (rows : list HouseholdScatterCalculator.row)
| ConstituencyFrame (rows : list ConstituencyCalculator.row)
| DemographicFrame (rows : list DemographicConstituencyCalculator.row)
| ComparisonFrame (comparison : Comparison).
Arguments EmptyFrame {Comparison}.
Arguments BudgetaryFrame {Comparison} _.
Arguments DistributionalFrame {Comparison} _.
Arguments WinnersLosersFrame {Comparison} _.
Arguments MetricsFrame {Comparison} _.
Arguments IncomeCurveFrame {Comparison} _.
Arguments HouseholdScatterFrame {Comparison} _.
Arguments ConstituencyFrame {Comparison} _.
Arguments DemographicFrame {Comparison} _.
Arguments ComparisonFrame {Comparison} _.

(** the result of a reform as the processor of the pipeline returns it *)
Abbreviation reform_result :=
  (ReformProcessor.ReformResult BudgetaryImpactCalculator.row
     DistributionalImpactCalculator.row WinnersLosersCalculator.row
     MetricsCalculator.row IncomeCurveCalculator.row
     HouseholdScatterCalculator.row ConstituencyCalculator.row
     DemographicConstituencyCalculator.row).

(** The rows gathered for the eight keys the calculators fill. *)
Module Gathered.

Record t : Type := {
  budgetary_impact : list BudgetaryImpactCalculator.row;
  distributional_impact : list DistributionalImpactCalculator.row;
  winners_losers : list WinnersLosersCalculator.row;
  metrics : list MetricsCalculator.row;
  income_curve : list IncomeCurveCalculator.row;
  household_scatter : list HouseholdScatterCalculator.row;
  constituency : list ConstituencyCalculator.row;
  demographic_constituency : list DemographicConstituencyCalculator.row
}.

Definition empty : t :=
  {| budgetary_impact := []; distributional_impact := [];
     winners_losers := []; metrics := []; income_curve := [];
     household_scatter := []; constituency := [];
     demographic_constituency := [] |}.

End Gathered.

Section Aggregate.
Context {Params Weights ConstituencyDF SfcDF Comparison : Type}.

(** [len(df)] *)
Definition len (pandas : PandasLib SfcDF Comparison) (df : table Comparison)
    : nat :=
  match df with
  | EmptyFrame => 0
  | BudgetaryFrame rows => List.length rows
  | DistributionalFrame rows => List.length rows
  | WinnersLosersFrame rows => List.length rows
  | MetricsFrame rows => List.length rows
  | IncomeCurveFrame rows => List.length rows
  | HouseholdScatterFrame rows => List.length rows
  | ConstituencyFrame rows => List.length rows
  | DemographicFrame rows => List.length rows
  | ComparisonFrame comparison => comparison_len pandas comparison
  end.

(** [pd.concat([aggregated[key], pd.DataFrame(rows)], ignore_index=True)]
    under [if rows:], on the rows gathered so far for the key *)
Definition concat_rows {A} (gathered rows : list A) : list A :=
  match rows with
  | [] => gathered
  | _ :: _ => gathered ++ rows
  end.

(** the frame of a key after the loop: still [pd.DataFrame()] when no
    result had rows for it *)
Definition frame_of {A} (frame : list A -> table Comparison) (rows : list A)
    : table Comparison :=
  match rows with
  | [] => EmptyFrame
  | _ :: _ => frame rows
  end.

(** lines 357-427: one iteration of the loop over the results *)
Definition gather_result (aggregated : Gathered.t) (result : reform_result)
    : Gathered.t :=
    {| Gathered.budgetary_impact :=
         concat_rows (Gathered.budgetary_impact aggregated)
                     (ReformProcessor.budgetary_impact result);
       Gathered.distributional_impact :=
         concat_rows (Gathered.distributional_impact aggregated)
                     (ReformProcessor.distributional_impact result);
       Gathered.winners_losers :=
         concat_rows (Gathered.winners_losers aggregated)
                     (ReformProcessor.winners_losers result);
       Gathered.metrics :=
         concat_rows (Gathered.metrics aggregated)
                     (ReformProcessor.metrics result);
       Gathered.income_curve :=
         concat_rows (Gathered.income_curve aggregated)
                     (ReformProcessor.income_curve result);
       Gathered.household_scatter :=
         concat_rows (Gathered.household_scatter aggregated)
                     (ReformProcessor.household_scatter result);
       Gathered.constituency :=
         concat_rows (Gathered.constituency aggregated)
                     (ReformProcessor.constituency result);
       Gathered.demographic_constituency :=
         concat_rows (Gathered.demographic_constituency aggregated)
                     (ReformProcessor.demographic_constituency result) |}.

(** lines 356-427: the loop over the results *)
Definition gather (results : list reform_result) : Gathered.t :=
  fold_left gather_result results Gathered.empty.

(** [pe_df]: the budgetary frame with [value] renamed *)
Definition rename_value (r : BudgetaryImpactCalculator.row) : pe_row :=
  {| pe_reform_id := BudgetaryImpactCalculator.reform_id r;
     pe_reform_name := BudgetaryImpactCalculator.reform_name r;
     pe_year := BudgetaryImpactCalculator.year r;
     policyengine_value := BudgetaryImpactCalculator.value r |}.

(** lines 429-446: the comparison with the SFC estimates *)
Definition sfc_comparison_of
    (fs : ReformProcessor.FileSystem Weights ConstituencyDF)
    (pandas : PandasLib SfcDF Comparison)
    (budgetary_impact : list BudgetaryImpactCalculator.row)
    (config : option (DataConfig Params)) : M (table Comparison) :=
  match config with
  | Some config =>
      if (0 <? List.length budgetary_impact)%nat then
        let sfc_path :=
          path_join (data_inputs_dir config) "sfc_estimates.csv" in
        if ReformProcessor.path_exists fs sfc_path then
          sfc_df <- read_sfc_csv pandas sfc_path ;;
          let pe_df := map rename_value budgetary_impact in
          let sfc_cols :=
            [ "reform_id"; "year" ]
            ++ (if existsb (String.eqb "sfc_value") (sfc_columns pandas sfc_df)
                then [ "sfc_value" ] else []) in
          comparison <- merge_left pandas pe_df sfc_df sfc_cols ;;
          ret (ComparisonFrame comparison)
        else ret EmptyFrame
      else ret EmptyFrame
  | None => ret EmptyFrame
  end.

(** lines 331-448; the rows of a key are gathered in a list, and the dict
    of frames is built from the lists *)
Definition aggregate_results
    (fs : ReformProcessor.FileSystem Weights ConstituencyDF)
    (pandas : PandasLib SfcDF Comparison)
    (results : list reform_result) (config : option (DataConfig Params))
    : M (list (string * table Comparison)) :=
  let aggregated := gather results in
  sfc_comparison <-
    sfc_comparison_of fs pandas (Gathered.budgetary_impact aggregated)
      config ;;
  ret [ ("budgetary_impact",
         frame_of BudgetaryFrame (Gathered.budgetary_impact aggregated));
        ("distributional_impact",
         frame_of DistributionalFrame
           (Gathered.distributional_impact aggregated));
        ("winners_losers",
         frame_of WinnersLosersFrame
           (Gathered.winners_losers aggregated));
        ("metrics",
         frame_of MetricsFrame (Gathered.metrics aggregated));
        ("income_curve",
         frame_of IncomeCurveFrame (Gathered.income_curve aggregated));
        ("household_scatter",
         frame_of HouseholdScatterFrame
           (Gathered.household_scatter aggregated));
        ("constituency",
         frame_of ConstituencyFrame (Gathered.constituency aggregated));
        ("demographic_constituency",
         frame_of DemographicFrame
           (Gathered.demographic_constituency aggregated));
        ("sfc_comparison", sfc_comparison) ].

End Aggregate.

Module DataPipeline.
Section Pipeline.
Context {MS : Type} `{MicroSeriesOps MS} `{MicroSeriesCount MS}.
Context {Modifier Params Sim Dataset SfcDF Comparison : Type}.

Record t : Type := {
  reforms : list (Reform.t Modifier Params);
  config : DataConfig Params
}.

(** lines 223-235: [DataPipeline(reforms, config)]; [default_reforms] is
    [get_scottish_budget_2026_reforms()] *)
Definition new (default_reforms : list (Reform.t Modifier Params))
    (reforms : option (list (Reform.t Modifier Params)))
    (config : option (DataConfig Params)) : t :=
  {| reforms :=
       match reforms with
       | Some (r :: rs) => r :: rs
       | _ => default_reforms
       end;
     config := match config with Some c => c | None => default_config end |}.

Definition file_mapping : list (string * string) :=
  [ ("budgetary_impact", "budgetary_impact.csv");
    ("distributional_impact", "distributional_impact.csv");
    ("winners_losers", "winners_losers.csv");
    ("metrics", "metrics.csv");
    ("income_curve", "income_curve.csv");
    ("household_scatter", "household_scatter_full.csv");
    ("constituency", "constituency.csv");
    ("demographic_constituency", "demographic_constituency.csv");
    ("sfc_comparison", "sfc_comparison.csv") ].

(** lines 308-328: the files written by [save_csv], with their frames *)
Definition _save_all (pandas : PandasLib SfcDF Comparison) (self : t)
    (data : list (string * table Comparison))
    : list (string * table Comparison) :=
  let output_dir := output_dir (config self) in
  flat_map (fun item =>
    let key := fst item in
    let filename := snd item in
    match str_dict_get data key with
    | Some df =>
        if (0 <? len pandas df)%nat
        then [ (path_join output_dir filename, df) ]
        else []
    | None => []
    end) file_mapping.

(** lines 251-257 *)
Definition load_dataset
    (microsimulation : MicrosimulationLib MS Modifier Params Dataset)
    (self : t) : M (option Dataset) :=
  match dataset_path (config self) with
  | Some path =>
      dataset <- UKSingleYearDataset microsimulation path ;;
      ret (Some dataset)
  | None => ret None
  end.

(** lines 269-292: the two simulations of a reform *)
Definition simulations
    (microsimulation : MicrosimulationLib MS Modifier Params Dataset)
    (self : t) (dataset : option Dataset) (reform : Reform.t Modifier Params)
    : M (Microsimulation.t MS * Microsimulation.t MS) :=
  let baseline_scenario :=
    match Reform.to_baseline_scenario reform with
    | Some scenario => Some scenario
    | None => get_baseline_scenario (config self)
    end in
  let reform_scenario := Reform.to_scenario reform in
  match dataset with
  | Some d =>
      if dataset_bool microsimulation d then
        baseline <-
          match baseline_scenario with
          | Some s => new_Microsimulation microsimulation (Some d) (Some s)
          | None => new_Microsimulation microsimulation (Some d) None
          end ;;
        reformed <-
          new_Microsimulation microsimulation (Some d) (Some reform_scenario) ;;
        ret (baseline, reformed)
      else
        baseline <-
          match baseline_scenario with
          | Some s => new_Microsimulation microsimulation None (Some s)
          | None => new_Microsimulation microsimulation None None
          end ;;
        reformed <-
          new_Microsimulation microsimulation None (Some reform_scenario) ;;
        ret (baseline, reformed)
  | None =>
      baseline <-
        match baseline_scenario with
        | Some s => new_Microsimulation microsimulation None (Some s)
        | None => new_Microsimulation microsimulation None None
        end ;;
      reformed <-
        new_Microsimulation microsimulation None (Some reform_scenario) ;;
      ret (baseline, reformed)
  end.

(** lines 237-306: the aggregated frames, and the files written *)
Definition run
    (fs : ReformProcessor.FileSystem (list (list Q)) (list constituency))
    (microsimulation : MicrosimulationLib MS Modifier Params Dataset)
    (lib : SimulationLib Modifier Params Sim)
    (pandas : PandasLib SfcDF Comparison)
    (self : t) (skip_input_check : bool)
    : M (list (string * table Comparison)
         * list (string * table Comparison)) :=
  _ <- (if negb skip_input_check then check_input_data fs (config self)
        else ret tt) ;;
  dataset <- load_dataset microsimulation self ;;
  results <-
    for_each (reforms self) (fun reform =>
      ' (baseline, reformed) <-
        simulations microsimulation self dataset reform ;;
      let processor := new_ReformProcessor lib reform (Some (config self)) in
      result <- ReformProcessor.process fs processor baseline reformed ;;
      ret [ result ]) ;;
  aggregated <- aggregate_results fs pandas results (Some (config self)) ;;
  let written := _save_all pandas self aggregated in
  ret (aggregated, written).

End Pipeline.
Arguments t : clear implicits.
End DataPipeline.

(* ================================================================== *)
(** ** A reference implementation of the adapter interface

    Weighted series in the manner of microdf: [sum] is the weighted sum and
    [gini] the weighted Gini coefficient, written as the weighted mean
    absolute difference over twice the weighted mean.  Used to run the
    calculators on concrete populations. *)

Record Series : Type := {
  s_values : list Q;
  s_flags : list bool;
  s_weights : list Q
}.

(** [Σ_i Σ_j w_i w_j |x_i - x_j|] *)
Definition abs_difference_sum (xs ws : list Q) : Q :=
  let xw := combine xs ws in
  np.sum (map (fun p =>
            np.sum (map (fun q => snd p * snd q * Qabs (fst p - fst q)) xw))
          xw).

Definition weighted_gini (xs ws : list Q) : ext :=
  Ext.div (Fin (abs_difference_sum xs ws))
          (Fin (2 * np.sum ws * np.sum (np.mul xs ws))).

#[export] Instance Series_ops : MicroSeriesOps Series := {|
  values := s_values;
  flags := s_flags;
  ms_sub := fun a b =>
    {| s_values := np.sub (s_values a) (s_values b);
       s_flags := [];
       s_weights := s_weights a |};
  ms_sum := fun a => np.sum (np.mul (s_values a) (s_weights a));
  MicroSeries := fun v w => {| s_values := v; s_flags := []; s_weights := w |};
  gini := fun a => weighted_gini (s_values a) (s_weights a)
|}.

(** A simulation that knows the listed variables, for every period. *)
Definition simulation_of (variables : list (string * Series))
    : Microsimulation.t Series :=
  {| Microsimulation.calculate := fun variable _ _ =>
       match find (fun p => String.eqb (fst p) variable) variables with
       | Some p => ret (snd p)
       | None => raise (SimulationError variable)
       end |}.

Definition numeric (v w : list Q) : Series :=
  {| s_values := v; s_flags := []; s_weights := w |}.

Definition boolean (f : list bool) (w : list Q) : Series :=
  {| s_values := []; s_flags := f; s_weights := w |}.

(** [count()] of a weighted series: the sum of the weights. *)
#[export] Instance Series_count : MicroSeriesCount Series := {|
  ms_count := fun a => np.sum (s_weights a)
|}.

(** A simulation library whose household has a net income of 20000 plus
    half of the employment income of the curve, and 500 more under a reform
    whose scenario carries a modifier. *)
Definition toy_curve (count : nat) (bonus : Q) : list Q :=
  map (fun i => 20000 + bonus + inject_Z (Z.of_nat i) * 375) (seq 0 count).

Definition toy_simulation_lib (count : nat)
    : SimulationLib unit unit (option (Scenario unit unit)) :=
  {| Simulation := fun scenario _ => ret scenario;
     sim_calculate := fun sim variable _ =>
       if String.eqb variable "household_net_income" then
         match sim with
         | Some {| scenario_simulation_modifier := Some _ |} =>
             ret (toy_curve count 500)
         | _ => ret (toy_curve count 0)
         end
       else raise (SimulationError variable) |}.

(* ================================================================== *)
(** ** Example inputs *)

Definition mk_row (d b r w : Q) : decile_row :=
  {| household_income_decile := d; baseline_income := b; reform_income := r;
     income_change := r - b; household_weight := w |}.

(** One household in decile 1 with weight zero. *)
Definition zero_weight_df : DataFrame := [ mk_row 1 100 110 0 ].

(** One household in decile 1 with a negative baseline income. *)
Definition negative_baseline_df : DataFrame := [ mk_row 1 (-100) (-90) 1 ].

(** The two households of the end-to-end scenario, in decile 1. *)
Definition two_households_df : DataFrame :=
  [ mk_row 1 100 110 1; mk_row 1 200 180 1 ].

(** A classified household and one whose decile label is 0. *)
Definition unclassified_df : DataFrame :=
  [ mk_row 1 100 100 1; mk_row 0 100 110 1 ].

(** A household in decile 1 and one in decile 2. *)
Definition two_deciles_df : DataFrame :=
  [ mk_row 1 100 110 1; mk_row 2 200 190 1 ].

(** A calculator configured with the name of the first decile only. *)
Definition one_name : DistributionalImpactCalculator.t :=
  {| DistributionalImpactCalculator.decile_names := [ "poorest" ] |}.

(** Two units; the repayments and the balance move differently. *)
Definition fiscal_baseline : Microsimulation.t Series :=
  simulation_of
    [ ("student_loan_repayment", numeric [1000000000; 2000000000] [1; 1]);
      ("gov_balance", numeric [5000000000; 5000000000] [1; 1]) ].

Definition fiscal_reformed : Microsimulation.t Series :=
  simulation_of
    [ ("student_loan_repayment", numeric [2000000000; 4000000000] [1; 1]);
      ("gov_balance", numeric [6000000000; 5000000000] [1; 1]) ].

(** Five households around the bounds of the default income window. *)
Definition window_incomes : list Q := [-1; 0; 75000; 150000; 150001].
Definition window_changes : list Q := [10; 20; 30; 40; 50].
Definition window_weights : list Q := [1; 2; 3; 4; 5].
Definition window_ids : list Q := [101; 102; 103; 104; 105].

(** The same households with the change of the last two missing. *)
Definition window_changes_short : list Q := [10; 20; 30].

(** One geography, two unmarried households with 5 children each. *)
Definition demo_income_baseline : Series := numeric [20000; 30000] [1; 1].
Definition demo_income_reformed : Series := numeric [21000; 30500] [1; 1].
Definition demo_children : Series := numeric [5; 5] [1; 1].
Definition demo_married : Series := boolean [false; false] [1; 1].

Definition demo_baseline : Microsimulation.t Series :=
  simulation_of
    [ ("household_net_income", demo_income_baseline);
      ("num_children", demo_children);
      ("is_married", demo_married) ].

Definition demo_reformed : Microsimulation.t Series :=
  simulation_of [ ("household_net_income", demo_income_reformed) ].

Definition demo_geography : constituency :=
  {| name := "Glasgow North"; code := "S14000088" |}.

Definition demo_weights : list (list Q) := [ [3; 4] ].

(** Three households, the first one unclassified (decile 0). *)
Definition table_baseline : Microsimulation.t Series :=
  simulation_of
    [ ("household_net_income", numeric [100; 200; 300] [1; 1; 2]);
      ("household_income_decile", numeric [0; 1; 2] [1; 1; 2]);
      ("household_weight", numeric [1; 1; 2] [1; 1; 2]) ].

Definition table_reformed : Microsimulation.t Series :=
  simulation_of
    [ ("household_net_income", numeric [150; 210; 280] [1; 1; 2]) ].

(** A population in which every weight is zero: two households, three
    persons. *)
Definition weightless_baseline : Microsimulation.t Series :=
  simulation_of
    [ ("household_net_income", numeric [100; 200] [0; 0]);
      ("household_income_decile", numeric [1; 2] [0; 0]);
      ("household_count_people", numeric [1; 2] [0; 0]);
      ("household_weight", numeric [0; 0] [0; 0]);
      ("equiv_household_net_income", numeric [100; 150] [0; 0]);
      ("in_poverty_bhc", boolean [true; false; false] [0; 0; 0]);
      ("person_weight", numeric [0; 0; 0] [0; 0; 0]) ].

Definition weightless_reformed : Microsimulation.t Series :=
  simulation_of
    [ ("household_net_income", numeric [110; 180] [0; 0]);
      ("equiv_household_net_income", numeric [110; 140] [0; 0]);
      ("in_poverty_bhc", boolean [false; false; false] [0; 0; 0]) ].

(** [simulation] with one variable replaced. *)
Definition with_variable (simulation : Microsimulation.t Series)
    (variable : string) (series : Series) : Microsimulation.t Series :=
  {| Microsimulation.calculate := fun v period map_to =>
       if String.eqb v variable then ret series
       else Microsimulation.calculate simulation v period map_to |}.

(** Three households of 2, 1 and 3 persons; six persons. *)
Definition gini_baseline : Microsimulation.t Series :=
  simulation_of
    [ ("household_net_income", numeric [100; 200; 300] [1; 1; 1]);
      ("household_income_decile", numeric [1; 5; 10] [1; 1; 1]);
      ("household_count_people", numeric [2; 1; 3] [1; 1; 1]);
      ("household_weight", numeric [1; 1; 1] [1; 1; 1]);
      ("equiv_household_net_income", numeric [-50; 200; 400] [1; 1; 1]);
      ("in_poverty_bhc",
       boolean [true; true; false; false; false; false] [1; 1; 1; 1; 1; 1]);
      ("person_weight", numeric [1; 1; 1; 1; 1; 1] [1; 1; 1; 1; 1; 1]) ].

Definition gini_reformed : Microsimulation.t Series :=
  simulation_of
    [ ("household_net_income", numeric [120; 200; 290] [1; 1; 1]);
      ("equiv_household_net_income", numeric [100; 200; 380] [1; 1; 1]);
      ("in_poverty_bhc",
       boolean [false; true; false; false; false; false] [1; 1; 1; 1; 1; 1]) ].

(** The same simulations with the equivalised incomes doubled. *)
Definition gini_baseline_doubled : Microsimulation.t Series :=
  with_variable gini_baseline "equiv_household_net_income"
    (numeric [-100; 400; 800] [1; 1; 1]).

Definition gini_reformed_doubled : Microsimulation.t Series :=
  with_variable gini_reformed "equiv_household_net_income"
    (numeric [200; 400; 760] [1; 1; 1]).

(** A processor whose calculators label their rows, run where the weights
    file is missing. *)
Definition labelled (label : string) (year : Z) : list string :=
  [ (label ++ " " ++ str year)%string ].

Definition toy_calculators
    : ReformProcessor.Calculators unit unit unit (list (list Q))
        (list constituency) DataFrame string string string string string
        string string string :=
  {| ReformProcessor.budgetary_calc := fun _ _ _ _ => ret [ "budgetary" ];
     ReformProcessor.distributional_calc :=
       fun _ _ _ _ y => ret (labelled "distributional" y, two_households_df);
     ReformProcessor.winners_losers_calc :=
       fun _ _ _ y => ret (labelled "winners_losers" y);
     ReformProcessor.metrics_calc :=
       fun _ _ _ _ y => ret (labelled "metrics" y);
     ReformProcessor.income_curve_calc :=
       fun _ _ _ _ y => ret (labelled "income_curve" y);
     ReformProcessor.household_scatter_calc :=
       fun _ _ _ _ y => ret (labelled "household_scatter" y);
     ReformProcessor.constituency_calc :=
       fun _ _ _ y _ _ => ret (labelled "constituency" y);
     ReformProcessor.demographic_calc :=
       fun _ _ _ y _ _ => ret (labelled "demographic" y) |}.

Definition toy_reform : Reform.t unit unit :=
  {| Reform.id := "scottish_threshold_freeze";
     Reform.name := "Threshold freeze";
     Reform.description := "";
     Reform.parameter_changes := None;
     Reform.baseline_parameter_changes := None;
     Reform.baseline_simulation_modifier := None;
     Reform.simulation_modifier := Some tt |}.

Definition toy_config : DataConfig unit :=
  {| years := [2026; 2027]%Z;
     output_dir := "./public/data";
     data_dir := "./data";
     data_inputs_dir := "./data_inputs";
     dataset_path := None;
     income_curve_max := 150000;
     income_curve_points := 201;
     household_scatter_max_income := 150000;
     config_baseline_parameter_changes := None |}.

Definition toy_processor :=
  {| ReformProcessor.reform := toy_reform;
     ReformProcessor.config := toy_config;
     ReformProcessor.calculators := toy_calculators |}.

(** The reference table is there, the weights file is not. *)
Definition no_weights_file
    : ReformProcessor.FileSystem (list (list Q)) (list constituency) :=
  {| ReformProcessor.path_exists :=
       fun path => String.eqb path "./data_inputs/constituencies_2024.csv";
     ReformProcessor.h5_dataset :=
       fun path _ => raise (FileNotFoundError path);
     ReformProcessor.read_csv := fun _ => ret [ demo_geography ] |}.

(** A curve of five points up to 3000, and the scenario of [toy_reform]. *)
Definition five_points : IncomeCurveCalculator.t :=
  {| IncomeCurveCalculator.max_income := 3000;
     IncomeCurveCalculator.num_points := 5 |}.

Definition toy_scenario : Scenario unit unit := Reform.to_scenario toy_reform.

(** Both files are there; the weights matrix has one row. *)
Definition both_files (weights : list (list Q))
    : ReformProcessor.FileSystem (list (list Q)) (list constituency) :=
  {| ReformProcessor.path_exists := fun _ => true;
     ReformProcessor.h5_dataset := fun _ _ => ret weights;
     ReformProcessor.read_csv := fun _ => ret [ demo_geography ] |}.

(** The toy calculators with a demographic calculator that fails. *)
Definition failing_calculators
    : ReformProcessor.Calculators unit unit unit (list (list Q))
        (list constituency) DataFrame string string string string string
        string string string :=
  {| ReformProcessor.budgetary_calc :=
       ReformProcessor.budgetary_calc toy_calculators;
     ReformProcessor.distributional_calc :=
       ReformProcessor.distributional_calc toy_calculators;
     ReformProcessor.winners_losers_calc :=
       ReformProcessor.winners_losers_calc toy_calculators;
     ReformProcessor.metrics_calc :=
       ReformProcessor.metrics_calc toy_calculators;
     ReformProcessor.income_curve_calc :=
       ReformProcessor.income_curve_calc toy_calculators;
     ReformProcessor.household_scatter_calc :=
       ReformProcessor.household_scatter_calc toy_calculators;
     ReformProcessor.constituency_calc :=
       ReformProcessor.constituency_calc toy_calculators;
     ReformProcessor.demographic_calc := fun _ _ _ _ _ _ => raise IndexError |}.

Definition failing_processor :=
  {| ReformProcessor.reform := toy_reform;
     ReformProcessor.config := toy_config;
     ReformProcessor.calculators := failing_calculators |}.

(** Three households with every variable the calculators read; the reform
    raises two incomes and the balance. *)
Definition full_baseline : Microsimulation.t Series :=
  simulation_of
    [ ("gov_balance", numeric [5000000000; 5000000000; 0] [1; 1; 1]);
      ("household_net_income", numeric [100; 200; 200000] [1; 1; 1]);
      ("household_income_decile", numeric [1; 5; 10] [1; 1; 1]);
      ("household_count_people", numeric [2; 1; 3] [1; 1; 1]);
      ("household_weight", numeric [1; 1; 1] [1; 1; 1]);
      ("household_id", numeric [11; 12; 13] [1; 1; 1]);
      ("equiv_household_net_income", numeric [50; 200; 400] [1; 1; 1]);
      ("in_poverty_bhc",
       boolean [true; true; false; false; false; false] [1; 1; 1; 1; 1; 1]);
      ("person_weight", numeric [1; 1; 1; 1; 1; 1] [1; 1; 1; 1; 1; 1]);
      ("num_children", numeric [0; 2; 5] [1; 1; 1]);
      ("is_married", boolean [false; true; true] [1; 1; 1]) ].

Definition full_reformed : Microsimulation.t Series :=
  simulation_of
    [ ("gov_balance", numeric [6000000000; 5000000000; 0] [1; 1; 1]);
      ("household_net_income", numeric [120; 200; 200500] [1; 1; 1]);
      ("equiv_household_net_income", numeric [100; 200; 380] [1; 1; 1]);
      ("in_poverty_bhc",
       boolean [false; true; false; false; false; false] [1; 1; 1; 1; 1; 1]) ].

(** One year, a scatter window up to 1000 and a curve of five points. *)
Definition small_config : DataConfig unit :=
  {| years := [2026]%Z;
     output_dir := "public/data";
     data_dir := "data";
     data_inputs_dir := "data_inputs";
     dataset_path := None;
     income_curve_max := 3000;
     income_curve_points := 5;
     household_scatter_max_income := 1000;
     config_baseline_parameter_changes := None |}.

Definition small_processor :=
  new_ReformProcessor (toy_simulation_lib 5) toy_reform (Some small_config).


(** Libraries for a run: every simulation is built on the three households
    of [full_baseline], a scenario with a modifier giving the reformed
    incomes; the merge keeps the budgetary rows. *)
Definition toy_microsimulation : MicrosimulationLib Series unit unit unit :=
  {| UKSingleYearDataset := fun _ => ret tt;
     dataset_bool := fun _ => true;
     new_Microsimulation := fun _ scenario =>
       match scenario with
       | Some {| scenario_simulation_modifier := Some _ |} => ret full_reformed
       | _ => ret full_baseline
       end |}.

Definition toy_pandas : PandasLib unit (list pe_row) :=
  {| read_sfc_csv := fun _ => ret tt;
     sfc_columns := fun _ => [ "reform_id"; "year"; "sfc_value" ];
     merge_left := fun pe_df _ _ => ret pe_df;
     comparison_len := fun comparison => List.length comparison |}.

Definition small_pipeline : DataPipeline.t unit unit :=
  DataPipeline.new [] (Some [ toy_reform ]) (Some small_config).

(* ================================================================== *)
(** ** Notions used in the statements *)

(** The sum the specification writes [Σ(w·x)]: weight first. *)
Definition sigma_w (x : decile_row -> Q) (df : DataFrame) : Q :=
  np.sum (map (fun r => household_weight r * x r) df).

(** A unit is classified when its decile label is one of 1, ..., 10. *)
Definition classified (r : decile_row) : Prop :=
  exists d, (1 <= d <= 10)%Z /\ household_income_decile r == inject_Z d.

(** The same as a test: the decile label is one of 1, ..., 10. *)
Definition labelled_1_to_10 (r : decile_row) : bool :=
  existsb (fun d => np.eq (household_income_decile r) (inject_Z d))
          (range 1 11).

(** [xs'] is [xs] with every income multiplied by [c]. *)
Definition scaled (c : Q) (xs xs' : list Q) : Prop :=
  Forall2 (fun x x' => x' == c * x) xs xs'.

(** The same for (income, weight) pairs: the weight is unchanged. *)
Definition scaled_pair (c : Q) (p p' : Q * Q) : Prop :=
  fst p' == c * fst p /\ snd p' = snd p.

Section DistributionalNotions.
Import DistributionalImpactCalculator.

(** The name of decile [d] in the default configuration. *)
Definition decile_name (d : Z) : string :=
  nth (Z.to_nat (d - 1)) (decile_names default) "".

(** The rows reported for decile [d] in the default configuration. *)
Definition named_decile_rows (rid rn : string) (y : Z) (df : DataFrame)
    (d : Z) : list row :=
  if (0 <? List.length (decile_data df d))%nat then
    [ {| reform_id := rid; reform_name := rn; year := y;
         decile := decile_name d; value := rel_change (decile_data df d) |} ]
  else [].

End DistributionalNotions.

Section WinnersLosersNotions.
Import WinnersLosersCalculator.

(** The average reported for decile [d] in an output, 0 when the output has
    no row for it. *)
Definition decile_average (out : list row) (d : Z) : Q :=
  match find (fun r => String.eqb (decile r) (str d)) out with
  | Some r => avg_change r
  | None => 0
  end.

(** The mean of the per-decile averages of an output, each weighted by the
    total weight of its decile in the table. *)
Definition mean_of_decile_averages (df : DataFrame) (out : list row) : Q :=
  np.sum (map (fun d => total_weight (decile_data df d) * decile_average out d)
              (range 1 11))
  / np.sum (map (fun d => total_weight (decile_data df d)) (range 1 11)).

(** The "all" row of a table. *)
Definition overall_row (rid rn : string) (y : Z) (df : DataFrame) : row :=
  {| reform_id := rid; reform_name := rn; year := y; decile := "all";
     avg_change := average_change df |}.

End WinnersLosersNotions.

Section HouseholdScatterNotions.
Import HouseholdScatterCalculator.

(** The row of household [i]. *)
Definition scatter_row (rid rn : string) (y : Z)
    (baseline_incomes income_changes weights : list Q)
    (household_ids : option (list Q)) (i : nat) : row :=
  {| reform_id := rid; reform_name := rn; year := y;
     baseline_income := nth i baseline_incomes 0;
     income_change := nth i income_changes 0;
     household_weight := nth i weights 0;
     household_id :=
       option_map (fun ids => np.trunc (nth i ids 0)) household_ids |}.

End HouseholdScatterNotions.

Section DemographicNotions.
Import DemographicConstituencyCalculator.

(** The bucket of a household with [c] children: counts above 4 are capped. *)
Definition children_bucket (c : Q) : Z := np.trunc (Qmin c 4).

(** A household with [children] children and marital status [married] is in
    the combination ([n], [m]). *)
Definition in_combination (n : Z) (m : bool) (children : Q) (married : bool)
    : bool :=
  (children_bucket children =? n)%Z && Bool.eqb married m.

(** The sum of the geography-specific weights of the households in the
    combination ([n], [m]). *)
Definition combination_weight (weights num_children : list Q)
    (is_married : list bool) (n : Z) (m : bool) : Q :=
  np.sum (map fst
    (filter (fun p => in_combination n m (fst (snd p)) (snd (snd p)))
            (combine weights (combine num_children is_married)))).

(** [num_children_capped] of the source. *)
Definition capped (num_children : list Q) : list Z :=
  np.astype_int (np.minimum num_children 4).

(** The fields of a row that identify its combination, and its count. *)
Definition row_of_combination (c : constituency) (n : Z) (m : bool)
    (weight : Q) (r : row) : Prop :=
  constituency_code r = code c /\ constituency_name r = name c /\
  num_children r = children_label n /\ is_married r = m /\
  household_count r == weight.

(** The default for lookups in the reference table. *)
Definition no_constituency : constituency := {| name := ""; code := "" |}.

(** Every (geography, children bucket, married) combination once, in the
    order of the three loops. *)
Definition all_combinations (geographies : nat) : list (nat * (Z * bool)) :=
  list_prod (seq 0 geographies) (list_prod (range 0 5) [true; false]).

End DemographicNotions.

(** The rows the geography step adds in one year: those it returns, none
    when it raises. *)
Definition rows_or_none {A B : Type} (step : M (list A * list B))
    : list A * list B :=
  match step with
  | inr rows => rows
  | inl _ => ([], [])
  end.

(** The geography step returns, or raises [FileNotFoundError]. *)
Definition returns_or_not_found {A : Type} (step : M A) : Prop :=
  match step with
  | inr _ => True
  | inl (FileNotFoundError _) => True
  | inl _ => False
  end.

(** The baseline of a reform in a run: its own when it has one, else the
    one of the configuration, else the default (no scenario). *)
Definition effective_baseline {Modifier Params : Type}
    (config : DataConfig Params) (reform : Reform.t Modifier Params)
    : option (Scenario Modifier Params) :=
  if Reform.has_custom_baseline reform then Reform.to_baseline_scenario reform
  else get_baseline_scenario config.

(** The dataset the simulations of a run are built on, if any. *)
Definition usable_dataset {MS Modifier Params Dataset : Type}
    (microsimulation : MicrosimulationLib MS Modifier Params Dataset)
    (dataset : option Dataset) : option Dataset :=
  match dataset with
  | Some d => if dataset_bool microsimulation d then Some d else None
  | None => None
  end.

(** A configuration with another global baseline. *)
Definition with_baseline {Params : Type} (config : DataConfig Params)
    (changes : option Params) : DataConfig Params :=
  {| years := years config;
     output_dir := output_dir config;
     data_dir := data_dir config;
     data_inputs_dir := data_inputs_dir config;
     dataset_path := dataset_path config;
     income_curve_max := income_curve_max config;
     income_curve_points := income_curve_points config;
     household_scatter_max_income := household_scatter_max_income config;
     config_baseline_parameter_changes := changes |}.

(** One of the two input files of a configuration does not exist. *)
Definition input_data_absent {Params Weights ConstituencyDF : Type}
    (fs : ReformProcessor.FileSystem Weights ConstituencyDF)
    (config : DataConfig Params) : Prop :=
  ReformProcessor.path_exists fs
    (path_join (data_dir config) "parliamentary_constituency_weights.h5")
  = false \/
  ReformProcessor.path_exists fs
    (path_join (data_inputs_dir config) "constituencies_2024.csv") = false.

(** The file of a table in the output directory: written when the table
    has rows. *)
Definition saved {A Comparison : Type} (output_dir filename : string)
    (frame : list A -> table Comparison) (rows : list A)
    : list (string * table Comparison) :=
  match rows with
  | [] => []
  | _ :: _ => [ (path_join output_dir filename, frame rows) ]
  end.

Section ProcessorNotions.
Import ReformProcessor.
Context {Sim Modifier Params Weights ConstituencyDF Table : Type}.
Context {BudgetRow DistRow WLRow MetricRow CurveRow ScatterRow ConstRow DemoRow
         : Type}.

(** The constituency data is absent: one of the two files does not exist. *)
Definition constituency_data_absent (fs : FileSystem Weights ConstituencyDF)
    (self : ReformProcessor.t Sim Modifier Params Weights ConstituencyDF Table
              BudgetRow DistRow WLRow MetricRow CurveRow ScatterRow ConstRow
              DemoRow) : Prop :=
  path_exists fs (weights_path self) = false \/
  path_exists fs (constituencies_path self) = false.

(** In year [y] the five per-year calculators that do not depend on the
    geography return [dist y] (with the table [table y]), [wl y], [met y],
    [curve y] and [scatter y]. *)
Definition others_return
    (self : ReformProcessor.t Sim Modifier Params Weights ConstituencyDF Table
              BudgetRow DistRow WLRow MetricRow CurveRow ScatterRow ConstRow
              DemoRow)
    (baseline reformed : Sim)
    (dist : Z -> list DistRow) (table : Z -> Table) (wl : Z -> list WLRow)
    (met : Z -> list MetricRow) (curve : Z -> list CurveRow)
    (scatter : Z -> list ScatterRow) (y : Z) : Prop :=
  let rid := Reform.id (reform self) in
  let rn := Reform.name (reform self) in
  distributional_calc (calculators self) baseline reformed rid rn y
    = ret (dist y, table y) /\
  winners_losers_calc (calculators self) (table y) rid rn y = ret (wl y) /\
  metrics_calc (calculators self) baseline reformed rid rn y = ret (met y) /\
  income_curve_calc (calculators self)
    (Reform.to_baseline_scenario (reform self))
    (Reform.to_scenario (reform self)) rid rn y = ret (curve y) /\
  household_scatter_calc (calculators self) baseline reformed rid rn y
    = ret (scatter y).

End ProcessorNotions.

(* ================================================================== *)
(** * Properties *)

(** ** The error monad and loops *)

Lemma for_each_flat_map {A B} (xs : list A) (body : A -> M (list B))
    (f : A -> list B) :
  (forall x, In x xs -> body x = ret (f x)) ->
  for_each xs body = ret (flat_map f xs).
Proof.
  induction xs as [| x xs IH]; intros Hbody; simpl.
  - reflexivity.
  - rewrite (Hbody x (or_introl Logic.eq_refl)). simpl.
    rewrite IH by (intros x' Hx'; apply Hbody; now right).
    reflexivity.
Qed.

Lemma flat_map_singleton {A B} (f : A -> B) (l : list A) :
  flat_map (fun x => [f x]) l = map f l.
Proof.
  induction l as [| x l IH]; simpl; [reflexivity | now rewrite IH].
Qed.

Lemma range_1_11 : range 1 11 = [1; 2; 3; 4; 5; 6; 7; 8; 9; 10]%Z.
Proof. reflexivity. Qed.

Lemma in_range_1_11 (d : Z) : In d (range 1 11) <-> (1 <= d <= 10)%Z.
Proof.
  rewrite range_1_11. simpl. split.
  - intros Hd. repeat (destruct Hd as [Hd | Hd]; [subst d; lia |]).
    contradiction.
  - intros Hd.
    assert (d = 1 \/ d = 2 \/ d = 3 \/ d = 4 \/ d = 5 \/ d = 6 \/ d = 7
            \/ d = 8 \/ d = 9 \/ d = 10)%Z as Hcases by lia.
    intuition.
Qed.

(** The labels [str(1)], ..., [str(10)] are pairwise different, and none is
    ["all"]. *)
Lemma str_decile_inj (d d' : Z) :
  (1 <= d <= 10)%Z -> (1 <= d' <= 10)%Z -> str d = str d' -> d = d'.
Proof.
  intros Hd Hd'.
  apply in_range_1_11 in Hd. apply in_range_1_11 in Hd'.
  rewrite range_1_11 in Hd, Hd'. simpl in Hd, Hd'.
  repeat (destruct Hd as [Hd | Hd]; [subst d |]); try contradiction;
    repeat (destruct Hd' as [Hd' | Hd']; [subst d' |]); try contradiction;
    intros Hs; try reflexivity; vm_compute in Hs; discriminate Hs.
Qed.

Lemma str_decile_not_all (d : Z) : (1 <= d <= 10)%Z -> str d <> "all".
Proof.
  intros Hd. apply in_range_1_11 in Hd. rewrite range_1_11 in Hd. simpl in Hd.
  repeat (destruct Hd as [Hd | Hd]; [subst d; vm_compute; discriminate |]).
  contradiction.
Qed.

(** ** Comparisons *)

Lemma np_gt_true (x y : Q) : np.gt x y = true <-> y < x.
Proof.
  unfold np.gt. rewrite negb_true_iff. split.
  - intros Hle. apply Qnot_le_lt. intros Hxy.
    apply Qle_bool_iff in Hxy. congruence.
  - intros Hlt. destruct (Qle_bool x y) eqn:E; [| reflexivity].
    apply Qle_bool_iff in E. exfalso. apply (Qlt_not_le _ _ Hlt E).
Qed.

Lemma np_gt_false (x y : Q) : np.gt x y = false <-> x <= y.
Proof.
  unfold np.gt. rewrite negb_false_iff. apply Qle_bool_iff.
Qed.

(** The non-finite cases the source can reach. *)
Example zero_over_zero : Ext.div (Fin 0) (Fin 0) = NaN.
Proof. reflexivity. Qed.

Example one_over_zero : Ext.div (Fin 1) (Fin 0) = PInf.
Proof. reflexivity. Qed.

Example nan_is_not_positive : Ext.gt NaN (Fin 0) = false.
Proof. reflexivity. Qed.

Example nan_minus_nan : Ext.sub NaN NaN = NaN.
Proof. reflexivity. Qed.

Lemma length_pos_nonempty {A} (l : list A) :
  (0 <? List.length l)%nat = true <-> l <> [].
Proof.
  destruct l; simpl; split; intros; try congruence; try discriminate.
  reflexivity.
Qed.

(** ** WinnersLosersCalculator: which rows are emitted *)

Section WinnersLosersRows.
Import WinnersLosersCalculator.

Lemma in_decile_rows rid rn y df d r :
  In r (decile_rows rid rn y df d) ->
  decile_data df d <> [] /\
  r = {| reform_id := rid; reform_name := rn; year := y; decile := str d;
         avg_change := average_change (decile_data df d) |}.
Proof.
  unfold decile_rows.
  destruct (0 <? List.length (decile_data df d))%nat eqn:E; simpl.
  - intros [<- | []]. split; [now apply length_pos_nonempty | reflexivity].
  - contradiction.
Qed.

Lemma in_calculate_from_dataframe rid rn y df r :
  In r (calculate_from_dataframe rid rn y df) <->
  (exists d, (1 <= d <= 10)%Z /\ decile_data df d <> [] /\
     r = {| reform_id := rid; reform_name := rn; year := y; decile := str d;
            avg_change := average_change (decile_data df d) |})
  \/ r = {| reform_id := rid; reform_name := rn; year := y; decile := "all";
            avg_change := average_change df |}.
Proof.
  unfold calculate_from_dataframe. rewrite in_app_iff, in_flat_map. simpl.
  split.
  - intros [[d [Hd Hr]] | [<- | []]]; [left | now right].
    apply in_range_1_11 in Hd. apply in_decile_rows in Hr.
    exists d. tauto.
  - intros [[d [Hd [Hne ->]]] | ->]; [left | right; now left].
    exists d. split; [now apply in_range_1_11 |].
    unfold decile_rows. apply length_pos_nonempty in Hne. rewrite Hne.
    now left.
Qed.

(** C1 (as amended).  For a decile 1-10, [calculate_from_dataframe] emits no
    row when the table has no unit of that decile; when the table has units
    of the decile it emits exactly one row for it, and if the decile's total
    weight is zero (not positive) that row is present with [avg_change] 0;
    with positive total weight the row carries the weighted average. *)
Theorem winners_losers_decile_row rid rn y df d :
  (1 <= d <= 10)%Z ->
  let out := calculate_from_dataframe rid rn y df in
  let group := decile_data df d in
  (group = [] -> forall r, In r out -> decile r <> str d) /\
  (group <> [] ->
     exists r, In r out /\ decile r = str d /\
       (forall r', In r' out -> decile r' = str d -> r' = r) /\
       (total_weight group <= 0 -> avg_change r = 0) /\
       (0 < total_weight group ->
          avg_change r = weighted income_change group / total_weight group)).
Proof.
  intros Hd out group. subst out group. split.
  - intros Hempty r Hr Hlabel.
    apply in_calculate_from_dataframe in Hr.
    destruct Hr as [[d' [Hd' [Hne ->]]] | ->]; simpl in Hlabel.
    + apply str_decile_inj in Hlabel; try assumption. subst d'. contradiction.
    + symmetry in Hlabel. now apply str_decile_not_all in Hlabel.
  - intros Hne.
    exists {| reform_id := rid; reform_name := rn; year := y; decile := str d;
              avg_change := average_change (decile_data df d) |}.
    split; [| split; [reflexivity | split; [| split]]].
    + apply in_calculate_from_dataframe. left. exists d. tauto.
    + intros r' Hr' Hlabel. apply in_calculate_from_dataframe in Hr'.
      destruct Hr' as [[d' [Hd' [Hne' ->]]] | ->]; simpl in Hlabel.
      * apply str_decile_inj in Hlabel; try assumption. now subst d'.
      * symmetry in Hlabel. now apply str_decile_not_all in Hlabel.
    + intros Hle. simpl. unfold average_change.
      apply np_gt_false in Hle. now rewrite Hle.
    + intros Hlt. simpl. unfold average_change.
      apply np_gt_true in Hlt. now rewrite Hlt.
Qed.

Lemma winners_losers_decile_row_witness :
  (1 <= 1 <= 10)%Z /\
  exists r, In r (calculate_from_dataframe "r" "R" 2026 zero_weight_df) /\
            decile r = "1" /\ avg_change r = 0.
Proof.
  assert (1 <= 1 <= 10)%Z as Hd by lia.
  split; [exact Hd |].
  destruct (winners_losers_decile_row "r" "R" 2026 zero_weight_df 1 Hd)
    as [_ Hrow].
  destruct Hrow as [r [Hin [Hlabel [_ [Hzero _]]]]]; [discriminate |].
  exists r. split; [exact Hin | split; [exact Hlabel |]].
  apply Hzero. vm_compute. discriminate.
Defined.

(** C1 as stated fails: decile 1 of [zero_weight_df] has total weight zero,
    and the output has a row for it, with [avg_change] 0. *)
Lemma zero_weight_decile_is_reported :
  total_weight (decile_data zero_weight_df 1) == 0 /\
  In {| reform_id := "r"; reform_name := "R"; year := 2026; decile := "1";
        avg_change := 0 |}
     (calculate_from_dataframe "r" "R" 2026 zero_weight_df).
Proof.
  split; [reflexivity |]. vm_compute. left. reflexivity.
Qed.

End WinnersLosersRows.

(** ** Weighted sums *)

Lemma weighted_sigma_w (x : decile_row -> Q) (df : DataFrame) :
  weighted x df == sigma_w x df.
Proof.
  unfold weighted, sigma_w. induction df as [| r df IH]; simpl.
  - reflexivity.
  - rewrite IH. ring.
Qed.

(** ** DistributionalImpactCalculator: the value reported for a decile *)

Section DistributionalRows.
Import DistributionalImpactCalculator.

Lemma default_name (d : Z) :
  (1 <= d <= 10)%Z ->
  list_index (decile_names default) (d - 1) = ret (decile_name d).
Proof.
  intros Hd. apply in_range_1_11 in Hd. rewrite range_1_11 in Hd. simpl in Hd.
  repeat (destruct Hd as [Hd | Hd]; [subst d; reflexivity |]). contradiction.
Qed.

Lemma decile_name_inj (d d' : Z) :
  (1 <= d <= 10)%Z -> (1 <= d' <= 10)%Z ->
  decile_name d = decile_name d' -> d = d'.
Proof.
  intros Hd Hd'.
  apply in_range_1_11 in Hd. apply in_range_1_11 in Hd'.
  rewrite range_1_11 in Hd, Hd'. simpl in Hd, Hd'.
  repeat (destruct Hd as [Hd | Hd]; [subst d |]); try contradiction;
    repeat (destruct Hd' as [Hd' | Hd']; [subst d' |]); try contradiction;
    intros Hs; try reflexivity; vm_compute in Hs; discriminate Hs.
Qed.

Lemma distributional_rows rid rn y df :
  calculate_from_dataframe default rid rn y df =
  ret (flat_map (named_decile_rows rid rn y df) (range 1 11)).
Proof.
  unfold calculate_from_dataframe. apply for_each_flat_map.
  intros d Hd. apply in_range_1_11 in Hd. unfold named_decile_rows.
  destruct (0 <? List.length (decile_data df d))%nat; [| reflexivity].
  rewrite (default_name d Hd). reflexivity.
Qed.

Lemma in_distributional_rows rid rn y df r :
  In r (flat_map (named_decile_rows rid rn y df) (range 1 11)) <->
  exists d, (1 <= d <= 10)%Z /\ decile_data df d <> [] /\
    r = {| reform_id := rid; reform_name := rn; year := y;
           decile := decile_name d; value := rel_change (decile_data df d) |}.
Proof.
  rewrite in_flat_map. split.
  - intros [d [Hd Hr]]. exists d. apply in_range_1_11 in Hd.
    unfold named_decile_rows in Hr.
    destruct (0 <? List.length (decile_data df d))%nat eqn:E; simpl in Hr.
    + destruct Hr as [<- | []]. apply length_pos_nonempty in E. tauto.
    + contradiction.
  - intros [d [Hd [Hne ->]]]. exists d. split; [now apply in_range_1_11 |].
    unfold named_decile_rows. apply length_pos_nonempty in Hne. rewrite Hne.
    now left.
Qed.

(** C2 (as amended).  For a decile 1-10 present in the table, the calculator
    returns, and reports for that decile exactly one row; its value is
    [100 × Σ(w·Δy)/Σ(w·y_base)] when the weighted baseline income is
    positive, and exactly 0 when it is zero or negative. *)
Theorem distributional_decile_value rid rn y df d :
  (1 <= d <= 10)%Z ->
  decile_data df d <> [] ->
  let group := decile_data df d in
  exists rows r,
    calculate_from_dataframe default rid rn y df = ret rows /\
    In r rows /\ decile r = decile_name d /\
    (forall r', In r' rows -> decile r' = decile_name d -> r' = r) /\
    (0 < sigma_w baseline_income group ->
       value r ==
       100 * (sigma_w income_change group / sigma_w baseline_income group)) /\
    (sigma_w baseline_income group <= 0 -> value r = 0).
Proof.
  intros Hd Hne group. subst group.
  exists (flat_map (named_decile_rows rid rn y df) (range 1 11)).
  exists {| reform_id := rid; reform_name := rn; year := y;
            decile := decile_name d; value := rel_change (decile_data df d) |}.
  split; [apply distributional_rows |].
  split; [apply in_distributional_rows; exists d; tauto |].
  split; [reflexivity |].
  split; [| split].
  - intros r' Hr' Hlabel. apply in_distributional_rows in Hr'.
    destruct Hr' as [d' [Hd' [Hne' ->]]]. simpl in Hlabel.
    apply decile_name_inj in Hlabel; try assumption. now subst d'.
  - intros Hpos. simpl. unfold rel_change.
    rewrite <- (weighted_sigma_w baseline_income) in Hpos.
    assert (np.gt (weighted baseline_income (decile_data df d)) 0 = true)
      as Hgt by now apply np_gt_true.
    rewrite Hgt. rewrite !weighted_sigma_w. ring.
  - intros Hle. simpl. unfold rel_change.
    rewrite <- (weighted_sigma_w baseline_income) in Hle.
    apply np_gt_false in Hle. now rewrite Hle.
Qed.

Lemma distributional_decile_value_witness :
  (1 <= 1 <= 10)%Z /\ decile_data two_households_df 1 <> [] /\
  exists rows r,
    calculate_from_dataframe default "r" "R" 2026 two_households_df
    = ret rows /\
    In r rows /\ decile r = "1st" /\ value r == - (10 # 3).
Proof.
  assert (1 <= 1 <= 10)%Z as Hd by lia.
  assert (decile_data two_households_df 1 <> []) as Hne by discriminate.
  split; [exact Hd | split; [exact Hne |]].
  destruct (distributional_decile_value "r" "R" 2026 two_households_df 1 Hd Hne)
    as [rows [r [Hrun [Hin [Hlabel [_ [Hpos _]]]]]]].
  exists rows, r.
  split; [exact Hrun | split; [exact Hin | split; [exact Hlabel |]]].
  rewrite Hpos by (vm_compute; reflexivity).
  vm_compute. reflexivity.
Defined.

(** C2 as stated fails: the weighted baseline income of decile 1 of
    [negative_baseline_df] is -100, not zero, the formula gives -10, and the
    reported value is 0. *)
Lemma negative_baseline_reports_zero :
  let group := decile_data negative_baseline_df 1 in
  ~ sigma_w baseline_income group == 0 /\
  100 * (sigma_w income_change group / sigma_w baseline_income group) == -10 /\
  calculate_from_dataframe default "r" "R" 2026 negative_baseline_df =
  ret [ {| reform_id := "r"; reform_name := "R"; year := 2026;
           decile := "1st"; value := 0 |} ].
Proof.
  split; [| split].
  - vm_compute. discriminate.
  - vm_compute. reflexivity.
  - vm_compute. reflexivity.
Qed.

End DistributionalRows.

(** ** Sums over the ten decile groups *)

Lemma np_sum_cons (x : Q) (a : list Q) : np.sum (x :: a) = x + np.sum a.
Proof. reflexivity. Qed.

Lemma np_sum_map_ext {A} (f g : A -> Q) (l : list A) :
  (forall x, In x l -> f x == g x) ->
  np.sum (map f l) == np.sum (map g l).
Proof.
  induction l as [| x l IH]; intros Hfg; simpl map.
  - reflexivity.
  - assert (np.sum (map f l) == np.sum (map g l)) as Hrest
      by (apply IH; intros y Hy; apply Hfg; now right).
    assert (f x == g x) as Hx by (apply Hfg; now left).
    rewrite !np_sum_cons, Hrest, Hx. reflexivity.
Qed.

Lemma np_sum_map_plus {A} (f g : A -> Q) (l : list A) :
  np.sum (map (fun x => f x + g x) l) == np.sum (map f l) + np.sum (map g l).
Proof.
  induction l as [| x l IH]; simpl map.
  - unfold np.sum. simpl. ring.
  - rewrite !np_sum_cons, IH. ring.
Qed.

Lemma np_sum_nonneg (a : list Q) : Forall (fun x => 0 <= x) a -> 0 <= np.sum a.
Proof.
  induction 1 as [| x a Hx Ha IH].
  - unfold np.sum. simpl. lra.
  - rewrite np_sum_cons. lra.
Qed.

Lemma decile_indicator_sum (q v : Q) (k : Z) :
  (1 <= k <= 10)%Z -> q == inject_Z k ->
  np.sum (map (fun d => if np.eq q (inject_Z d) then v else 0) (range 1 11))
  == v.
Proof.
  intros Hk Hq.
  rewrite (np_sum_map_ext _
             (fun d => if np.eq (inject_Z k) (inject_Z d) then v else 0)).
  - apply in_range_1_11 in Hk. rewrite range_1_11 in Hk |- *. simpl in Hk.
    repeat (destruct Hk as [Hk | Hk]; [subst k; vm_compute map; simpl; ring |]).
    contradiction.
  - intros d _. unfold np.eq. now rewrite Hq.
Qed.

Lemma decile_data_cons (r : decile_row) (df : DataFrame) (d : Z) :
  decile_data (r :: df) d =
  if np.eq (household_income_decile r) (inject_Z d)
  then r :: decile_data df d else decile_data df d.
Proof. reflexivity. Qed.

(** Over a table of classified units, the ten decile groups partition the
    table: group sums add up to the sum over the table. *)
Lemma decile_partition (f : decile_row -> Q) (df : DataFrame) :
  Forall classified df ->
  np.sum (map (fun d => np.sum (map f (decile_data df d))) (range 1 11))
  == np.sum (map f df).
Proof.
  induction 1 as [| r df [k [Hk Hr]] Hdf IH].
  - rewrite range_1_11. vm_compute. reflexivity.
  - rewrite (np_sum_map_ext _
      (fun d => (if np.eq (household_income_decile r) (inject_Z d)
                 then f r else 0)
                + np.sum (map f (decile_data df d)))).
    + rewrite np_sum_map_plus, IH, (decile_indicator_sum _ _ k Hk Hr).
      simpl map. rewrite np_sum_cons. reflexivity.
    + intros d _. rewrite decile_data_cons.
      destruct (np.eq (household_income_decile r) (inject_Z d)).
      * reflexivity.
      * ring.
Qed.

Lemma Forall_decile_data (P : decile_row -> Prop) (df : DataFrame) (d : Z) :
  Forall P df -> Forall P (decile_data df d).
Proof.
  intros HP. apply Forall_forall. intros r Hr.
  apply filter_In in Hr. rewrite Forall_forall in HP. now apply HP.
Qed.

(** With weights that are not negative, a group of total weight zero has
    weighted sum zero. *)
Lemma weighted_zero (x : decile_row -> Q) (df : DataFrame) :
  Forall (fun r => 0 <= household_weight r) df ->
  total_weight df <= 0 -> weighted x df == 0.
Proof.
  unfold total_weight, weighted.
  induction 1 as [| r df Hr Hdf IH]; simpl map; intros Hle.
  - reflexivity.
  - rewrite np_sum_cons in Hle |- *.
    assert (0 <= np.sum (map household_weight df)) as Hrest.
    { apply np_sum_nonneg. apply Forall_forall. intros q Hq.
      apply in_map_iff in Hq. destruct Hq as [r' [<- Hr']].
      rewrite Forall_forall in Hdf. now apply Hdf. }
    assert (household_weight r == 0) as Hzero by lra.
    rewrite IH by lra. rewrite Hzero. ring.
Qed.

(** ** WinnersLosersCalculator: the overall row *)

Section WinnersLosersOverall.
Import WinnersLosersCalculator.

Lemma decile_average_calculate rid rn y df d :
  (1 <= d <= 10)%Z ->
  decile_average (calculate_from_dataframe rid rn y df) d =
  average_change (decile_data df d).
Proof.
  intros Hd. unfold decile_average.
  destruct (find _ _) as [r |] eqn:Hfind.
  - apply find_some in Hfind. destruct Hfind as [Hin Hlabel].
    apply String.eqb_eq in Hlabel.
    apply in_calculate_from_dataframe in Hin.
    destruct Hin as [[d' [Hd' [_ ->]]] | ->]; simpl in Hlabel |- *.
    + apply str_decile_inj in Hlabel; try assumption. now subst d'.
    + symmetry in Hlabel. now apply str_decile_not_all in Hlabel.
  - destruct (decile_data df d) as [| r0 group] eqn:Hgroup; [reflexivity |].
    exfalso.
    pose proof (find_none _ _ Hfind
      {| reform_id := rid; reform_name := rn; year := y; decile := str d;
         avg_change := average_change (decile_data df d) |}) as Hnone.
    simpl in Hnone. rewrite String.eqb_refl in Hnone.
    assert (true = false) as Habs; [| discriminate Habs].
    apply Hnone. apply in_calculate_from_dataframe. left. exists d.
    rewrite Hgroup. repeat split; try tauto. discriminate.
Qed.

Lemma weight_times_average (df : DataFrame) :
  Forall (fun r => 0 <= household_weight r) df ->
  total_weight df * average_change df == weighted income_change df.
Proof.
  intros Hnonneg. unfold average_change.
  destruct (np.gt (total_weight df) 0) eqn:E.
  - apply np_gt_true in E. field. lra.
  - apply np_gt_false in E. rewrite (weighted_zero _ _ Hnonneg E). ring.
Qed.

(** C7 (as amended).  With weights that are not negative and a positive
    total weight, the output has exactly one "all" row, its average is
    [Σ(w·Δy)/Σ(w)] over all units of the table, and, when every unit of the
    table carries a decile label in 1-10, this is the mean of the per-decile
    averages weighted by the deciles' total weights. *)
Theorem winners_losers_overall rid rn y df :
  Forall (fun r => 0 <= household_weight r) df ->
  0 < total_weight df ->
  let out := calculate_from_dataframe rid rn y df in
  exists r,
    In r out /\ decile r = "all" /\
    (forall r', In r' out -> decile r' = "all" -> r' = r) /\
    avg_change r == sigma_w income_change df / total_weight df /\
    (Forall classified df -> avg_change r == mean_of_decile_averages df out).
Proof.
  intros Hnonneg Hpos out. subst out.
  exists (overall_row rid rn y df).
  assert (avg_change (overall_row rid rn y df)
          == sigma_w income_change df / total_weight df) as Havg.
  { simpl. unfold average_change.
    apply np_gt_true in Hpos. rewrite Hpos.
    now rewrite weighted_sigma_w. }
  split; [apply in_calculate_from_dataframe; now right |].
  split; [reflexivity |].
  split; [| split; [exact Havg |]].
  - intros r' Hr' Hlabel. apply in_calculate_from_dataframe in Hr'.
    destruct Hr' as [[d [Hd [_ ->]]] | ->]; [| reflexivity].
    simpl in Hlabel. now apply str_decile_not_all in Hlabel.
  - intros Hclass. rewrite Havg. unfold mean_of_decile_averages.
    rewrite (np_sum_map_ext
               (fun d => total_weight (decile_data df d)
                         * decile_average (calculate_from_dataframe rid rn y df) d)
               (fun d => weighted income_change (decile_data df d))).
    + unfold weighted at 1. unfold total_weight at 2.
      rewrite !decile_partition by assumption.
      now rewrite <- weighted_sigma_w.
    + intros d Hd. apply in_range_1_11 in Hd.
      rewrite decile_average_calculate by assumption.
      apply weight_times_average. now apply Forall_decile_data.
Qed.

Lemma winners_losers_overall_witness :
  let out := calculate_from_dataframe "r" "R" 2026 two_households_df in
  Forall (fun r => 0 <= household_weight r) two_households_df /\
  0 < total_weight two_households_df /\
  exists r, In r out /\ decile r = "all" /\ avg_change r == -5 /\
            mean_of_decile_averages two_households_df out == -5.
Proof.
  intros out.
  assert (Forall (fun r => 0 <= household_weight r) two_households_df) as Hw.
  { repeat constructor; simpl; discriminate. }
  assert (0 < total_weight two_households_df) as Hpos by reflexivity.
  assert (Forall classified two_households_df) as Hclass.
  { repeat constructor; exists 1%Z; (split; [lia | reflexivity]). }
  split; [exact Hw | split; [exact Hpos |]].
  destruct (winners_losers_overall "r" "R" 2026 two_households_df Hw Hpos)
    as [r [Hin [Hlabel [_ [Havg Hmean]]]]].
  exists r. split; [exact Hin | split; [exact Hlabel |]].
  split; [rewrite Havg; reflexivity |].
  apply Qeq_trans with (y := avg_change r).
  - apply Qeq_sym. exact (Hmean Hclass).
  - rewrite Havg. reflexivity.
Defined.

(** C7 as stated fails: [unclassified_df] has weights 1 and 1, its "all"
    row reports 5 = Σ(w·Δy)/Σ(w), and the weighted mean of its per-decile
    averages is 0. *)
Lemma overall_differs_from_decile_mean :
  let out := calculate_from_dataframe "r" "R" 2026 unclassified_df in
  Forall (fun r => 0 <= household_weight r) unclassified_df /\
  0 < total_weight unclassified_df /\
  In (overall_row "r" "R" 2026 unclassified_df) out /\
  avg_change (overall_row "r" "R" 2026 unclassified_df) == 5 /\
  mean_of_decile_averages unclassified_df out == 0.
Proof.
  split; [repeat constructor; simpl; discriminate |].
  split; [reflexivity |].
  split; [vm_compute; right; left; reflexivity |].
  split; vm_compute; reflexivity.
Qed.

End WinnersLosersOverall.

(** ** BudgetaryImpactCalculator: the aggregate that is diffed *)

Section BudgetaryAggregate.
Import BudgetaryImpactCalculator.
Context {MS : Type} `{MicroSeriesOps MS}.

Lemma str_in_In (x : string) (l : list string) :
  str_in x l = true <-> In x l.
Proof.
  unfold str_in. rewrite existsb_exists. split.
  - intros [y [Hy Heq]]. apply String.eqb_eq in Heq. now subst y.
  - intros Hx. exists x. split; [exact Hx | apply String.eqb_refl].
Qed.

(** C4.  The variable diffed by [calculate] is the student loan repayment
    exactly for the reforms of [STUDENT_LOAN_REFORMS] and the government
    balance for every other reform; when the simulations provide that
    variable for the configured years, the calculator reports, for each
    configured year in order, the summed (reform - baseline) of that
    variable divided by 1e9, whatever the other aggregate is or does. *)
Theorem budgetary_impact_aggregate (self : t)
    (baseline reformed : Microsimulation.t MS) (rid rn : string)
    (sb sr : Z -> MS) :
  let variable :=
    if str_in rid STUDENT_LOAN_REFORMS
    then "student_loan_repayment" else "gov_balance" in
  (forall y, In y (years self) ->
             Microsimulation.calculate baseline variable y None = ret (sb y)) ->
  (forall y, In y (years self) ->
             Microsimulation.calculate reformed variable y None = ret (sr y)) ->
  (In rid STUDENT_LOAN_REFORMS -> variable = "student_loan_repayment") /\
  (~ In rid STUDENT_LOAN_REFORMS -> variable = "gov_balance") /\
  calculate self baseline reformed rid rn =
  ret (map (fun y => {| reform_id := rid; reform_name := rn; year := y;
                        value := ms_sum (ms_sub (sr y) (sb y)) / 1000000000 |})
           (years self)).
Proof.
  intros variable Hb Hr. subst variable.
  split; [| split].
  - intros Hin. apply str_in_In in Hin. now rewrite Hin.
  - intros Hnot. destruct (str_in rid STUDENT_LOAN_REFORMS) eqn:E;
      [| reflexivity].
    apply str_in_In in E. contradiction.
  - unfold calculate.
    rewrite (for_each_flat_map _ _
               (fun y => [ {| reform_id := rid; reform_name := rn; year := y;
                              value := ms_sum (ms_sub (sr y) (sb y))
                                       / 1000000000 |} ])).
    + now rewrite flat_map_singleton.
    + intros y Hy. specialize (Hb y Hy). specialize (Hr y Hy).
      destruct (str_in rid STUDENT_LOAN_REFORMS);
        rewrite Hb, Hr; reflexivity.
Qed.

End BudgetaryAggregate.

Lemma budgetary_impact_aggregate_witness :
  let repayments_b := numeric [1000000000; 2000000000] [1; 1] in
  let repayments_r := numeric [2000000000; 4000000000] [1; 1] in
  BudgetaryImpactCalculator.calculate BudgetaryImpactCalculator.default
    fiscal_baseline fiscal_reformed "freeze_student_loan_thresholds" "Freeze"
  = ret (map (fun y =>
           {| BudgetaryImpactCalculator.reform_id :=
                "freeze_student_loan_thresholds";
              BudgetaryImpactCalculator.reform_name := "Freeze";
              BudgetaryImpactCalculator.year := y;
              BudgetaryImpactCalculator.value :=
                ms_sum (ms_sub repayments_r repayments_b) / 1000000000 |})
         [2026; 2027; 2028; 2029; 2030]%Z)
  /\ ms_sum (ms_sub repayments_r repayments_b) / 1000000000 == 3.
Proof.
  intros repayments_b repayments_r. split; [| reflexivity].
  refine (proj2 (proj2
    (budgetary_impact_aggregate BudgetaryImpactCalculator.default
       fiscal_baseline fiscal_reformed "freeze_student_loan_thresholds"
       "Freeze" (fun _ => repayments_b) (fun _ => repayments_r) _ _)));
    intros y _; reflexivity.
Defined.

(** ** HouseholdScatterCalculator: the income window *)

Lemma np_index_nth {A} (a : list A) (i : nat) (d : A) :
  (i < List.length a)%nat -> np_index a i = ret (nth i a d).
Proof.
  intros Hi. unfold np_index.
  destruct (nth_error a i) as [x |] eqn:E.
  - now rewrite (nth_error_nth _ _ d E).
  - apply nth_error_None in E. lia.
Qed.

Lemma flat_map_filter {A B} (p : A -> bool) (g : A -> B) (l : list A) :
  flat_map (fun x => if p x then [g x] else []) l = map g (filter p l).
Proof.
  induction l as [| x l IH]; simpl; [reflexivity |].
  destruct (p x); simpl; now rewrite IH.
Qed.

Section HouseholdScatterWindow.
Import HouseholdScatterCalculator.

Lemma in_window_iff (self : t) (income : Q) :
  in_window self income = true <->
  inject_Z (min_income self) <= income <= inject_Z (max_income self).
Proof.
  unfold in_window, np.ge. rewrite andb_true_iff, !Qle_bool_iff. tauto.
Qed.

(** C6.  On arrays of one length, [calculate_from_arrays] returns the rows
    of the households whose baseline income lies in the closed interval
    [[min_income, max_income]], one row each, in the order of the arrays:
    household [i] has a row exactly when its baseline income is in the
    interval, bounds included, and nothing is sampled away. *)
Theorem household_scatter_window (self : t) (rid rn : string) (y : Z)
    (baseline_incomes income_changes weights : list Q)
    (household_ids : option (list Q)) :
  List.length income_changes = List.length baseline_incomes ->
  List.length weights = List.length baseline_incomes ->
  (forall ids, household_ids = Some ids ->
               List.length ids = List.length baseline_incomes) ->
  exists kept : list nat,
    calculate_from_arrays self rid rn y baseline_incomes income_changes
      weights household_ids
    = ret (map (scatter_row rid rn y baseline_incomes income_changes weights
                  household_ids) kept) /\
    kept = filter (fun i => in_window self (nth i baseline_incomes 0))
                  (seq 0 (List.length baseline_incomes)) /\
    NoDup kept /\
    forall i, In i kept <->
      (i < List.length baseline_incomes)%nat /\
      inject_Z (min_income self) <= nth i baseline_incomes 0
                                 <= inject_Z (max_income self).
Proof.
  intros Hc Hw Hids.
  exists (filter (fun i => in_window self (nth i baseline_incomes 0))
                 (seq 0 (List.length baseline_incomes))).
  split; [| split; [reflexivity | split]].
  - unfold calculate_from_arrays.
    rewrite <- flat_map_filter. apply for_each_flat_map.
    intros i Hi. apply in_seq in Hi. simpl in Hi. destruct Hi as [_ Hi].
    rewrite (np_index_nth _ i false) by (now rewrite length_map).
    simpl.
    replace (nth i (map (in_window self) baseline_incomes) false)
      with (in_window self (nth i baseline_incomes 0)).
    + destruct (in_window self (nth i baseline_incomes 0)); [| reflexivity].
      rewrite (np_index_nth baseline_incomes i 0) by assumption.
      rewrite (np_index_nth income_changes i 0) by lia.
      rewrite (np_index_nth weights i 0) by lia.
      simpl. unfold scatter_row.
      destruct household_ids as [ids |]; simpl; [| reflexivity].
      rewrite (np_index_nth ids i 0) by (rewrite (Hids ids); auto).
      reflexivity.
    + symmetry.
      rewrite (nth_indep _ false (in_window self 0))
        by (now rewrite length_map).
      apply map_nth.
  - apply NoDup_filter, seq_NoDup.
  - intros i. rewrite filter_In, in_seq, in_window_iff. simpl.
    split; intros [Hi Hwin]; (split; [lia | exact Hwin]).
Qed.

(** The households at the bounds 0 and 150000 are kept, their neighbours
    -1 and 150001 are not. *)
Example household_scatter_bounds :
  calculate_from_arrays default "r" "R" 2026 window_incomes window_changes
    window_weights (Some window_ids)
  = ret [ {| reform_id := "r"; reform_name := "R"; year := 2026;
             baseline_income := 0; income_change := 20;
             household_weight := 2; household_id := Some 102%Z |};
          {| reform_id := "r"; reform_name := "R"; year := 2026;
             baseline_income := 75000; income_change := 30;
             household_weight := 3; household_id := Some 103%Z |};
          {| reform_id := "r"; reform_name := "R"; year := 2026;
             baseline_income := 150000; income_change := 40;
             household_weight := 4; household_id := Some 104%Z |} ].
Proof. vm_compute. reflexivity. Qed.

Lemma household_scatter_window_witness :
  exists kept : list nat,
    calculate_from_arrays default "r" "R" 2026 window_incomes window_changes
      window_weights (Some window_ids)
    = ret (map (scatter_row "r" "R" 2026 window_incomes window_changes
                  window_weights (Some window_ids)) kept) /\
    ~ In 0%nat kept /\ In 1%nat kept /\ In 3%nat kept /\ ~ In 4%nat kept.
Proof.
  assert (forall ids, Some window_ids = Some ids ->
                      List.length ids = List.length window_incomes) as Hids.
  { intros ids Heq. injection Heq as <-. reflexivity. }
  destruct (household_scatter_window default "r" "R" 2026 window_incomes
              window_changes window_weights (Some window_ids)
              Logic.eq_refl Logic.eq_refl Hids) as [kept [Hrun [_ [_ Hin]]]].
  exists kept. split; [exact Hrun |].
  split; [| split; [| split]].
  - intros H0. apply Hin in H0. destruct H0 as [_ [Hlo _]].
    vm_compute in Hlo. now apply Hlo.
  - apply Hin. split; [simpl; lia |]. split; vm_compute; discriminate.
  - apply Hin. split; [simpl; lia |]. split; vm_compute; discriminate.
  - intros H4. apply Hin in H4. destruct H4 as [_ [_ Hhi]].
    vm_compute in Hhi. now apply Hhi.
Defined.

End HouseholdScatterWindow.

(** ** DemographicConstituencyCalculator: the combinations that get a row *)

Lemma trunc_inject_Z (q : Q) (k : Z) : q == inject_Z k -> np.trunc q = k.
Proof.
  unfold Qeq, np.trunc. simpl. intros Hq.
  rewrite Z.mul_1_r in Hq. rewrite Hq. now apply Z.quot_mul.
Qed.

Lemma flat_map_list_prod {A B C} (f : A * B -> list C) (l : list A)
    (l' : list B) :
  flat_map (fun x => flat_map (fun y => f (x, y)) l') l
  = flat_map f (list_prod l l').
Proof.
  induction l as [| x l IH]; simpl; [reflexivity |].
  rewrite flat_map_app, IH. f_equal.
  clear IH. induction l' as [| y l' IH']; simpl; [reflexivity |].
  now f_equal.
Qed.

Lemma NoDup_list_prod {A B} (l : list A) (l' : list B) :
  NoDup l -> NoDup l' -> NoDup (list_prod l l').
Proof.
  intros Hl Hl'. induction Hl as [| x l Hx Hl IH]; simpl; [constructor |].
  apply NoDup_app.
  - apply NoDup_map_NoDup_ForallPairs; [| exact Hl'].
    intros y y' _ _ Heq. now inversion Heq.
  - exact IH.
  - intros [a b] Hin Hin'. apply in_map_iff in Hin.
    destruct Hin as [y [Heq _]]. inversion Heq; subst a b.
    apply in_prod_iff in Hin'. tauto.
Qed.

Lemma NoDup_range (lo hi : Z) : NoDup (range lo hi).
Proof.
  unfold range. apply NoDup_map_NoDup_ForallPairs; [| apply seq_NoDup].
  intros i j _ _ Heq. lia.
Qed.

Lemma in_range (lo hi d : Z) : In d (range lo hi) <-> (lo <= d < hi)%Z.
Proof.
  unfold range. rewrite in_map_iff. split.
  - intros [i [<- Hi]]. apply in_seq in Hi. lia.
  - intros Hd. exists (Z.to_nat (d - lo)). split; [lia |].
    apply in_seq. lia.
Qed.

Section DemographicRows.
Import DemographicConstituencyCalculator.

(** A household with [k] children is in bucket [k] up to 3 children and in
    bucket 4, labelled "4+", from 4 children on. *)
Lemma children_bucket_count (k : Z) :
  (0 <= k)%Z -> children_bucket (inject_Z k) = Z.min k 4.
Proof.
  intros Hk. unfold children_bucket. apply trunc_inject_Z.
  destruct (Z.le_ge_cases k 4) as [Hle | Hge].
  - rewrite Z.min_l by assumption. apply Q.min_l.
    now rewrite <- Zle_Qle with (y := 4%Z).
  - rewrite Z.min_r by assumption. apply Q.min_r.
    now rewrite <- Zle_Qle with (x := 4%Z).
Qed.

Lemma masked_total_weight (weights num_children : list Q)
    (is_married : list bool) (n : Z) (m : bool) :
  np.sum (np.mul weights
            (map np.of_bool
                 (combination_mask (capped num_children) is_married n m)))
  == combination_weight weights num_children is_married n m.
Proof.
  unfold combination_weight, combination_mask, capped, np.mul, np.astype_int,
    np.minimum.
  revert num_children is_married.
  induction weights as [| w ws IH]; intros [| c cs] [| b bs]; simpl;
    try reflexivity.
  specialize (IH cs bs). unfold in_combination, children_bucket in *.
  simpl.
  destruct ((np.trunc (Qmin c 4) =? n)%Z && Bool.eqb b m); simpl;
    rewrite IH; unfold np.of_bool; ring.
Qed.

Lemma empty_mask_weight (weights : list Q) (mask : list bool) :
  mask_sum mask = 0%nat ->
  np.sum (np.mul weights (map np.of_bool mask)) == 0.
Proof.
  unfold mask_sum, np.mul. revert weights.
  induction mask as [| b mask IH]; intros [| w ws]; simpl; try reflexivity.
  destruct b; simpl; [discriminate |].
  intros Hzero. rewrite (IH ws Hzero). ring.
Qed.

Lemma combination_rows_cases (rid : string) (y : Z) (c : constituency)
    (weights income_change baseline_income num_children : list Q)
    (is_married : list bool) (n : Z) (m : bool) :
  let weight := combination_weight weights num_children is_married n m in
  let rows := combination_rows rid y c weights income_change baseline_income
                (capped num_children) is_married n m in
  (weight == 0 -> rows = []) /\
  (~ weight == 0 -> exists r, rows = [r] /\ row_of_combination c n m weight r).
Proof.
  intros weight rows. subst weight rows. unfold combination_rows.
  pose proof (masked_total_weight weights num_children is_married n m)
    as Htotal.
  destruct (mask_sum _ =? 0)%nat eqn:Hmask.
  - apply Nat.eqb_eq in Hmask.
    rewrite (empty_mask_weight weights _ Hmask) in Htotal.
    split; [reflexivity |]. intros Hnz. exfalso. apply Hnz. now symmetry.
  - destruct (np.eq _ 0) eqn:Hzero; unfold np.eq in Hzero.
    + apply Qeq_bool_iff in Hzero. rewrite Hzero in Htotal.
      split; [reflexivity |]. intros Hnz. exfalso. apply Hnz. now symmetry.
    + apply Qeq_bool_neq in Hzero. split.
      * intros Hw. exfalso. apply Hzero. now rewrite Htotal.
      * intros _. eexists. split; [reflexivity |].
        unfold row_of_combination. simpl. tauto.
Qed.

End DemographicRows.

Lemma NoDup_only {A} (l : list A) (a : A) :
  NoDup l -> (forall x, In x l <-> x = a) -> l = [a].
Proof.
  intros Hnd Hin. destruct l as [| x l].
  - exfalso. apply (proj2 (Hin a) Logic.eq_refl).
  - assert (x = a) as -> by (apply Hin; now left).
    destruct l as [| y l]; [reflexivity |]. exfalso.
    assert (y = a) as -> by (apply Hin; right; now left).
    inversion Hnd as [| ? ? Hnotin _]. apply Hnotin. now left.
Qed.

Section DemographicCalculate.
Import DemographicConstituencyCalculator.
Context {MS : Type} `{MicroSeriesOps MS}.

Lemma all_combinations_NoDup (k : nat) : NoDup (all_combinations k).
Proof.
  apply NoDup_list_prod; [apply seq_NoDup |].
  apply NoDup_list_prod; [apply NoDup_range |].
  repeat constructor; simpl; intuition discriminate.
Qed.

Lemma in_all_combinations (k g : nat) (n : Z) (m : bool) :
  In (g, (n, m)) (all_combinations k) <-> (g < k)%nat /\ (0 <= n <= 4)%Z.
Proof.
  unfold all_combinations. rewrite !in_prod_iff, in_seq, in_range. simpl.
  destruct m; intuition lia.
Qed.

Lemma demographic_flat (baseline reformed : Microsimulation.t MS)
    (rid : string) (y : Z) (cw : list (list Q)) (cdf : list constituency)
    (bi ri nc im : MS) :
  Microsimulation.calculate baseline "household_net_income" y (Some "household")
    = ret bi ->
  Microsimulation.calculate reformed "household_net_income" y (Some "household")
    = ret ri ->
  Microsimulation.calculate baseline "num_children" y (Some "household")
    = ret nc ->
  Microsimulation.calculate baseline "is_married" y (Some "household")
    = ret im ->
  (List.length cdf <= List.length cw)%nat ->
  calculate baseline reformed rid y cw cdf =
  ret (flat_map (fun p =>
         combination_rows rid y (nth (fst p) cdf no_constituency)
           (nth (fst p) cw []) (np.sub (values ri) (values bi)) (values bi)
           (capped (values nc)) (flags im) (fst (snd p)) (snd (snd p)))
       (all_combinations (List.length cdf))).
Proof.
  intros Hbi Hri Hnc Him Hlen. unfold calculate.
  rewrite Hbi, Hri, Hnc, Him. simpl.
  unfold all_combinations. rewrite <- flat_map_list_prod.
  apply for_each_flat_map. intros g Hg. apply in_seq in Hg.
  rewrite (np_index_nth cdf g no_constituency) by lia.
  rewrite (np_index_nth cw g []) by lia.
  simpl. unfold geography_rows, capped.
  change (range 0 5) with [0; 1; 2; 3; 4]%Z. simpl.
  rewrite !app_nil_r, <- !app_assoc. reflexivity.
Qed.

Lemma rows_of_combinations {K} (R : row -> K -> Prop) (F : K -> list row)
    (weight : K -> Q) (all : list K) :
  (forall p, weight p == 0 -> F p = []) ->
  (forall p, ~ weight p == 0 -> exists r, F p = [r] /\ R r p) ->
  Forall2 R (flat_map F all)
          (filter (fun p => negb (Qeq_bool (weight p) 0)) all).
Proof.
  intros Hzero Hrow. induction all as [| p all IH]; simpl; [constructor |].
  destruct (Qeq_bool (weight p) 0) eqn:E; simpl.
  - apply Qeq_bool_iff in E. now rewrite (Hzero p E).
  - apply Qeq_bool_neq in E. destruct (Hrow p E) as [r [-> Hr]].
    simpl. now constructor.
Qed.

Lemma uniform_combination_weight (weights num_children : list Q)
    (is_married : list bool) (n : Z) (m : bool) :
  Forall (fun k => k == 5) num_children ->
  Forall (fun b => b = false) is_married ->
  List.length weights = List.length num_children ->
  List.length is_married = List.length num_children ->
  combination_weight weights num_children is_married n m
  == if (n =? 4)%Z && negb m then np.sum weights else 0.
Proof.
  unfold combination_weight. intros Hnc. revert weights is_married.
  induction Hnc as [| c cs Hc Hcs IH]; intros [| w ws] [| b bs] Him Hw Hb;
    try discriminate; try reflexivity.
  - simpl. now destruct ((n =? 4)%Z && negb m).
  - inversion Him as [| ? ? -> Hbs]; subst.
    simpl in Hw, Hb. injection Hw as Hw. injection Hb as Hb.
    specialize (IH ws bs Hbs Hw Hb). simpl.
    assert (children_bucket c = 4%Z) as Hbucket.
    { unfold children_bucket. apply trunc_inject_Z. apply Q.min_r.
      rewrite Hc. discriminate. }
    unfold in_combination at 1. rewrite Hbucket.
    replace (Bool.eqb false m) with (negb m) by now destruct m.
    rewrite (Z.eqb_sym 4 n).
    destruct ((n =? 4)%Z && negb m); simpl; rewrite IH; reflexivity.
Qed.

(** C5.  On aligned inputs the calculator returns, and its rows are those of
    the combinations (geography, children bucket 0..4, married) whose total
    geography-specific weight is not zero: one row for each, in the order of
    the loops, none for the others; the row carries the geography's code and
    name, the bucket's label, the marital status, and as [household_count]
    the sum of the geography's weights over the households of the
    combination.  With one geography whose households are all unmarried with
    5 children and a non-zero summed weight, the result is one row, labelled
    "4+" and unmarried, counting the summed weight. *)
Theorem demographic_constituency_rows (baseline reformed : Microsimulation.t MS)
    (rid : string) (y : Z) (cw : list (list Q)) (cdf : list constituency)
    (bi ri nc im : MS) :
  Microsimulation.calculate baseline "household_net_income" y (Some "household")
    = ret bi ->
  Microsimulation.calculate reformed "household_net_income" y (Some "household")
    = ret ri ->
  Microsimulation.calculate baseline "num_children" y (Some "household")
    = ret nc ->
  Microsimulation.calculate baseline "is_married" y (Some "household")
    = ret im ->
  let households := List.length (values nc) in
  List.length (values bi) = households ->
  List.length (values ri) = households ->
  List.length (flags im) = households ->
  (List.length cdf <= List.length cw)%nat ->
  Forall (fun w => List.length w = households) cw ->
  let weight g n m :=
    combination_weight (nth g cw []) (values nc) (flags im) n m in
  exists rows combos,
    calculate baseline reformed rid y cw cdf = ret rows /\
    Forall2 (fun r p =>
               row_of_combination (nth (fst p) cdf no_constituency)
                 (fst (snd p)) (snd (snd p))
                 (weight (fst p) (fst (snd p)) (snd (snd p))) r)
            rows combos /\
    combos = filter (fun p => negb (np.eq (weight (fst p) (fst (snd p))
                                                  (snd (snd p))) 0))
                    (all_combinations (List.length cdf)) /\
    NoDup combos /\
    (forall g n m, In (g, (n, m)) combos <->
       (g < List.length cdf)%nat /\ (0 <= n <= 4)%Z /\ ~ weight g n m == 0) /\
    (forall c w,
       cdf = [c] -> cw = [w] ->
       Forall (fun k => k == 5) (values nc) ->
       Forall (fun b => b = false) (flags im) ->
       ~ np.sum w == 0 ->
       exists r, rows = [r] /\ num_children r = "4+" /\ is_married r = false /\
                 household_count r == np.sum w).
Proof.
  intros Hbi Hri Hnc Him households Hlbi Hlri Hlim Hlen Hcw weight.
  set (nz := fun p : nat * (Z * bool) =>
               negb (Qeq_bool (weight (fst p) (fst (snd p)) (snd (snd p))) 0)).
  set (combos := filter nz (all_combinations (List.length cdf))).
  assert (forall g n m, In (g, (n, m)) combos <->
            (g < List.length cdf)%nat /\ (0 <= n <= 4)%Z /\ ~ weight g n m == 0)
    as Hcombos.
  { intros g n m. unfold combos. rewrite filter_In, in_all_combinations.
    unfold nz. simpl. rewrite negb_true_iff.
    split.
    - intros [[Hg Hn] Hnz]. apply Qeq_bool_neq in Hnz. tauto.
    - intros [Hg [Hn Hnz]]. split; [tauto |].
      destruct (Qeq_bool (weight g n m) 0) eqn:E; [| reflexivity].
      apply Qeq_bool_iff in E. contradiction. }
  assert (NoDup combos) as Hnodup
    by (apply NoDup_filter, all_combinations_NoDup).
  pose proof (demographic_flat baseline reformed rid y cw cdf bi ri nc im
                Hbi Hri Hnc Him Hlen) as Hrun.
  remember (flat_map _ (all_combinations (List.length cdf))) as rows
    eqn:Hdef in Hrun.
  exists rows, combos.
  split; [exact Hrun |].
  assert (Forall2 (fun r p =>
               row_of_combination (nth (fst p) cdf no_constituency)
                 (fst (snd p)) (snd (snd p))
                 (weight (fst p) (fst (snd p)) (snd (snd p))) r)
            rows combos) as Hrows.
  { rewrite Hdef. unfold combos, nz.
    apply (rows_of_combinations _ _
             (fun p => weight (fst p) (fst (snd p)) (snd (snd p)))).
    - intros p Hp. now apply combination_rows_cases.
    - intros p Hp. now apply combination_rows_cases. }
  clear Hdef Hrun.
  split; [exact Hrows |]. split; [reflexivity |].
  split; [exact Hnodup |]. split; [exact Hcombos |].
  intros c w -> -> Hfive Hunmarried Hsum.
  assert (forall n m, weight 0%nat n m
            == if (n =? 4)%Z && negb m then np.sum w else 0) as Hweight.
  { intros n m. unfold weight. simpl.
    apply uniform_combination_weight; try assumption.
    now inversion Hcw. }
  assert (combos = [(0%nat, (4%Z, false))]) as Hone.
  { apply NoDup_only; [exact Hnodup |].
    intros [g [n m]]. rewrite Hcombos. simpl. split.
    - intros [Hg [Hn Hnz]]. assert (g = 0%nat) as -> by lia.
      rewrite Hweight in Hnz.
      destruct (n =? 4)%Z eqn:En; simpl in Hnz;
        [| exfalso; now apply Hnz].
      destruct m; simpl in Hnz; [exfalso; now apply Hnz |].
      apply Z.eqb_eq in En. now subst n.
    - intros [= -> -> ->]. rewrite Hweight. simpl. repeat split; try lia.
      exact Hsum. }
  rewrite Hone in Hrows.
  inversion Hrows as [| r p rows' combos' Hr Hrest Heq1 Heq2].
  inversion Hrest as [Heq3 |]. subst rows' p.
  exists r. split; [reflexivity |].
  destruct Hr as [_ [_ [Hlabel [Hmarried Hcount]]]]. simpl in *.
  repeat split; try assumption.
  now rewrite Hcount, Hweight.
Qed.

End DemographicCalculate.

Lemma demographic_constituency_rows_witness :
  exists r,
    DemographicConstituencyCalculator.calculate demo_baseline demo_reformed
      "r" 2026 demo_weights [demo_geography] = ret [r] /\
    DemographicConstituencyCalculator.num_children r = "4+" /\
    DemographicConstituencyCalculator.is_married r = false /\
    DemographicConstituencyCalculator.household_count r == 7.
Proof.
  assert (Forall (fun w : list Q => List.length w = 2%nat) demo_weights)
    as Hcw by (repeat constructor).
  destruct (@demographic_constituency_rows Series Series_ops
              demo_baseline demo_reformed "r" 2026
              demo_weights [demo_geography] demo_income_baseline
              demo_income_reformed demo_children demo_married
              Logic.eq_refl Logic.eq_refl Logic.eq_refl Logic.eq_refl
              (Logic.eq_refl 2%nat) (Logic.eq_refl 2%nat)
              (Logic.eq_refl 2%nat) (le_n 1) Hcw)
    as [rows [combos [Hrun [_ [_ [_ [_ Hone]]]]]]].
  assert (Forall (fun k => k == 5) (values demo_children)) as Hfive
    by (repeat constructor).
  assert (Forall (fun b => b = false) (flags demo_married)) as Hunmarried
    by (repeat constructor).
  assert (~ np.sum [3; 4] == 0) as Hsum by (vm_compute; discriminate).
  destruct (Hone demo_geography [3; 4] Logic.eq_refl Logic.eq_refl
              Hfive Hunmarried Hsum)
    as [r [Hrows [Hlabel [Hmarried Hcount]]]].
  exists r. rewrite <- Hrows.
  split; [exact Hrun | split; [exact Hlabel | split; [exact Hmarried |]]].
  rewrite Hcount. reflexivity.
Defined.

(** ** The decile table shared by the calculators *)

Section DecileTable.
Context {MS : Type} `{MicroSeriesOps MS}.

Lemma pd_DataFrame_aligned (d b r c w : list Q) :
  List.length b = List.length d -> List.length r = List.length d ->
  List.length c = List.length d -> List.length w = List.length d ->
  pd_DataFrame d b r c w = ret (zip_rows d b r c w).
Proof.
  intros Hb Hr Hc Hw. unfold pd_DataFrame, same_length.
  now rewrite Hb, Hr, Hc, Hw, !Nat.eqb_refl.
Qed.

(** C10.  On aligned simulation arrays, [calculate] returns the table of
    the households whose baseline income decile is at least 1, in the order
    of the arrays, and nothing else; the "all" row that
    [WinnersLosersCalculator.calculate] computes from this table is the
    weighted average over these households only. *)
Theorem decile_table_classified (baseline reformed : Microsimulation.t MS)
    (rid rn : string) (y : Z) (bi ri hd hw : MS) :
  Microsimulation.calculate baseline "household_net_income" y (Some "household")
    = ret bi ->
  Microsimulation.calculate reformed "household_net_income" y (Some "household")
    = ret ri ->
  Microsimulation.calculate baseline "household_income_decile" y
    (Some "household") = ret hd ->
  Microsimulation.calculate baseline "household_weight" y (Some "household")
    = ret hw ->
  let households := List.length (values hd) in
  List.length (values bi) = households ->
  List.length (values ri) = households ->
  List.length (values (ms_sub ri bi)) = households ->
  List.length (values hw) = households ->
  let units :=
    zip_rows (values hd) (values bi) (values ri) (values (ms_sub ri bi))
      (values hw) in
  let classified_units :=
    filter (fun r => np.ge (household_income_decile r) 1) units in
  exists results decile_df,
    DistributionalImpactCalculator.calculate
      DistributionalImpactCalculator.default baseline reformed rid rn y
    = ret (results, decile_df) /\
    decile_df = classified_units /\
    Forall (fun r => 1 <= household_income_decile r) decile_df /\
    (forall r, In r decile_df <->
               In r units /\ 1 <= household_income_decile r) /\
    exists r_all,
      In r_all (WinnersLosersCalculator.calculate decile_df rid rn y) /\
      WinnersLosersCalculator.decile r_all = "all" /\
      (0 < total_weight classified_units ->
       WinnersLosersCalculator.avg_change r_all
       == sigma_w income_change classified_units
          / total_weight classified_units) /\
      (total_weight classified_units <= 0 ->
       WinnersLosersCalculator.avg_change r_all = 0).
Proof.
  intros Hbi Hri Hhd Hhw households Hlb Hlr Hlc Hlw units classified_units.
  assert (forall r, In r classified_units <->
                    In r units /\ 1 <= household_income_decile r) as Hin.
  { intros r. unfold classified_units. rewrite filter_In.
    unfold np.ge. now rewrite Qle_bool_iff. }
  eexists. exists classified_units.
  split; [| split; [reflexivity | split; [| split; [exact Hin |]]]].
  - unfold DistributionalImpactCalculator.calculate.
    rewrite Hbi, Hri, Hhd, Hhw. simpl.
    rewrite pd_DataFrame_aligned by assumption. simpl.
    fold units. fold classified_units.
    rewrite distributional_rows. reflexivity.
  - apply Forall_forall. intros r Hr. now apply Hin.
  - exists (overall_row rid rn y classified_units).
    split; [| split; [reflexivity | split]].
    + unfold WinnersLosersCalculator.calculate.
      apply in_calculate_from_dataframe. now right.
    + intros Hpos. simpl. unfold WinnersLosersCalculator.average_change.
      apply np_gt_true in Hpos. rewrite Hpos.
      now rewrite weighted_sigma_w.
    + intros Hle. simpl. unfold WinnersLosersCalculator.average_change.
      apply np_gt_false in Hle. now rewrite Hle.
Qed.

End DecileTable.

Lemma decile_table_classified_witness :
  exists results decile_df r_all,
    DistributionalImpactCalculator.calculate
      DistributionalImpactCalculator.default table_baseline table_reformed
      "r" "R" 2026 = ret (results, decile_df) /\
    decile_df = [ mk_row 1 200 210 1; mk_row 2 300 280 2 ] /\
    In r_all (WinnersLosersCalculator.calculate decile_df "r" "R" 2026) /\
    WinnersLosersCalculator.decile r_all = "all" /\
    WinnersLosersCalculator.avg_change r_all == -10.
Proof.
  destruct (@decile_table_classified Series Series_ops
              table_baseline table_reformed "r" "R" 2026
              (numeric [100; 200; 300] [1; 1; 2])
              (numeric [150; 210; 280] [1; 1; 2])
              (numeric [0; 1; 2] [1; 1; 2])
              (numeric [1; 1; 2] [1; 1; 2])
              Logic.eq_refl Logic.eq_refl Logic.eq_refl Logic.eq_refl
              (Logic.eq_refl 3%nat) (Logic.eq_refl 3%nat)
              (Logic.eq_refl 3%nat) (Logic.eq_refl 3%nat))
    as [results [decile_df [Hrun [Hdf [_ [_ Hall]]]]]].
  destruct Hall as [r_all [Hin [Hlabel [Hpos _]]]].
  exists results, decile_df, r_all.
  split; [exact Hrun |].
  split; [rewrite Hdf; reflexivity |].
  split; [exact Hin | split; [exact Hlabel |]].
  rewrite Hpos by reflexivity. reflexivity.
Defined.

(** ** MetricsCalculator: the poverty rates at zero total weight *)

Lemma np_sum_zero (a : list Q) : Forall (fun x => x == 0) a -> np.sum a == 0.
Proof.
  induction 1 as [| x a Hx Ha IH]; [reflexivity |].
  rewrite np_sum_cons, Hx, IH. reflexivity.
Qed.

Lemma Forall_select {A} (P : A -> Prop) (a : list A) (mask : list bool) :
  Forall P a -> Forall P (np.select a mask).
Proof.
  intros Ha. unfold np.select. apply Forall_forall. intros x Hx.
  apply in_map_iff in Hx. destruct Hx as [[x' b] [<- Hx]].
  apply filter_In in Hx. destruct Hx as [Hx _]. apply in_combine_l in Hx.
  rewrite Forall_forall in Ha. now apply Ha.
Qed.

Lemma div_zero_zero (a b : Q) :
  a == 0 -> b == 0 -> Ext.div (Fin a) (Fin b) = NaN.
Proof.
  intros Ha Hb. simpl. apply Qeq_bool_iff in Hb. rewrite Hb.
  unfold Ext.sign. rewrite (proj1 (Qeq_alt a 0) Ha). reflexivity.
Qed.

(** When every person weight is zero, both poverty rates are [0/0]: the
    percentage-point change is [nan], and the relative change is 0 because
    [nan > 0] is false. *)
Lemma poverty_change_zero_weight (baseline_poverty reformed_poverty : list bool)
    (person_weight : list Q) :
  Forall (fun w => w == 0) person_weight ->
  MetricsCalculator.poverty_change baseline_poverty reformed_poverty
    person_weight = (NaN, Fin 0).
Proof.
  intros Hzero. unfold MetricsCalculator.poverty_change.
  rewrite !div_zero_zero;
    try (apply np_sum_zero; try apply Forall_select; exact Hzero).
  reflexivity.
Qed.

(** C3 fails on the code.  On a population whose weights are all zero the
    calculator returns one row; the guarded share of people affected is 0,
    but the poverty change in percentage points is [nan], not 0. *)
Theorem metrics_zero_person_weight :
  exists row,
    MetricsCalculator.calculate weightless_baseline weightless_reformed
      "r" "R" 2026 = ret [row] /\
    MetricsCalculator.people_affected row = 0 /\
    MetricsCalculator.poverty_change_pp row = NaN /\
    MetricsCalculator.poverty_change_pct row = Fin 0.
Proof.
  eexists. split; [vm_compute; reflexivity |]. simpl. repeat split.
Qed.

(** ** Extended numbers up to [==] *)

Lemma eqv_refl (x : ext) : Ext.eqv x x.
Proof. destruct x; simpl; auto. reflexivity. Qed.

Lemma eqv_sym (x y : ext) : Ext.eqv x y -> Ext.eqv y x.
Proof. destruct x, y; simpl; auto. intros Hxy. now symmetry. Qed.

Lemma eqv_trans (x y z : ext) : Ext.eqv x y -> Ext.eqv y z -> Ext.eqv x z.
Proof.
  destruct x, y, z; simpl; auto; try contradiction.
  intros Hxy Hyz. now rewrite Hxy.
Qed.

Lemma sign_eqv (a a' : Q) : a == a' -> Ext.sign a = Ext.sign a'.
Proof. intros Ha. unfold Ext.sign. now rewrite Ha. Qed.

Lemma opp_eqv (x x' : ext) : Ext.eqv x x' -> Ext.eqv (Ext.opp x) (Ext.opp x').
Proof.
  destruct x, x'; simpl; auto. intros Hx. now rewrite Hx.
Qed.

Lemma add_eqv (x x' y y' : ext) :
  Ext.eqv x x' -> Ext.eqv y y' -> Ext.eqv (Ext.add x y) (Ext.add x' y').
Proof.
  destruct x, x', y, y'; simpl; auto; try contradiction.
  intros Hx Hy. now rewrite Hx, Hy.
Qed.

Lemma sub_eqv (x x' y y' : ext) :
  Ext.eqv x x' -> Ext.eqv y y' -> Ext.eqv (Ext.sub x y) (Ext.sub x' y').
Proof.
  intros Hx Hy. unfold Ext.sub. apply add_eqv; [exact Hx | now apply opp_eqv].
Qed.

Lemma div_eqv (x x' y y' : ext) :
  Ext.eqv x x' -> Ext.eqv y y' -> Ext.eqv (Ext.div x y) (Ext.div x' y').
Proof.
  destruct x as [a | | |], x' as [a' | | |], y as [b | | |], y' as [b' | | |];
    simpl; auto; try contradiction.
  - intros Ha Hb. rewrite (sign_eqv a a' Ha).
    assert (Qeq_bool b 0 = Qeq_bool b' 0) as -> by now rewrite Hb.
    destruct (Qeq_bool b' 0).
    + apply eqv_refl.
    + simpl. now rewrite Ha, Hb.
  - intros _ _. reflexivity.
  - intros _ _. reflexivity.
  - intros _ Hb. rewrite (sign_eqv b b' Hb). apply eqv_refl.
  - intros _ Hb. rewrite (sign_eqv b b' Hb). apply eqv_refl.
Qed.

(** ** MetricsCalculator: the Gini change under a change of scale *)

Lemma clamp_scaled (c : Q) (xs xs' : list Q) :
  0 < c -> scaled c xs xs' ->
  scaled c (np.maximum xs 0) (np.maximum xs' 0).
Proof.
  intros Hc Hs. unfold scaled, np.maximum.
  induction Hs as [| x x' xs xs' Hx Hxs IH]; simpl; constructor; [| exact IH].
  destruct (Qlt_le_dec x 0) as [Hneg | Hpos].
  - rewrite (Q.max_r x 0) by lra. rewrite Q.max_r; [ring |].
    rewrite Hx. nra.
  - rewrite (Q.max_l x 0) by assumption. rewrite Q.max_l; [exact Hx |].
    rewrite Hx. nra.
Qed.

Section GiniChange.
Import MetricsCalculator.
Context {MS : Type} `{MicroSeriesOps MS}.

(** The Gini coefficient of the series library does not depend on the unit
    of income. *)
Hypothesis gini_scale_invariant :
  forall (c : Q) (xs xs' ws : list Q),
    0 < c -> scaled c xs xs' ->
    Ext.eqv (gini (MicroSeries xs' ws)) (gini (MicroSeries xs ws)).

Lemma gini_change_of_scaled (c : Q) (be be' re re' hw hc : list Q) :
  0 < c -> scaled c be be' -> scaled c re re' ->
  Ext.eqv (gini_change_of be' re' hw hc) (gini_change_of be re hw hc).
Proof.
  intros Hc Hbe Hre. unfold gini_change_of.
  assert (Ext.eqv (gini (MicroSeries (np.maximum be' 0) (np.mul hw hc)))
                  (gini (MicroSeries (np.maximum be 0) (np.mul hw hc))))
    as Hb
    by (apply (gini_scale_invariant c); [| apply clamp_scaled]; assumption).
  assert (Ext.eqv (gini (MicroSeries (np.maximum re' 0) (np.mul hw hc)))
                  (gini (MicroSeries (np.maximum re 0) (np.mul hw hc))))
    as Hr
    by (apply (gini_scale_invariant c); [| apply clamp_scaled]; assumption).
  apply div_eqv; [apply sub_eqv |]; assumption.
Qed.

Ltac run_call Hrun :=
  match type of Hrun with
  | context [Microsimulation.calculate ?s ?v ?y ?m] =>
      destruct (Microsimulation.calculate s v y m) eqn:?;
      cbn [bind ret] in Hrun |- *; [discriminate Hrun |]
  end.

(** C8.  Take two pairs of simulations that agree on every variable except
    the equivalised household income, which in the second pair is the
    first pair's multiplied by a positive constant, for the baseline and
    for the reform.  When [calculate] returns a row for the first pair it
    returns a row for the second pair, with the same [gini_change] (the
    clamp at zero included) and the same other fields. *)
Theorem gini_change_scale_invariant (c : Q)
    (baseline reformed baseline' reformed' : Microsimulation.t MS)
    (rid rn : string) (y : Z) (be re be' re' : MS) (row : row) :
  0 < c ->
  (forall v m, v <> "equiv_household_net_income" ->
     Microsimulation.calculate baseline' v y m
     = Microsimulation.calculate baseline v y m) ->
  (forall v m, v <> "equiv_household_net_income" ->
     Microsimulation.calculate reformed' v y m
     = Microsimulation.calculate reformed v y m) ->
  Microsimulation.calculate baseline "equiv_household_net_income" y
    (Some "household") = ret be ->
  Microsimulation.calculate reformed "equiv_household_net_income" y
    (Some "household") = ret re ->
  Microsimulation.calculate baseline' "equiv_household_net_income" y
    (Some "household") = ret be' ->
  Microsimulation.calculate reformed' "equiv_household_net_income" y
    (Some "household") = ret re' ->
  scaled c (values be) (values be') ->
  scaled c (values re) (values re') ->
  calculate baseline reformed rid rn y = ret [row] ->
  exists row',
    calculate baseline' reformed' rid rn y = ret [row'] /\
    Ext.eqv (gini_change row') (gini_change row) /\
    people_affected row' = people_affected row /\
    poverty_change_pp row' = poverty_change_pp row /\
    poverty_change_pct row' = poverty_change_pct row.
Proof.
  intros Hc Hb Hr Hbe Hre Hbe' Hre' Hsb Hsr Hrun.
  unfold calculate in Hrun |- *.
  rewrite Hbe', Hre'. rewrite !Hb, !Hr by discriminate.
  rewrite Hbe, Hre in Hrun.
  repeat run_call Hrun.
  destruct (poverty_change _ _ _) as [pp pct].
  injection Hrun as <-.
  eexists. split; [reflexivity |]. simpl.
  split; [| repeat split].
  now apply (gini_change_of_scaled c).
Qed.

End GiniChange.

(** The reference Gini coefficient does not depend on the unit of income. *)

Lemma np_sum_Forall2 {A} (R : A -> A -> Prop) (k : Q) (f f' : A -> Q)
    (l l' : list A) :
  Forall2 R l l' ->
  (forall a a', R a a' -> f' a' == k * f a) ->
  np.sum (map f' l') == k * np.sum (map f l).
Proof.
  intros Hl Hf. induction Hl as [| a a' l l' Ha Hl IH]; simpl map.
  - unfold np.sum. simpl. ring.
  - rewrite !np_sum_cons, IH, (Hf a a' Ha). ring.
Qed.

Lemma combine_scaled (c : Q) (xs xs' ws : list Q) :
  scaled c xs xs' ->
  Forall2 (scaled_pair c) (combine xs ws) (combine xs' ws).
Proof.
  intros Hs. revert ws.
  induction Hs as [| x x' xs xs' Hx Hxs IH]; intros [| w ws]; simpl;
    constructor; [split; [exact Hx | reflexivity] | apply IH].
Qed.

Lemma abs_difference_scaled (c : Q) (p p' q q' : Q * Q) :
  0 < c -> scaled_pair c p p' -> scaled_pair c q q' ->
  snd p' * snd q' * Qabs (fst p' - fst q')
  == c * (snd p * snd q * Qabs (fst p - fst q)).
Proof.
  intros Hc [Hp Hpw] [Hq Hqw]. rewrite Hpw, Hqw.
  assert (fst p' - fst q' == c * (fst p - fst q)) as Hd
    by (rewrite Hp, Hq; ring).
  rewrite Hd, Qabs_Qmult, (Qabs_pos c) by lra. ring.
Qed.

Lemma div_scaled (c a a' b b' : Q) :
  0 < c -> a' == c * a -> b' == c * b ->
  Ext.eqv (Ext.div (Fin a') (Fin b')) (Ext.div (Fin a) (Fin b)).
Proof.
  intros Hc Ha Hb. simpl.
  assert (Ext.sign a' = Ext.sign a) as Hsign.
  { unfold Ext.sign.
    destruct (Qcompare_spec a 0), (Qcompare_spec a' 0);
      try reflexivity; exfalso; nra. }
  assert (Qeq_bool b' 0 = Qeq_bool b 0) as Hzero.
  { destruct (Qeq_bool b 0) eqn:E.
    - apply Qeq_bool_iff in E. apply Qeq_bool_iff. rewrite Hb, E. ring.
    - apply Qeq_bool_neq in E. destruct (Qeq_bool b' 0) eqn:E'; [| reflexivity].
      apply Qeq_bool_iff in E'. exfalso. apply E. nra. }
  rewrite Hsign, Hzero. destruct (Qeq_bool b 0) eqn:E.
  - apply eqv_refl.
  - apply Qeq_bool_neq in E. simpl. rewrite Ha, Hb. field.
    split; [exact E | lra].
Qed.

Lemma weighted_gini_scale (c : Q) (xs xs' ws : list Q) :
  0 < c -> scaled c xs xs' ->
  Ext.eqv (weighted_gini xs' ws) (weighted_gini xs ws).
Proof.
  intros Hc Hs. unfold weighted_gini.
  pose proof (combine_scaled c xs xs' ws Hs) as Hxw.
  apply (div_scaled c); [exact Hc | |].
  - unfold abs_difference_sum.
    apply (np_sum_Forall2 (scaled_pair c)); [exact Hxw |].
    intros p p' Hp.
    apply (np_sum_Forall2 (scaled_pair c)); [exact Hxw |].
    intros q q' Hq. now apply abs_difference_scaled.
  - unfold np.mul.
    rewrite (np_sum_Forall2 (scaled_pair c) c
               (fun p => fst p * snd p) (fun p => fst p * snd p)
               _ _ Hxw).
    + ring.
    + intros p p' [Hp Hw]. rewrite Hp, Hw. ring.
Qed.

Lemma with_variable_other (simulation : Microsimulation.t Series)
    (variable : string) (series : Series) (v : string) (period : Z)
    (map_to : option string) :
  v <> variable ->
  Microsimulation.calculate (with_variable simulation variable series)
    v period map_to
  = Microsimulation.calculate simulation v period map_to.
Proof.
  intros Hv. simpl. destruct (String.eqb v variable) eqn:E; [| reflexivity].
  apply String.eqb_eq in E. contradiction.
Qed.

Lemma gini_change_scale_invariant_witness :
  exists row row',
    MetricsCalculator.calculate gini_baseline gini_reformed "r" "R" 2026
    = ret [row] /\
    MetricsCalculator.calculate gini_baseline_doubled gini_reformed_doubled
      "r" "R" 2026 = ret [row'] /\
    Ext.eqv (MetricsCalculator.gini_change row')
            (MetricsCalculator.gini_change row).
Proof.
  assert (exists row,
            MetricsCalculator.calculate gini_baseline gini_reformed
              "r" "R" 2026 = ret [row]) as [row Hrun]
    by (eexists; vm_compute; reflexivity).
  assert (0 < 2) as Hc by reflexivity.
  assert (scaled 2 [-50; 200; 400] [-100; 400; 800]) as Hsb
    by (repeat constructor).
  assert (scaled 2 [100; 200; 380] [200; 400; 760]) as Hsr
    by (repeat constructor).
  destruct (@gini_change_scale_invariant Series Series_ops
              (fun c xs xs' ws Hc' Hs => weighted_gini_scale c xs xs' ws Hc' Hs)
              2 gini_baseline gini_reformed
              gini_baseline_doubled gini_reformed_doubled "r" "R" 2026
              (numeric [-50; 200; 400] [1; 1; 1])
              (numeric [100; 200; 380] [1; 1; 1])
              (numeric [-100; 400; 800] [1; 1; 1])
              (numeric [200; 400; 760] [1; 1; 1])
              row Hc
              (fun v m Hv => with_variable_other gini_baseline _ _ v 2026 m Hv)
              (fun v m Hv => with_variable_other gini_reformed _ _ v 2026 m Hv)
              Logic.eq_refl Logic.eq_refl Logic.eq_refl Logic.eq_refl
              Hsb Hsr Hrun)
    as [row' [Hrun' [Hgini _]]].
  exists row, row'. split; [exact Hrun | split; [exact Hrun' | exact Hgini]].
Defined.

(** ** ReformProcessor: missing constituency data *)

Section ProcessWithoutConstituencyData.
Import ReformProcessor.
Context {Sim Modifier Params Weights ConstituencyDF Table : Type}.
Context {BudgetRow DistRow WLRow MetricRow CurveRow ScatterRow ConstRow DemoRow
         : Type}.

Abbreviation processor :=
  (ReformProcessor.t Sim Modifier Params Weights ConstituencyDF Table
     BudgetRow DistRow WLRow MetricRow CurveRow ScatterRow ConstRow DemoRow).
Abbreviation file_system := (FileSystem Weights ConstituencyDF).
Abbreviation accumulators :=
  (per_year DistRow WLRow MetricRow CurveRow ScatterRow ConstRow DemoRow).

Lemma calculate_constituency_absent (fs : file_system) (self : processor)
    (baseline reformed : Sim) (rid : string) (y : Z) :
  constituency_data_absent fs self ->
  _calculate_constituency fs self baseline reformed rid y
  = raise (FileNotFoundError "Constituency data not found").
Proof.
  intros Habsent. unfold _calculate_constituency.
  assert (negb (path_exists fs (weights_path self))
          || negb (path_exists fs (constituencies_path self)) = true) as ->.
  { destruct Habsent as [-> | ->]; simpl; [reflexivity | apply orb_true_r]. }
  reflexivity.
Qed.

Variables (fs : file_system) (self : processor) (baseline reformed : Sim).
Variables (dist : Z -> list DistRow) (table : Z -> Table)
          (wl : Z -> list WLRow) (met : Z -> list MetricRow)
          (curve : Z -> list CurveRow) (scatter : Z -> list ScatterRow).

Let rid := Reform.id (reform self).
Let rn := Reform.name (reform self).

Let others (y : Z) : Prop :=
  others_return self baseline reformed dist table wl met curve scatter y.

Lemma process_year_absent (acc : accumulators) (y : Z) :
  constituency_data_absent fs self ->
  others y ->
  process_year fs self baseline reformed acc y =
  ret {| all_distributional := all_distributional acc ++ dist y;
         all_winners_losers := all_winners_losers acc ++ wl y;
         all_metrics := all_metrics acc ++ met y;
         all_income_curve := all_income_curve acc ++ curve y;
         all_household_scatter := all_household_scatter acc ++ scatter y;
         all_constituency := all_constituency acc;
         all_demographic := all_demographic acc |}.
Proof.
  intros Habsent [Hdist [Hwl [Hmet [Hcurve Hscatter]]]].
  unfold process_year. fold rid rn. fold rid rn in Hdist, Hwl, Hmet, Hcurve,
    Hscatter.
  rewrite Hdist. cbn [bind ret].
  rewrite Hwl. cbn [bind ret].
  rewrite Hmet. cbn [bind ret].
  rewrite Hcurve. cbn [bind ret].
  rewrite Hscatter. cbn [bind ret].
  rewrite (calculate_constituency_absent fs self baseline reformed rid y
             Habsent).
  reflexivity.
Qed.

Lemma for_years_absent (ys : list Z) (acc : accumulators) :
  constituency_data_absent fs self ->
  (forall y, In y ys -> others y) ->
  for_fold ys acc (process_year fs self baseline reformed) =
  ret {| all_distributional := all_distributional acc ++ flat_map dist ys;
         all_winners_losers := all_winners_losers acc ++ flat_map wl ys;
         all_metrics := all_metrics acc ++ flat_map met ys;
         all_income_curve := all_income_curve acc ++ flat_map curve ys;
         all_household_scatter :=
           all_household_scatter acc ++ flat_map scatter ys;
         all_constituency := all_constituency acc;
         all_demographic := all_demographic acc |}.
Proof.
  intros Habsent. revert acc.
  induction ys as [| y ys IH]; intros acc Hothers; simpl.
  - rewrite !app_nil_r. now destruct acc.
  - rewrite (process_year_absent acc y Habsent) by (apply Hothers; now left).
    cbn [bind ret]. rewrite IH by (intros y' Hy'; apply Hothers; now right).
    simpl. now rewrite <- !app_assoc.
Qed.

(** C9.  When the constituency data is absent, the constituency and the
    demographic-constituency calculators are skipped in every year and the
    run goes on: if the budgetary calculator returns and the other five
    calculators return for every configured year, [process] returns the
    reform's result with all their rows, year after year, and with no
    constituency and no demographic-constituency row. *)
Theorem process_without_constituency_data (budgetary : list BudgetRow) :
  constituency_data_absent fs self ->
  budgetary_calc (calculators self) baseline reformed rid rn = ret budgetary ->
  (forall y, In y (years (config self)) ->
     others_return self baseline reformed dist table wl met curve scatter y) ->
  process fs self baseline reformed =
  ret {| reform_id := rid;
         reform_name := rn;
         budgetary_impact := budgetary;
         distributional_impact := flat_map dist (years (config self));
         winners_losers := flat_map wl (years (config self));
         metrics := flat_map met (years (config self));
         income_curve := flat_map curve (years (config self));
         household_scatter := flat_map scatter (years (config self));
         constituency := [];
         demographic_constituency := [] |}.
Proof.
  intros Habsent Hbudget Hothers. unfold process. fold rid rn.
  rewrite Hbudget. cbn [bind ret].
  rewrite (for_years_absent _ _ Habsent Hothers). reflexivity.
Qed.

End ProcessWithoutConstituencyData.

Lemma process_without_constituency_data_witness :
  ReformProcessor.process no_weights_file toy_processor tt tt =
  ret {| ReformProcessor.reform_id := "scottish_threshold_freeze";
         ReformProcessor.reform_name := "Threshold freeze";
         ReformProcessor.budgetary_impact := [ "budgetary" ];
         ReformProcessor.distributional_impact :=
           [ "distributional 2026"; "distributional 2027" ];
         ReformProcessor.winners_losers :=
           [ "winners_losers 2026"; "winners_losers 2027" ];
         ReformProcessor.metrics := [ "metrics 2026"; "metrics 2027" ];
         ReformProcessor.income_curve :=
           [ "income_curve 2026"; "income_curve 2027" ];
         ReformProcessor.household_scatter :=
           [ "household_scatter 2026"; "household_scatter 2027" ];
         ReformProcessor.constituency := [];
         ReformProcessor.demographic_constituency := [] |}.
Proof.
  refine (process_without_constituency_data no_weights_file toy_processor
            tt tt
            (labelled "distributional") (fun _ => two_households_df)
            (labelled "winners_losers") (labelled "metrics")
            (labelled "income_curve") (labelled "household_scatter")
            [ "budgetary" ] _ _ _).
  - left. reflexivity.
  - reflexivity.
  - intros y _. repeat split.
Defined.

(* ================================================================== *)
(** * Further properties *)

(** ** Loops that raise *)

Lemma for_each_raise {A B} (xs : list A) (body : A -> M (list B)) (e : exn) :
  (forall x, In x xs -> (exists rows, body x = ret rows) \/ body x = raise e) ->
  (exists x, In x xs /\ body x = raise e) ->
  for_each xs body = raise e.
Proof.
  induction xs as [| x xs IH]; intros Hbody [x0 [Hin Hraise]].
  - contradiction.
  - simpl. destruct (Hbody x (or_introl Logic.eq_refl)) as [[rows Hx] | Hx].
    + rewrite Hx. cbn [bind ret].
      rewrite IH; [reflexivity | intros x' Hx'; apply Hbody; now right |].
      destruct Hin as [<- | Hin]; [| now exists x0].
      rewrite Hx in Hraise. discriminate Hraise.
    + rewrite Hx. reflexivity.
Qed.

Lemma for_each_ext {A B} (xs : list A) (body body' : A -> M (list B)) :
  (forall x, In x xs -> body x = body' x) ->
  for_each xs body = for_each xs body'.
Proof.
  induction xs as [| x xs IH]; intros Hbody; simpl; [reflexivity |].
  rewrite (Hbody x) by now left.
  rewrite IH by (intros x' Hx'; apply Hbody; now right). reflexivity.
Qed.

(** ** BudgetaryImpactCalculator.calculate_from_values *)

Section BudgetaryFromValues.
Import BudgetaryImpactCalculator.

(** X1.  [calculate_from_values] reports the configured years that both
    dicts know, in the order of the configuration, and skips the others
    without an error; every reported value is the difference of the two
    balances of its year divided by 1e9. *)
Theorem budgetary_from_values_years (self : t) (rid rn : string)
    (baseline_balances reformed_balances : list (Z * Q)) :
  let out :=
    calculate_from_values self rid rn baseline_balances reformed_balances in
  let known y :=
    match dict_get baseline_balances y, dict_get reformed_balances y with
    | Some _, Some _ => true
    | _, _ => false
    end in
  map year out = filter known (years self) /\
  (forall r, In r out ->
     reform_id r = rid /\ reform_name r = rn /\
     exists b v,
       dict_get baseline_balances (year r) = Some b /\
       dict_get reformed_balances (year r) = Some v /\
       value r = (v - b) / 1000000000) /\
  (baseline_balances = [] \/ reformed_balances = [] -> out = []).
Proof.
  intros out known. subst out. unfold calculate_from_values.
  split; [| split].
  - induction (years self) as [| y ys IH]; simpl; [reflexivity |].
    rewrite map_app, IH. unfold known at 2.
    destruct (dict_get baseline_balances y), (dict_get reformed_balances y);
      reflexivity.
  - intros r Hr. apply in_flat_map in Hr. destruct Hr as [y [_ Hr]].
    destruct (dict_get baseline_balances y) as [b |] eqn:Eb;
      [| contradiction].
    destruct (dict_get reformed_balances y) as [v |] eqn:Ev;
      [| contradiction].
    destruct Hr as [<- | []]. simpl. repeat split. now exists b, v.
  - intros [-> | ->]; induction (years self) as [| y ys IH]; simpl;
      try reflexivity; try exact IH.
    destruct (dict_get baseline_balances y); exact IH.
Qed.

Context {MS : Type} `{MicroSeriesOps MS}.

(** X2.  [calculate] and [calculate_from_values] agree: when the series
    library's sum of a difference is the difference of the sums, the rows
    [calculate] returns have the years, names and (up to [==]) the values of
    the rows [calculate_from_values] gives on the summed aggregates. *)
Theorem budgetary_calculate_agrees_with_values (self : t)
    (baseline reformed : Microsimulation.t MS) (rid rn : string)
    (sb sr : Z -> MS) :
  let variable :=
    if str_in rid STUDENT_LOAN_REFORMS
    then "student_loan_repayment" else "gov_balance" in
  (forall y, In y (years self) ->
             Microsimulation.calculate baseline variable y None = ret (sb y)) ->
  (forall y, In y (years self) ->
             Microsimulation.calculate reformed variable y None = ret (sr y)) ->
  (forall y, In y (years self) ->
             ms_sum (ms_sub (sr y) (sb y)) == ms_sum (sr y) - ms_sum (sb y)) ->
  exists rows,
    calculate self baseline reformed rid rn = ret rows /\
    Forall2 (fun r r' =>
               reform_id r = reform_id r' /\ reform_name r = reform_name r' /\
               year r = year r' /\ value r == value r')
            rows
            (calculate_from_values self rid rn
               (map (fun y => (y, ms_sum (sb y))) (years self))
               (map (fun y => (y, ms_sum (sr y))) (years self))).
Proof.
  intros variable Hb Hr Hlin.
  eexists. split.
  - unfold calculate. apply for_each_flat_map. intros y Hy.
    specialize (Hb y Hy). specialize (Hr y Hy). subst variable.
    destruct (str_in rid STUDENT_LOAN_REFORMS); rewrite Hb, Hr; reflexivity.
  - unfold calculate_from_values.
    assert (forall (f : Z -> Q) l y, In y l ->
              dict_get (map (fun y => (y, f y)) l) y = Some (f y)) as Hget.
    { intros f l y. induction l as [| y' l IH]; simpl; [contradiction |].
      intros [-> | Hin]; [now rewrite Z.eqb_refl |].
      destruct (y' =? y)%Z eqn:E; [| now apply IH].
      apply Z.eqb_eq in E. now subst y'. }
    assert (forall l, incl l (years self) ->
      Forall2 (fun r r' =>
               reform_id r = reform_id r' /\ reform_name r = reform_name r' /\
               year r = year r' /\ value r == value r')
        (flat_map (fun y =>
           [ {| reform_id := rid; reform_name := rn; year := y;
                value := ms_sum (ms_sub (sr y) (sb y)) / 1000000000 |} ]) l)
        (flat_map (fun y =>
           match dict_get (map (fun y => (y, ms_sum (sb y))) (years self)) y,
                 dict_get (map (fun y => (y, ms_sum (sr y))) (years self)) y
           with
           | Some b, Some v =>
               [ {| reform_id := rid; reform_name := rn; year := y;
                    value := (v - b) / 1000000000 |} ]
           | _, _ => []
           end) l)) as Hall.
    { induction l as [| y l IH]; intros Hincl; simpl; [constructor |].
      assert (In y (years self)) as Hy by (apply Hincl; now left).
      rewrite (Hget (fun y => ms_sum (sb y)) _ y Hy).
      rewrite (Hget (fun y => ms_sum (sr y)) _ y Hy).
      simpl. constructor.
      - simpl. repeat split. now rewrite (Hlin y Hy).
      - apply IH. intros y' Hy'. apply Hincl. now right. }
    apply Hall. apply incl_refl.
Qed.

End BudgetaryFromValues.

Lemma budgetary_calculate_agrees_with_values_witness :
  let balance_b := numeric [5000000000; 5000000000] [1; 1] in
  let balance_r := numeric [6000000000; 5000000000] [1; 1] in
  let self := BudgetaryImpactCalculator.default in
  exists rows,
    BudgetaryImpactCalculator.calculate self fiscal_baseline fiscal_reformed
      "scottish_threshold_freeze" "Freeze" = ret rows /\
    Forall2 (fun r r' =>
               BudgetaryImpactCalculator.reform_id r
               = BudgetaryImpactCalculator.reform_id r' /\
               BudgetaryImpactCalculator.reform_name r
               = BudgetaryImpactCalculator.reform_name r' /\
               BudgetaryImpactCalculator.year r
               = BudgetaryImpactCalculator.year r' /\
               BudgetaryImpactCalculator.value r
               == BudgetaryImpactCalculator.value r')
            rows
            (BudgetaryImpactCalculator.calculate_from_values self
               "scottish_threshold_freeze" "Freeze"
               (map (fun y => (y, ms_sum balance_b))
                    (BudgetaryImpactCalculator.years self))
               (map (fun y => (y, ms_sum balance_r))
                    (BudgetaryImpactCalculator.years self))).
Proof.
  intros balance_b balance_r self.
  apply (@budgetary_calculate_agrees_with_values Series Series_ops
           self fiscal_baseline fiscal_reformed
           "scottish_threshold_freeze" "Freeze"
           (fun _ => balance_b) (fun _ => balance_r));
    intros y _; reflexivity.
Defined.

(** ** DistributionalImpactCalculator with configured decile names *)

Lemma list_index_short {A} (l : list A) (i : Z) :
  (0 <= i)%Z -> (Z.of_nat (List.length l) <= i)%Z ->
  list_index l i = raise IndexError.
Proof.
  intros Hi Hlen. unfold list_index.
  destruct (i <? 0)%Z eqn:E; [apply Z.ltb_lt in E; lia |]. rewrite E.
  destruct (nth_error l (Z.to_nat i)) eqn:En; [| reflexivity].
  assert (nth_error l (Z.to_nat i) <> None) as Hsome by congruence.
  apply nth_error_Some in Hsome. lia.
Qed.

Lemma list_index_nth {A} (l : list A) (i : Z) (d : A) :
  (0 <= i < Z.of_nat (List.length l))%Z ->
  list_index l i = ret (nth (Z.to_nat i) l d).
Proof.
  intros Hi. unfold list_index.
  destruct (i <? 0)%Z eqn:E; [apply Z.ltb_lt in E; lia |]. rewrite E.
  destruct (nth_error l (Z.to_nat i)) eqn:En.
  - now rewrite (nth_error_nth _ _ d En).
  - apply nth_error_None in En. lia.
Qed.

Section DistributionalNames.
Import DistributionalImpactCalculator.

(** X3.  With a configured list of decile names that is too short for a
    decile present in the table, [calculate_from_dataframe] raises
    [IndexError] and returns no row at all. *)
Theorem distributional_missing_name (self : t) (rid rn : string) (y : Z)
    (df : DataFrame) (d : Z) :
  (1 <= d <= 10)%Z ->
  decile_data df d <> [] ->
  (Z.of_nat (List.length (decile_names self)) < d)%Z ->
  calculate_from_dataframe self rid rn y df = raise IndexError.
Proof.
  intros Hd Hpresent Hshort. unfold calculate_from_dataframe.
  apply for_each_raise.
  - intros d' Hd'. apply in_range_1_11 in Hd'.
    destruct (0 <? List.length (decile_data df d'))%nat; [| left; eauto].
    destruct (Z_lt_le_dec (d' - 1) (Z.of_nat (List.length (decile_names self))))
      as [Hin | Hout].
    + left. rewrite (list_index_nth _ _ "") by lia. cbn [bind ret]. eauto.
    + right. rewrite list_index_short by lia. reflexivity.
  - exists d. split; [now apply in_range_1_11 |].
    apply length_pos_nonempty in Hpresent. rewrite Hpresent.
    rewrite list_index_short by lia. reflexivity.
Qed.

(** X4.  When the configured names cover the deciles present in the table
    (they need not cover the others), [calculate_from_dataframe] returns
    one row per present decile, in increasing decile order; the row of
    decile [d] carries the name at position [d - 1] and the relative change
    of the decile's group. *)
Theorem distributional_configured_names (self : t) (rid rn : string) (y : Z)
    (df : DataFrame) :
  (forall d, (1 <= d <= 10)%Z -> decile_data df d <> [] ->
             (d <= Z.of_nat (List.length (decile_names self)))%Z) ->
  let present :=
    filter (fun d => (0 <? List.length (decile_data df d))%nat) (range 1 11) in
  calculate_from_dataframe self rid rn y df =
  ret (map (fun d =>
         {| reform_id := rid; reform_name := rn; year := y;
            decile := nth (Z.to_nat (d - 1)) (decile_names self) "";
            value := rel_change (decile_data df d) |}) present) /\
  (forall d, In d present <-> (1 <= d <= 10)%Z /\ decile_data df d <> []).
Proof.
  intros Hcover present. subst present. split.
  - unfold calculate_from_dataframe. rewrite <- flat_map_filter.
    apply for_each_flat_map. intros d Hd. apply in_range_1_11 in Hd.
    destruct (0 <? List.length (decile_data df d))%nat eqn:E; [| reflexivity].
    apply length_pos_nonempty in E.
    rewrite (list_index_nth _ _ "") by (specialize (Hcover d Hd E); lia).
    reflexivity.
  - intros d. rewrite filter_In, in_range_1_11, length_pos_nonempty. tauto.
Qed.

Lemma decile_data_labelled (df : DataFrame) (d : Z) :
  (1 <= d <= 10)%Z ->
  decile_data (filter labelled_1_to_10 df) d = decile_data df d.
Proof.
  intros Hd. unfold decile_data.
  induction df as [| r df IH]; simpl; [reflexivity |].
  destruct (labelled_1_to_10 r) eqn:El; simpl.
  - now rewrite IH.
  - rewrite IH.
    destruct (np.eq (household_income_decile r) (inject_Z d)) eqn:E;
      [| reflexivity].
    exfalso. unfold labelled_1_to_10 in El.
    assert (existsb (fun d => np.eq (household_income_decile r) (inject_Z d))
                    (range 1 11) = true) as Habs; [| congruence].
    apply existsb_exists. exists d. split; [now apply in_range_1_11 | exact E].
Qed.

(** X5.  Units whose decile label is not one of 1, ..., 10 never reach the
    distributional output: removing them from the table changes nothing,
    whatever the configured names are (an error stays the same error). *)
Theorem distributional_ignores_other_labels (self : t) (rid rn : string)
    (y : Z) (df : DataFrame) :
  calculate_from_dataframe self rid rn y (filter labelled_1_to_10 df)
  = calculate_from_dataframe self rid rn y df.
Proof.
  unfold calculate_from_dataframe. apply for_each_ext.
  intros d Hd. apply in_range_1_11 in Hd.
  now rewrite decile_data_labelled.
Qed.

End DistributionalNames.

Lemma distributional_missing_name_witness :
  DistributionalImpactCalculator.calculate_from_dataframe one_name "r" "R"
    2026 two_deciles_df = raise IndexError.
Proof.
  apply (distributional_missing_name one_name "r" "R" 2026 two_deciles_df 2).
  - lia.
  - vm_compute. discriminate.
  - simpl. lia.
Defined.

Lemma distributional_configured_names_witness :
  DistributionalImpactCalculator.calculate_from_dataframe one_name "r" "R"
    2026 two_households_df
  = ret [ {| DistributionalImpactCalculator.reform_id := "r";
             DistributionalImpactCalculator.reform_name := "R";
             DistributionalImpactCalculator.year := 2026;
             DistributionalImpactCalculator.decile := "poorest";
             DistributionalImpactCalculator.value :=
               DistributionalImpactCalculator.rel_change two_households_df |} ].
Proof.
  refine (proj1 (distributional_configured_names one_name "r" "R" 2026
                   two_households_df _)).
  intros d Hd Hpresent.
  apply in_range_1_11 in Hd. rewrite range_1_11 in Hd. simpl in Hd.
  destruct Hd as [<- | Hd]; [simpl; lia |].
  exfalso. apply Hpresent.
  repeat (destruct Hd as [<- | Hd]; [reflexivity |]). contradiction.
Defined.

(** ** WinnersLosersCalculator: the averages stay within the changes *)

Lemma weighted_between (lo hi : Q) (df : DataFrame) :
  Forall (fun r => 0 <= household_weight r /\ lo <= income_change r <= hi) df ->
  0 <= total_weight df /\
  lo * total_weight df <= weighted income_change df <= hi * total_weight df.
Proof.
  unfold total_weight, weighted.
  induction 1 as [| r df [Hw [Hlo Hhi]] _ IH]; simpl map.
  - simpl. lra.
  - rewrite !np_sum_cons. nra.
Qed.

Lemma average_change_between (lo hi : Q) (df : DataFrame) :
  Forall (fun r => 0 <= household_weight r /\ lo <= income_change r <= hi) df ->
  Qmin lo 0 <= WinnersLosersCalculator.average_change df <= Qmax hi 0.
Proof.
  intros Hdf. apply weighted_between in Hdf. destruct Hdf as [_ [Hlo Hhi]].
  unfold WinnersLosersCalculator.average_change.
  destruct (np.gt (total_weight df) 0) eqn:E.
  - apply np_gt_true in E. split.
    + apply Qle_trans with lo; [apply Q.le_min_l |].
      apply Qle_shift_div_l; assumption.
    + apply Qle_trans with hi; [| apply Q.le_max_l].
      apply Qle_shift_div_r; assumption.
  - split; [apply Q.le_min_r | apply Q.le_max_r].
Qed.

Section WinnersLosersBounds.
Import WinnersLosersCalculator.

(** X6.  When no weight is negative and every household's income change
    lies between [lo] and [hi], every average in the output (the ten deciles
    and "all") lies between [min lo 0] and [max hi 0]: a reform under which
    no household loses reports no negative average, and one under which no
    household gains reports no positive average. *)
Theorem winners_losers_average_bounds (rid rn : string) (y : Z)
    (df : DataFrame) (lo hi : Q) :
  Forall (fun r => 0 <= household_weight r /\ lo <= income_change r <= hi) df ->
  forall r, In r (calculate_from_dataframe rid rn y df) ->
    Qmin lo 0 <= avg_change r <= Qmax hi 0.
Proof.
  intros Hdf r Hr. apply in_calculate_from_dataframe in Hr.
  destruct Hr as [[d [_ [_ ->]]] | ->]; simpl.
  - apply average_change_between. now apply Forall_decile_data.
  - now apply average_change_between.
Qed.

End WinnersLosersBounds.

Lemma winners_losers_average_bounds_witness :
  Forall (fun r => Qmin (-10) 0 <= WinnersLosersCalculator.avg_change r
                   <= Qmax 10 0)
    (WinnersLosersCalculator.calculate_from_dataframe "r" "R" 2026
       two_deciles_df).
Proof.
  apply Forall_forall.
  apply (winners_losers_average_bounds "r" "R" 2026 two_deciles_df (-10) 10).
  repeat constructor; vm_compute; discriminate.
Defined.

(** ** The two decile calculators on one table *)

Section DecileCalculators.

(** X7.  On one table, for a decile of positive total weight and positive
    weighted baseline income, the relative change reported by
    [DistributionalImpactCalculator] and the average reported by
    [WinnersLosersCalculator] are tied by
    [value × Σ(w·y_base) = 100 × avg_change × Σw]; in particular they have
    the same sign. *)
Theorem decile_value_and_average (rid rn : string) (y : Z) (df : DataFrame)
    (d : Z) :
  (1 <= d <= 10)%Z ->
  let group := decile_data df d in
  0 < total_weight group ->
  0 < weighted baseline_income group ->
  exists rows r r',
    DistributionalImpactCalculator.calculate_from_dataframe
      DistributionalImpactCalculator.default rid rn y df = ret rows /\
    In r rows /\ DistributionalImpactCalculator.decile r = decile_name d /\
    In r' (WinnersLosersCalculator.calculate_from_dataframe rid rn y df) /\
    WinnersLosersCalculator.decile r' = str d /\
    DistributionalImpactCalculator.value r * weighted baseline_income group
      == 100 * (WinnersLosersCalculator.avg_change r' * total_weight group) /\
    (0 < DistributionalImpactCalculator.value r
       <-> 0 < WinnersLosersCalculator.avg_change r') /\
    (DistributionalImpactCalculator.value r < 0
       <-> WinnersLosersCalculator.avg_change r' < 0).
Proof.
  intros Hd group Hw Hb.
  assert (decile_data df d <> []) as Hne.
  { intros Hnil. subst group. rewrite Hnil in Hw. vm_compute in Hw.
    discriminate. }
  exists (flat_map (named_decile_rows rid rn y df) (range 1 11)).
  exists {| DistributionalImpactCalculator.reform_id := rid;
            DistributionalImpactCalculator.reform_name := rn;
            DistributionalImpactCalculator.year := y;
            DistributionalImpactCalculator.decile := decile_name d;
            DistributionalImpactCalculator.value :=
              DistributionalImpactCalculator.rel_change group |}.
  exists {| WinnersLosersCalculator.reform_id := rid;
            WinnersLosersCalculator.reform_name := rn;
            WinnersLosersCalculator.year := y;
            WinnersLosersCalculator.decile := str d;
            WinnersLosersCalculator.avg_change :=
              WinnersLosersCalculator.average_change group |}.
  split; [apply distributional_rows |].
  split; [apply in_distributional_rows; exists d; tauto |].
  split; [reflexivity |].
  split; [apply in_calculate_from_dataframe; left; exists d; tauto |].
  split; [reflexivity |].
  cbn [DistributionalImpactCalculator.value
       WinnersLosersCalculator.avg_change].
  unfold DistributionalImpactCalculator.rel_change,
    WinnersLosersCalculator.average_change.
  pose proof Hw as Hw'. pose proof Hb as Hb'.
  apply np_gt_true in Hw'. apply np_gt_true in Hb'. rewrite Hw', Hb'.
  set (c := weighted income_change group) in *.
  set (b := weighted baseline_income group) in *.
  set (w := total_weight group) in *.
  assert (c / b * 100 * b == 100 * c) as E1 by (field; lra).
  assert (c / w * w == c) as E2 by (field; lra).
  assert (0 < / b) as Hib by (apply Qinv_lt_0_compat; exact Hb).
  assert (0 < / w) as Hiw by (apply Qinv_lt_0_compat; exact Hw).
  unfold Qdiv.
  split; [| split; split; intros Hs; nra].
  unfold Qdiv in E1, E2. rewrite E1. rewrite E2. reflexivity.
Qed.

End DecileCalculators.

Lemma decile_value_and_average_witness :
  exists rows r r',
    DistributionalImpactCalculator.calculate_from_dataframe
      DistributionalImpactCalculator.default "r" "R" 2026 two_households_df
      = ret rows /\
    In r rows /\
    In r' (WinnersLosersCalculator.calculate_from_dataframe "r" "R" 2026
             two_households_df) /\
    (DistributionalImpactCalculator.value r < 0
       <-> WinnersLosersCalculator.avg_change r' < 0).
Proof.
  assert (1 <= 1 <= 10)%Z as Hd by lia.
  destruct (decile_value_and_average "r" "R" 2026 two_households_df 1 Hd
              Logic.eq_refl Logic.eq_refl)
    as [rows [r [r' [Hrun [Hr [_ [Hr' [_ [_ [_ Hneg]]]]]]]]]].
  exists rows, r, r'. tauto.
Defined.

(** ** MetricsCalculator: the share of people affected *)

Lemma select_nonneg (w : list Q) (mask : list bool) :
  Forall (fun x => 0 <= x) w -> 0 <= np.sum (np.select w mask).
Proof.
  intros Hw. apply np_sum_nonneg. now apply Forall_select.
Qed.

Lemma select_cons {A} (x : A) (w : list A) (b : bool) (mask : list bool) :
  np.select (x :: w) (b :: mask)
  = if b then x :: np.select w mask else np.select w mask.
Proof. unfold np.select. simpl. now destruct b. Qed.

Lemma select_nil_r {A} (w : list A) : np.select w [] = [].
Proof. unfold np.select. now destruct w. Qed.

Lemma select_and_le (w : list Q) (a b : list bool) :
  Forall (fun x => 0 <= x) w ->
  np.sum (np.select w (MetricsCalculator.mask_and a b))
  <= np.sum (np.select w b).
Proof.
  intros Hw. revert a b.
  induction Hw as [| x w Hx Hw IH]; intros a b.
  - unfold np.select. simpl. lra.
  - destruct a as [| a0 a], b as [| b0 b].
    + unfold MetricsCalculator.mask_and. cbn [combine map].
      rewrite select_nil_r. lra.
    + unfold MetricsCalculator.mask_and. cbn [combine map].
      rewrite select_nil_r.
      apply (select_nonneg (x :: w) (b0 :: b)). now constructor.
    + unfold MetricsCalculator.mask_and. cbn [combine map].
      rewrite !select_nil_r. lra.
    + change (MetricsCalculator.mask_and (a0 :: a) (b0 :: b))
        with ((a0 && b0) :: MetricsCalculator.mask_and a b).
      rewrite !select_cons. specialize (IH a b).
      pose proof (select_nonneg w b Hw) as Hb.
      destruct a0, b0; simpl andb; cbv iota; rewrite ?np_sum_cons; lra.
Qed.

Lemma mul_nonneg (a b : list Q) :
  Forall (fun x => 0 <= x) a -> Forall (fun x => 0 <= x) b ->
  Forall (fun x => 0 <= x) (np.mul a b).
Proof.
  intros Ha. revert b. induction Ha as [| x a Hx Ha IH]; intros b Hb.
  - constructor.
  - destruct Hb as [| y b Hy Hb]; [constructor |].
    unfold np.mul. simpl. constructor; [nra | now apply IH].
Qed.

Section PeopleAffected.
Import MetricsCalculator.

(** X8.  With household sizes and weights that are not negative, the
    percentage of people affected is a percentage: it lies between 0 and
    100. *)
Theorem percent_affected_is_a_percentage (income_change baseline_income
    household_decile household_count household_weight : list Q) :
  Forall (fun x => 0 <= x) household_count ->
  Forall (fun x => 0 <= x) household_weight ->
  0 <= percent_affected income_change baseline_income household_decile
         household_count household_weight <= 100.
Proof.
  intros Hc Hw. unfold percent_affected.
  set (weighted_people := np.mul household_count household_weight).
  set (changed := map _ (divide _ _)).
  set (valid := map _ household_decile).
  assert (Forall (fun x => 0 <= x) weighted_people) as Hp
    by now apply mul_nonneg.
  pose proof (select_nonneg weighted_people (mask_and changed valid) Hp) as H0.
  pose proof (select_and_le weighted_people changed valid Hp) as Hle.
  destruct (np.gt (np.sum (np.select weighted_people valid)) 0) eqn:E;
    [| lra].
  apply np_gt_true in E.
  set (A := np.sum (np.select weighted_people (mask_and changed valid))) in *.
  set (T := np.sum (np.select weighted_people valid)) in *.
  assert (0 <= A / T) as Hlo by (apply Qle_shift_div_l; lra).
  assert (A / T <= 1) as Hhi by (apply Qle_shift_div_r; lra).
  lra.
Qed.

Lemma select_all_false {A} (w : list A) (mask : list bool) :
  Forall (fun b => b = false) mask -> np.select w mask = [].
Proof.
  intros Hm. revert w. induction Hm as [| b mask -> _ IH]; intros w.
  - apply select_nil_r.
  - destruct w as [| x w]; [reflexivity |]. rewrite select_cons. apply IH.
Qed.

Lemma mask_and_false_l (a b : list bool) :
  Forall (fun x => x = false) a -> Forall (fun x => x = false) (mask_and a b).
Proof.
  intros Ha. revert b. induction Ha as [| x a -> _ IH]; intros b.
  - constructor.
  - destruct b as [| y b]; [constructor |].
    unfold mask_and. simpl. constructor; [reflexivity | apply IH].
Qed.

Lemma small_relative_change (c b : Q) :
  Qabs c <= (1 # 10000) * Qmax b 1 ->
  np.gt (Qabs (c / Qmax b 1)) (1 # 10000) = false.
Proof.
  intros Hc. apply np_gt_false.
  assert (1 <= Qmax b 1) as Hm by apply Q.le_max_r.
  unfold Qdiv. rewrite Qabs_Qmult.
  assert (0 < / Qmax b 1) as Hi by (apply Qinv_lt_0_compat; lra).
  rewrite (Qabs_pos (/ Qmax b 1)) by lra.
  apply Qle_shift_div_r; [lra |]. exact Hc.
Qed.

(** X9.  A household counts as affected only when its income changes by
    more than 0.01% of its baseline income (taken as at least 1): when no
    household's change exceeds that, the percentage of people affected
    is 0. *)
Theorem percent_affected_below_threshold (income_change baseline_income
    household_decile household_count household_weight : list Q) :
  Forall2 (fun c b => Qabs c <= (1 # 10000) * Qmax b 1)
          income_change baseline_income ->
  percent_affected income_change baseline_income household_decile
    household_count household_weight == 0.
Proof.
  intros Hsmall. unfold percent_affected.
  set (weighted_people := np.mul household_count household_weight).
  set (changed := map _ (divide _ _)).
  set (valid := map _ household_decile).
  assert (Forall (fun b => b = false) changed) as Hchanged.
  { subst changed. unfold divide, np.maximum.
    induction Hsmall as [| c b cs bs Hc _ IH]; simpl; constructor.
    - now apply small_relative_change.
    - exact IH. }
  rewrite (select_all_false weighted_people (mask_and changed valid))
    by now apply mask_and_false_l.
  destruct (np.gt _ 0); [| reflexivity].
  change (np.sum []) with 0. unfold Qdiv. ring.
Qed.

(** X10.  With positive total person weight the two poverty figures are
    finite: the change in percentage points is [100 × (R − B) / W] and the
    relative change is [100 × (R − B) / B], where [B] and [R] are the
    weights of the persons in poverty before and after and [W] the total
    weight; the relative change does not depend on [W], and is 0 when [B]
    is not positive. *)
Theorem poverty_change_finite (baseline_poverty reformed_poverty : list bool)
    (person_weight : list Q) :
  0 < np.sum person_weight ->
  let B := np.sum (np.select person_weight baseline_poverty) in
  let R := np.sum (np.select person_weight reformed_poverty) in
  let W := np.sum person_weight in
  exists pp pct : Q,
    poverty_change baseline_poverty reformed_poverty person_weight
      = (Fin pp, Fin pct) /\
    pp == 100 * (R - B) / W /\
    (0 < B -> pct == 100 * (R - B) / B) /\
    (B <= 0 -> pct == 0).
Proof.
  intros HW B R W. unfold poverty_change. fold B R W.
  change (0 < W) in HW. clearbody B R W.
  assert (Qeq_bool W 0 = false) as HW0.
  { destruct (Qeq_bool W 0) eqn:E; [| reflexivity].
    apply Qeq_bool_iff in E. lra. }
  cbn [Ext.div]. rewrite HW0.
  cbn [Ext.mul Ext.sub Ext.opp Ext.add Ext.gt].
  destruct (Qle_bool (B / W * 100) 0) eqn:Erate; cbn [negb].
  - apply Qle_bool_iff in Erate.
    assert (B <= 0) as HB.
    { destruct (Qlt_le_dec 0 B) as [Hpos | Hle]; [| exact Hle].
      assert (0 < B / W) by (apply Qlt_shift_div_l; lra). lra. }
    eexists; eexists. split; [reflexivity |].
    split; [field; lra |]. split; [lra | reflexivity].
  - assert (0 < B / W * 100) as Hrate.
    { apply Qnot_le_lt. intros Hle. apply Qle_bool_iff in Hle. congruence. }
    assert (0 < B) as HB.
    { destruct (Qlt_le_dec 0 B) as [Hpos | Hle]; [exact Hpos |].
      assert (B / W <= 0) by (apply Qle_shift_div_r; lra). lra. }
    assert (Qeq_bool (B / W * 100) 0 = false) as Hr0.
    { destruct (Qeq_bool (B / W * 100) 0) eqn:E; [| reflexivity].
      apply Qeq_bool_iff in E. lra. }
    cbn [Ext.div]. rewrite Hr0. cbn [Ext.mul].
    eexists; eexists. split; [reflexivity |].
    split; [field; lra |]. split; [intros _; field; lra | lra].
Qed.

End PeopleAffected.

Lemma percent_affected_is_a_percentage_witness :
  0 <= MetricsCalculator.percent_affected [20; 0; -10] [100; 200; 300]
         [1; 5; 10] [2; 1; 3] [1; 1; 1] <= 100.
Proof.
  apply percent_affected_is_a_percentage;
    repeat constructor; vm_compute; discriminate.
Defined.

Lemma percent_affected_below_threshold_witness :
  MetricsCalculator.percent_affected [1 # 100; 0] [100; 200] [1; 2] [2; 1]
    [1; 1] == 0.
Proof.
  apply percent_affected_below_threshold.
  repeat constructor; vm_compute; discriminate.
Defined.

Lemma poverty_change_finite_witness :
  exists pp pct : Q,
    MetricsCalculator.poverty_change [true; true; false; false]
      [false; true; false; false] [1; 1; 1; 1] = (Fin pp, Fin pct) /\
    pp == - 25 /\ pct == - 50.
Proof.
  destruct (poverty_change_finite [true; true; false; false]
              [false; true; false; false] [1; 1; 1; 1] Logic.eq_refl)
    as [pp [pct [Hrun [Hpp [Hpct _]]]]].
  exists pp, pct. split; [exact Hrun |].
  split; [rewrite Hpp; reflexivity |].
  rewrite (Hpct Logic.eq_refl). reflexivity.
Defined.

(** ** HouseholdScatterCalculator on arrays of different lengths *)

Lemma np_index_cases {A} (a : list A) (i : nat) (d : A) :
  np_index a i
  = if (i <? List.length a)%nat then ret (nth i a d) else raise IndexError.
Proof.
  destruct (i <? List.length a)%nat eqn:E.
  - apply Nat.ltb_lt in E. now apply np_index_nth.
  - apply Nat.ltb_ge in E. unfold np_index.
    now rewrite (proj2 (nth_error_None a i) E).
Qed.

Section HouseholdScatterLengths.
Import HouseholdScatterCalculator.

(** X11.  [calculate_from_arrays] reads the other arrays only at the
    households it keeps.  When the changes, the weights and the ids (if
    given) have an entry for every household whose baseline income is in the
    window, it returns the rows of these households, even if the arrays are
    shorter than the incomes; when one of them lacks the entry of a kept
    household, it raises [IndexError] and returns no row. *)
Theorem household_scatter_short_arrays (self : t) (rid rn : string) (y : Z)
    (baseline_incomes income_changes weights : list Q)
    (household_ids : option (list Q)) :
  let kept :=
    filter (fun i => in_window self (nth i baseline_incomes 0))
           (seq 0 (List.length baseline_incomes)) in
  let covered i :=
    (i <? List.length income_changes)%nat && (i <? List.length weights)%nat
    && match household_ids with
       | Some ids => (i <? List.length ids)%nat
       | None => true
       end in
  calculate_from_arrays self rid rn y baseline_incomes income_changes weights
    household_ids
  = if forallb covered kept
    then ret (map (scatter_row rid rn y baseline_incomes income_changes weights
                     household_ids) kept)
    else raise IndexError.
Proof.
  intros kept covered. unfold calculate_from_arrays.
  assert (forall i, In i (seq 0 (List.length baseline_incomes)) ->
            np_index (map (in_window self) baseline_incomes) i
            = ret (in_window self (nth i baseline_incomes 0))) as Hmask.
  { intros i Hi. apply in_seq in Hi.
    rewrite (np_index_nth _ i (in_window self 0)) by (rewrite length_map; lia).
    now rewrite map_nth. }
  assert (forall i, In i (seq 0 (List.length baseline_incomes)) ->
            np_index baseline_incomes i = ret (nth i baseline_incomes 0))
    as Hinc.
  { intros i Hi. apply in_seq in Hi. apply np_index_nth. lia. }
  destruct (forallb covered kept) eqn:Hall.
  - subst kept. rewrite <- flat_map_filter. apply for_each_flat_map.
    intros i Hi. rewrite (Hmask i Hi). cbn [bind ret].
    destruct (in_window self (nth i baseline_incomes 0)) eqn:Hwin;
      [| reflexivity].
    rewrite forallb_forall in Hall.
    assert (covered i = true) as Hcov
      by (apply Hall, filter_In; split; assumption).
    unfold covered in Hcov. apply andb_true_iff in Hcov.
    destruct Hcov as [Hcov Hids]. apply andb_true_iff in Hcov.
    destruct Hcov as [Hc Hw].
    rewrite (Hinc i Hi), (np_index_cases income_changes i 0), Hc,
      (np_index_cases weights i 0), Hw.
    cbn [bind ret]. unfold scatter_row.
    destruct household_ids as [ids |]; [| reflexivity].
    rewrite (np_index_cases ids i 0), Hids. reflexivity.
  - apply for_each_raise.
    + intros i Hi. rewrite (Hmask i Hi). cbn [bind ret].
      destruct (in_window self (nth i baseline_incomes 0)); [| left; eauto].
      rewrite (Hinc i Hi), (np_index_cases income_changes i 0),
        (np_index_cases weights i 0).
      destruct (i <? List.length income_changes)%nat; [| now right].
      destruct (i <? List.length weights)%nat; [| now right].
      destruct household_ids as [ids |]; [| left; cbn; eauto].
      rewrite (np_index_cases ids i 0).
      destruct (i <? List.length ids)%nat; [left; cbn; eauto | now right].
    + assert (exists i, In i kept /\ covered i = false) as [i [Hi Hcov]].
      { destruct (existsb (fun i => negb (covered i)) kept) eqn:Hex.
        - apply existsb_exists in Hex. destruct Hex as [i [Hi Hneg]].
          exists i. split; [exact Hi |]. now apply negb_true_iff.
        - exfalso. assert (forallb covered kept = true); [| congruence].
          apply forallb_forall. intros i Hi.
          destruct (covered i) eqn:E; [reflexivity |].
          assert (existsb (fun i => negb (covered i)) kept = true);
            [| congruence].
          apply existsb_exists. exists i. now rewrite E. }
      subst kept. apply filter_In in Hi. destruct Hi as [Hi Hwin].
      exists i. split; [exact Hi |].
      rewrite (Hmask i Hi). cbn [bind ret]. rewrite Hwin.
      rewrite (Hinc i Hi), (np_index_cases income_changes i 0),
        (np_index_cases weights i 0).
      unfold covered in Hcov.
      destruct (i <? List.length income_changes)%nat; [| reflexivity].
      destruct (i <? List.length weights)%nat; [| reflexivity].
      destruct household_ids as [ids |]; [| discriminate].
      rewrite (np_index_cases ids i 0).
      simpl in Hcov. rewrite Hcov. reflexivity.
Qed.

End HouseholdScatterLengths.

(** The household of income 150001 is outside the window: its missing
    change is never read.  The household of income 150000 is kept: without
    its change the calculation fails. *)
Lemma household_scatter_short_arrays_witness :
  HouseholdScatterCalculator.calculate_from_arrays
    HouseholdScatterCalculator.default "r" "R" 2026
    [-1; 0; 75000; 150001] window_changes_short window_weights None
  = ret (map (scatter_row "r" "R" 2026 [-1; 0; 75000; 150001]
                window_changes_short window_weights None) [1; 2]%nat) /\
  HouseholdScatterCalculator.calculate_from_arrays
    HouseholdScatterCalculator.default "r" "R" 2026
    window_incomes window_changes_short window_weights None
  = raise IndexError.
Proof.
  split.
  - exact (household_scatter_short_arrays HouseholdScatterCalculator.default
             "r" "R" 2026 [-1; 0; 75000; 150001] window_changes_short
             window_weights None).
  - exact (household_scatter_short_arrays HouseholdScatterCalculator.default
             "r" "R" 2026 window_incomes window_changes_short window_weights
             None).
Defined.

(** ** DemographicConstituencyCalculator: the counts of a geography *)

Lemma np_sum_app (a b : list Q) : np.sum (a ++ b) == np.sum a + np.sum b.
Proof.
  induction a as [| x a IH]; simpl app.
  - change (np.sum []) with 0. ring.
  - rewrite !np_sum_cons, IH. ring.
Qed.

Lemma trunc_between (x : Q) : 0 <= x <= 4 -> (0 <= np.trunc x <= 4)%Z.
Proof.
  destruct x as [n d]. unfold Qle, np.trunc. simpl. intros [Hlo Hhi].
  rewrite Z.mul_1_r in Hlo.
  rewrite Z.quot_div_nonneg by lia. split.
  - apply Z.div_pos; lia.
  - apply Z.div_le_upper_bound; lia.
Qed.

Section DemographicCounts.
Import DemographicConstituencyCalculator.

Lemma children_bucket_range (c : Q) :
  0 <= c -> (0 <= children_bucket c <= 4)%Z.
Proof.
  intros Hc. unfold children_bucket. apply trunc_between. split.
  - apply Q.min_glb; [exact Hc | discriminate].
  - apply Q.le_min_r.
Qed.

Lemma combination_count (rid : string) (y : Z) (c : constituency)
    (weights income_change baseline_income num_children : list Q)
    (is_married : list bool) (n : Z) (m : bool) :
  np.sum (map household_count
            (combination_rows rid y c weights income_change baseline_income
               (capped num_children) is_married n m))
  == combination_weight weights num_children is_married n m.
Proof.
  destruct (combination_rows_cases rid y c weights income_change
              baseline_income num_children is_married n m) as [Hzero Hrow].
  destruct (Qeq_dec (combination_weight weights num_children is_married n m) 0)
    as [E | E].
  - rewrite (Hzero E), E. reflexivity.
  - destruct (Hrow E) as [r [-> [_ [_ [_ [_ Hcount]]]]]].
    simpl map. rewrite np_sum_cons. change (np.sum []) with 0.
    rewrite Hcount. ring.
Qed.

Lemma combination_weight_cons (w c : Q) (b : bool) (ws cs : list Q)
    (bs : list bool) (n : Z) (m : bool) :
  combination_weight (w :: ws) (c :: cs) (b :: bs) n m
  == (if in_combination n m c b then w else 0)
     + combination_weight ws cs bs n m.
Proof.
  unfold combination_weight. simpl.
  destruct (in_combination n m c b); simpl map;
    rewrite ?np_sum_cons; ring.
Qed.

(** The weights of the ten combinations add up to the total weight. *)
Lemma combination_weights_total (weights num_children : list Q)
    (is_married : list bool) :
  Forall (fun c => 0 <= c) num_children ->
  List.length weights = List.length num_children ->
  List.length is_married = List.length num_children ->
  np.sum (map (fun p => combination_weight weights num_children is_married
                          (fst p) (snd p))
              (list_prod (range 0 5) [true; false]))
  == np.sum weights.
Proof.
  intros Hnc. revert weights is_married.
  change (list_prod (range 0 5) [true; false])
    with [ (0, true); (0, false); (1, true); (1, false); (2, true);
           (2, false); (3, true); (3, false); (4, true); (4, false) ]%Z.
  induction Hnc as [| c cs Hc Hcs IH]; intros [| w ws] [| b bs] Hw Hb;
    try discriminate.
  - reflexivity.
  - simpl in Hw, Hb. injection Hw as Hw. injection Hb as Hb.
    specialize (IH ws bs Hw Hb). cbn [map fst snd] in IH |- *.
    rewrite !np_sum_cons in IH |- *.
    change (np.sum []) with 0 in IH |- *.
    rewrite !combination_weight_cons.
    unfold in_combination.
    pose proof (children_bucket_range c Hc) as Hk.
    assert (children_bucket c = 0 \/ children_bucket c = 1 \/
            children_bucket c = 2 \/ children_bucket c = 3 \/
            children_bucket c = 4)%Z as Hcases by lia.
    destruct Hcases as [-> | [-> | [-> | [-> | ->]]]]; destruct b;
      cbn [Z.eqb Pos.eqb Bool.eqb andb]; rewrite (np_sum_cons w ws); lra.
Qed.

(** X12.  The household counts of the rows of one geography add up to the
    geography's total weight: every household with a number of children that
    is not negative is counted in exactly one (children, married)
    combination, and a combination without a row has weight zero. *)
Theorem demographic_counts_partition (rid : string) (y : Z) (c : constituency)
    (weights income_change baseline_income num_children : list Q)
    (is_married : list bool) :
  Forall (fun k => 0 <= k) num_children ->
  List.length weights = List.length num_children ->
  List.length is_married = List.length num_children ->
  np.sum (map household_count
            (geography_rows rid y c weights income_change baseline_income
               (capped num_children) is_married))
  == np.sum weights.
Proof.
  intros Hnc Hw Hb.
  rewrite <- (combination_weights_total weights num_children is_married
                Hnc Hw Hb).
  unfold geography_rows.
  rewrite (flat_map_list_prod
             (fun p => combination_rows rid y c weights income_change
                         baseline_income (capped num_children) is_married
                         (fst p) (snd p))).
  induction (list_prod (range 0 5) [true; false]) as [| p l IH].
  - reflexivity.
  - simpl flat_map. simpl map. rewrite map_app, np_sum_app, np_sum_cons.
    rewrite IH, combination_count. reflexivity.
Qed.

End DemographicCounts.

Section DemographicShortWeights.
Import DemographicConstituencyCalculator.
Context {MS : Type} `{MicroSeriesOps MS}.


End DemographicShortWeights.

Lemma demographic_counts_partition_witness :
  np.sum (map DemographicConstituencyCalculator.household_count
            (DemographicConstituencyCalculator.geography_rows "r" 2026
               demo_geography [3; 4; 5] [1000; 500; 0] [20000; 30000; 40000]
               (capped [0; 2; 7]) [true; false; true]))
  == 12.
Proof.
  rewrite (demographic_counts_partition "r" 2026 demo_geography [3; 4; 5]
             [1000; 500; 0] [20000; 30000; 40000] [0; 2; 7]
             [true; false; true]).
  - reflexivity.
  - repeat constructor; discriminate.
  - reflexivity.
  - reflexivity.
Defined.


(** ** ConstituencyCalculator *)

Section ConstituencyRows.
Import ConstituencyCalculator.
Context {MS : Type} `{MicroSeriesOps MS} `{MicroSeriesCount MS}.


(** X15.  For a geography whose count [N] is positive, the row is finite:
    the average gain is [(R − B) / N] and the relative change is
    [100 × (R − B) / B] when the baseline sum [B] is positive, whatever [N]
    is, and 0 when [B] is not positive. *)
Theorem constituency_row_finite (rid : string) (y : Z) (c : constituency)
    (weight baseline_income reform_income : list Q) :
  let B := ms_sum (MicroSeries baseline_income weight) in
  let R := ms_sum (MicroSeries reform_income weight) in
  let N := ms_count (MicroSeries baseline_income weight) in
  0 < N ->
  exists gain rel : Q,
    average_gain (geography_row rid y c weight baseline_income reform_income)
      = Fin gain /\
    relative_change (geography_row rid y c weight baseline_income reform_income)
      = Fin rel /\
    gain == (R - B) / N /\
    (0 < B -> rel == 100 * (R - B) / B) /\
    (B <= 0 -> rel == 0).
Proof.
  intros B R N HN.
  cbn [geography_row calculate_from_values average_gain relative_change].
  fold B R N. clearbody B R N.
  assert (Qeq_bool N 0 = false) as HN0.
  { destruct (Qeq_bool N 0) eqn:E; [| reflexivity].
    apply Qeq_bool_iff in E. lra. }
  cbn [Ext.div]. rewrite HN0. cbn [Ext.gt].
  destruct (Qle_bool (B / N) 0) eqn:Erate; cbn [negb].
  - apply Qle_bool_iff in Erate.
    assert (B <= 0) as HB.
    { destruct (Qlt_le_dec 0 B) as [Hpos | Hle]; [| exact Hle].
      assert (0 < B / N) by (apply Qlt_shift_div_l; lra). lra. }
    eexists; eexists. split; [reflexivity |]. split; [reflexivity |].
    split; [reflexivity |]. split; [lra | reflexivity].
  - assert (0 < B / N) as Hrate.
    { apply Qnot_le_lt. intros Hle. apply Qle_bool_iff in Hle. congruence. }
    assert (0 < B) as HB.
    { destruct (Qlt_le_dec 0 B) as [Hpos | Hle]; [exact Hpos |].
      assert (B / N <= 0) by (apply Qle_shift_div_r; lra). lra. }
    assert (Qeq_bool (B / N) 0 = false) as Hr0.
    { destruct (Qeq_bool (B / N) 0) eqn:E; [| reflexivity].
      apply Qeq_bool_iff in E. lra. }
    cbn [Ext.div]. rewrite Hr0. cbn [Ext.mul].
    eexists; eexists. split; [reflexivity |]. split; [reflexivity |].
    split; [reflexivity |]. split; [intros _; field; lra | lra].
Qed.

(** X16.  A geography whose count is zero still gets its row, and the row is
    not a number: the average gain is infinite or undefined, never finite,
    and the relative change is undefined when the baseline sum is positive
    and 0 otherwise. *)
Theorem constituency_row_zero_count (rid : string) (y : Z) (c : constituency)
    (weight baseline_income reform_income : list Q) :
  let B := ms_sum (MicroSeries baseline_income weight) in
  ms_count (MicroSeries baseline_income weight) == 0 ->
  let r := geography_row rid y c weight baseline_income reform_income in
  (forall q, average_gain r <> Fin q) /\
  relative_change r = if np.gt B 0 then NaN else Fin 0.
Proof.
  intros B HN r. subst r.
  cbn [geography_row calculate_from_values average_gain relative_change].
  fold B. apply Qeq_bool_iff in HN. cbn [Ext.div]. rewrite HN.
  set (d := ms_sum (MicroSeries reform_income weight) - B).
  unfold Ext.signed, Ext.sign, np.gt.
  split.
  - intros q. destruct (d ?= 0); discriminate.
  - destruct (Qle_bool B 0) eqn:E; cbn [negb].
    + apply Qle_bool_iff in E.
      destruct (B ?= 0) eqn:Es; cbn; try reflexivity.
      apply Qgt_alt in Es. lra.
    + assert (0 < B) as HB.
      { apply Qnot_le_lt. intros Hle. apply Qle_bool_iff in Hle. congruence. }
      apply Qgt_alt in HB. rewrite HB. cbn.
      destruct (d ?= 0); reflexivity.
Qed.

End ConstituencyRows.


Lemma constituency_row_finite_witness :
  exists gain rel : Q,
    ConstituencyCalculator.average_gain
      (ConstituencyCalculator.geography_row "r" 2026 demo_geography [3; 4]
         [20000; 30000] [21000; 30500]) = Fin gain /\
    ConstituencyCalculator.relative_change
      (ConstituencyCalculator.geography_row "r" 2026 demo_geography [3; 4]
         [20000; 30000] [21000; 30500]) = Fin rel /\
    gain == 5000 / 7 /\ rel == 25 / 9.
Proof.
  destruct (@constituency_row_finite Series Series_ops Series_count "r" 2026
              demo_geography [3; 4] [20000; 30000] [21000; 30500]
              Logic.eq_refl)
    as [gain [rel [Hgain [Hrel [Hg [Hr _]]]]]].
  exists gain, rel. split; [exact Hgain |]. split; [exact Hrel |].
  split; [rewrite Hg; reflexivity |].
  rewrite (Hr Logic.eq_refl). reflexivity.
Defined.

Lemma constituency_row_zero_count_witness :
  ConstituencyCalculator.relative_change
    (ConstituencyCalculator.geography_row "r" 2026 demo_geography [0; 0]
       [20000; 30000] [21000; 30500]) = Fin 0 /\
  ConstituencyCalculator.average_gain
    (ConstituencyCalculator.geography_row "r" 2026 demo_geography [0; 0]
       [20000; 30000] [21000; 30500]) <> Fin 0.
Proof.
  destruct (@constituency_row_zero_count Series Series_ops Series_count "r"
              2026 demo_geography [0; 0] [20000; 30000] [21000; 30500]
              Logic.eq_refl) as [Hgain Hrel].
  split; [exact Hrel | apply Hgain].
Defined.

(** ** IncomeCurveCalculator *)

Lemma length_range (lo hi : Z) : List.length (range lo hi) = Z.to_nat (hi - lo).
Proof. unfold range. now rewrite length_map, length_seq. Qed.

Lemma nth_range (lo hi : Z) (i : nat) (d : Z) :
  (i < Z.to_nat (hi - lo))%nat -> nth i (range lo hi) d = (lo + Z.of_nat i)%Z.
Proof.
  intros Hi. unfold range.
  rewrite (nth_indep _ d ((fun k => (lo + Z.of_nat k)%Z) 0%nat))
    by (now rewrite length_map, length_seq).
  rewrite (map_nth (fun k => (lo + Z.of_nat k)%Z)). now rewrite seq_nth.
Qed.

Section IncomeCurve.
Import IncomeCurveCalculator.

(** X17.  The employment incomes of the curve: a negative number of points
    raises [ValueError]; otherwise [get_income_range] returns [num_points]
    incomes, the income at position [i] being [i × max_income /
    (num_points − 1)], so that they start at 0, are evenly spaced and, from
    two points on, end at [max_income] exactly. *)
Theorem income_range_grid (self : t) :
  if (num_points self <? 0)%Z then get_income_range self = raise ValueError
  else
    exists grid,
      get_income_range self = ret grid /\
      List.length grid = Z.to_nat (num_points self) /\
      (forall i, (i < List.length grid)%nat ->
         nth i grid 0 ==
         inject_Z (Z.of_nat i)
         * (inject_Z (max_income self) / inject_Z (num_points self - 1))) /\
      ((2 <= num_points self)%Z ->
         nth 0 grid 0 == 0 /\
         nth (Z.to_nat (num_points self - 1)) grid 0
         = inject_Z (max_income self)).
Proof.
  unfold get_income_range, np_linspace.
  destruct (num_points self <? 0)%Z eqn:Hneg; [reflexivity |].
  apply Z.ltb_ge in Hneg.
  set (n := num_points self) in *. set (m := inject_Z (max_income self)).
  eexists. split; [reflexivity |].
  assert (forall i, (i < Z.to_nat n)%nat ->
            nth i (map (fun i : Z =>
                     if (0 <? n - 1)%Z
                     then if (i =? n - 1)%Z then m
                          else 0 + inject_Z i * ((m - 0) / inject_Z (n - 1))
                     else 0 + inject_Z i * (m - 0)) (range 0 n)) 0
            = (fun i : Z =>
                 if (0 <? n - 1)%Z
                 then if (i =? n - 1)%Z then m
                      else 0 + inject_Z i * ((m - 0) / inject_Z (n - 1))
                 else 0 + inject_Z i * (m - 0)) (Z.of_nat i)) as Hnth.
  { intros i Hi.
    rewrite (nth_indep _ 0 ((fun i : Z =>
                 if (0 <? n - 1)%Z
                 then if (i =? n - 1)%Z then m
                      else 0 + inject_Z i * ((m - 0) / inject_Z (n - 1))
                 else 0 + inject_Z i * (m - 0)) 0%Z))
      by (rewrite length_map, length_range; lia).
    rewrite (map_nth (fun i : Z => _) (range 0 n) 0%Z i).
    rewrite nth_range by lia. reflexivity. }
  split; [rewrite length_map, length_range; f_equal; lia |].
  split.
  - intros i Hi. rewrite length_map, length_range in Hi.
    rewrite Hnth by lia. cbv beta.
    destruct (0 <? n - 1)%Z eqn:Hdiv.
    + apply Z.ltb_lt in Hdiv.
      destruct (Z.of_nat i =? n - 1)%Z eqn:Hlast.
      * apply Z.eqb_eq in Hlast. rewrite Hlast.
        assert (~ inject_Z (n - 1) == 0) as Hnz.
        { intros Hz. unfold Qeq in Hz. simpl in Hz. lia. }
        field. exact Hnz.
      * unfold Qdiv. ring.
    + apply Z.ltb_ge in Hdiv.
      assert (i = 0%nat) as -> by lia. simpl. ring.
  - intros Htwo. split.
    + rewrite Hnth by lia. cbv beta.
      replace (0 <? n - 1)%Z with true by (symmetry; apply Z.ltb_lt; lia).
      replace (Z.of_nat 0 =? n - 1)%Z with false
        by (symmetry; apply Z.eqb_neq; lia).
      simpl. ring.
    + rewrite Hnth by lia. cbv beta.
      replace (0 <? n - 1)%Z with true by (symmetry; apply Z.ltb_lt; lia).
      replace (Z.of_nat (Z.to_nat (n - 1)) =? n - 1)%Z with true
        by (symmetry; apply Z.eqb_eq; lia).
      reflexivity.
Qed.

Context {Modifier Params Sim : Type}.

(** X18.  Once the two simulations are built and give their net incomes,
    [calculate] returns one row per employment income of the range, pairing
    the income at position [i] with the two net incomes at position [i]; the
    employment incomes of the rows are the range itself, whatever the
    scenarios and the year are.  If one of the simulations gives fewer net
    incomes than the range has points, it raises [IndexError]. *)
Theorem income_curve_rows (self : t) (lib : SimulationLib Modifier Params Sim)
    (baseline_scenario : option (Scenario Modifier Params))
    (reform_scenario : Scenario Modifier Params) (rid rn : string) (y : Z)
    (baseline_sim reform_sim : Sim) (grid baseline_hnet reform_hnet : list Q) :
  Simulation lib baseline_scenario (get_base_situation self y)
    = ret baseline_sim ->
  Simulation lib (Some reform_scenario) (get_base_situation self y)
    = ret reform_sim ->
  get_income_range self = ret grid ->
  sim_calculate lib baseline_sim "household_net_income" y = ret baseline_hnet ->
  sim_calculate lib reform_sim "household_net_income" y = ret reform_hnet ->
  let rows :=
    map (fun i =>
           {| reform_id := rid; reform_name := rn; year := y;
              employment_income := nth i grid 0;
              baseline_net_income := nth i baseline_hnet 0;
              reform_net_income := nth i reform_hnet 0 |})
        (seq 0 (List.length grid)) in
  calculate self lib baseline_scenario reform_scenario rid rn y
  = (if (List.length grid <=? List.length baseline_hnet)%nat
        && (List.length grid <=? List.length reform_hnet)%nat
     then ret rows else raise IndexError) /\
  map employment_income rows = grid.
Proof.
  intros Hbsim Hrsim Hgrid Hbh Hrh rows. split.
  - unfold calculate.
    replace (match baseline_scenario with
             | Some s => Simulation lib (Some s) (get_base_situation self y)
             | None => Simulation lib None (get_base_situation self y)
             end)
      with (Simulation lib baseline_scenario (get_base_situation self y))
      by (now destruct baseline_scenario).
    rewrite Hbsim. cbn [bind ret]. rewrite Hrsim. cbn [bind ret].
    rewrite Hgrid. cbn [bind ret]. rewrite Hbh. cbn [bind ret].
    rewrite Hrh. cbn [bind ret].
    destruct ((List.length grid <=? List.length baseline_hnet)%nat
              && (List.length grid <=? List.length reform_hnet)%nat) eqn:Hlen.
    + apply andb_true_iff in Hlen. destruct Hlen as [Hlb Hlr].
      apply Nat.leb_le in Hlb. apply Nat.leb_le in Hlr.
      subst rows. rewrite <- flat_map_singleton.
      apply for_each_flat_map. intros i Hi. apply in_seq in Hi.
      rewrite (np_index_nth grid i 0) by lia.
      rewrite (np_index_nth baseline_hnet i 0) by lia.
      rewrite (np_index_nth reform_hnet i 0) by lia. reflexivity.
    + apply for_each_raise.
      * intros i Hi. apply in_seq in Hi.
        rewrite (np_index_nth grid i 0) by lia. cbn [bind ret].
        rewrite (np_index_cases baseline_hnet i 0),
          (np_index_cases reform_hnet i 0).
        destruct (i <? List.length baseline_hnet)%nat; [| now right].
        destruct (i <? List.length reform_hnet)%nat;
          [left; cbn; eauto | now right].
      * apply andb_false_iff in Hlen.
        assert (exists i, (i < List.length grid)%nat /\
                  ((i <? List.length baseline_hnet)%nat = false \/
                   (i <? List.length reform_hnet)%nat = false))
          as [i [Hi Hshort]].
        { destruct Hlen as [Hlen | Hlen]; apply Nat.leb_gt in Hlen.
          - exists (List.length baseline_hnet). split; [exact Hlen |].
            left. apply Nat.ltb_irrefl.
          - exists (List.length reform_hnet). split; [exact Hlen |].
            right. apply Nat.ltb_irrefl. }
        exists i. split; [apply in_seq; lia |].
        rewrite (np_index_nth grid i 0) by lia. cbn [bind ret].
        rewrite (np_index_cases baseline_hnet i 0),
          (np_index_cases reform_hnet i 0).
        destruct Hshort as [-> | Hr]; [reflexivity |].
        rewrite Hr. now destruct (i <? List.length baseline_hnet)%nat.
  - subst rows. rewrite map_map. cbn [employment_income].
    apply nth_ext with (d := 0) (d' := 0).
    + now rewrite length_map, length_seq.
    + intros i Hi. rewrite length_map, length_seq in Hi.
      rewrite (nth_indep _ 0 (nth 0%nat grid 0))
        by (now rewrite length_map, length_seq).
      rewrite (map_nth (fun i => nth i grid 0)). now rewrite seq_nth.
Qed.

End IncomeCurve.

(** The default curve has 201 points, 750 apart. *)
Example default_income_range :
  exists grid,
    IncomeCurveCalculator.get_income_range IncomeCurveCalculator.default
      = ret grid /\
    List.length grid = 201%nat /\
    nth 0 grid 0 == 0 /\ nth 1 grid 0 == 750 /\ nth 200 grid 0 == 150000.
Proof.
  eexists. split; [reflexivity |]. vm_compute. tauto.
Qed.

Lemma income_range_grid_witness :
  exists grid,
    IncomeCurveCalculator.get_income_range five_points = ret grid /\
    List.length grid = 5%nat /\
    nth 4 grid 0 = 3000.
Proof.
  destruct (income_range_grid five_points) as [grid [Hrun [Hlen [_ Hends]]]].
  exists grid. split; [exact Hrun |]. split; [exact Hlen |].
  apply Hends. simpl. lia.
Defined.

(** With five net incomes per simulation the five rows are returned; with
    three, the fourth point of the curve cannot be read. *)
Lemma income_curve_rows_witness :
  (exists rows,
     IncomeCurveCalculator.calculate five_points (toy_simulation_lib 5) None
       toy_scenario "r" "R" 2026 = ret rows /\
     List.length rows = 5%nat /\
     Forall (fun r => IncomeCurveCalculator.reform_net_income r
                      == IncomeCurveCalculator.baseline_net_income r + 500)
            rows) /\
  IncomeCurveCalculator.calculate five_points (toy_simulation_lib 3) None
    toy_scenario "r" "R" 2026 = raise IndexError.
Proof.
  split.
  - eexists. split; [| split].
    + etransitivity.
      * exact (proj1 (income_curve_rows five_points (toy_simulation_lib 5)
                        None toy_scenario "r" "R" 2026 _ _ _ _ _
                        Logic.eq_refl Logic.eq_refl Logic.eq_refl
                        Logic.eq_refl Logic.eq_refl)).
      * reflexivity.
    + reflexivity.
    + repeat constructor.
  - exact (proj1 (income_curve_rows five_points (toy_simulation_lib 3)
                    None toy_scenario "r" "R" 2026 _ _ _ _ _
                    Logic.eq_refl Logic.eq_refl Logic.eq_refl
                    Logic.eq_refl Logic.eq_refl)).
Defined.

(** ** Reform: the custom baseline *)

Section ReformBaseline.
Context {Modifier Params : Type}.

(** X19.  [has_custom_baseline] tells whether [to_baseline_scenario] gives
    a scenario: it is true exactly when a scenario is returned, and the
    scenario returned carries the reform's baseline modifier and baseline
    parameter changes, both unchanged. *)
Theorem has_custom_baseline_scenario (self : Reform.t Modifier Params) :
  (Reform.has_custom_baseline self = true
     <-> Reform.to_baseline_scenario self <> None) /\
  (forall s, Reform.to_baseline_scenario self = Some s ->
     scenario_simulation_modifier _ _ s = Reform.baseline_simulation_modifier self
     /\ scenario_parameter_changes _ _ s = Reform.baseline_parameter_changes self).
Proof.
  unfold Reform.has_custom_baseline, Reform.to_baseline_scenario.
  destruct (Reform.baseline_simulation_modifier self) as [m |],
    (Reform.baseline_parameter_changes self) as [p |]; simpl.
  all: split; [split; [discriminate || (intros _; discriminate)
                      | try reflexivity; try (intros Hn; now elim Hn)] |].
  all: intros s Hs; try discriminate; injection Hs as <-; now split.
Qed.

End ReformBaseline.

(** ** The input check *)

Section InputCheck.
Import ReformProcessor.
Context {Sim Modifier Params Weights ConstituencyDF Table : Type}.
Context {BudgetRow DistRow WLRow MetricRow CurveRow ScatterRow ConstRow DemoRow
         : Type}.

(** X20.  [check_input_data] looks at the two files the processor's
    geography step looks at: it returns exactly when the constituency data
    is not absent for the processor of the same configuration, and
    otherwise raises [FileNotFoundError] naming the missing file, the
    weights file first when both are missing. *)
Theorem check_input_data_agrees (fs : FileSystem Weights ConstituencyDF)
    (self : ReformProcessor.t Sim Modifier Params Weights ConstituencyDF Table
              BudgetRow DistRow WLRow MetricRow CurveRow ScatterRow ConstRow
              DemoRow) :
  (check_input_data fs (config self) = ret tt
     <-> ~ constituency_data_absent fs self) /\
  (path_exists fs (weights_path self) = false ->
     check_input_data fs (config self)
     = raise (FileNotFoundError
                ("Required file not found: " ++ weights_path self))) /\
  (path_exists fs (weights_path self) = true ->
   path_exists fs (constituencies_path self) = false ->
     check_input_data fs (config self)
     = raise (FileNotFoundError
                ("Required file not found: " ++ constituencies_path self))).
Proof.
  unfold check_input_data, constituency_data_absent.
  fold (weights_path self) (constituencies_path self).
  destruct (path_exists fs (weights_path self)),
    (path_exists fs (constituencies_path self)); simpl.
  all: split; [split; [try discriminate; intros _ [Ha | Ha]; discriminate
                      | try reflexivity; intros Hn; exfalso; apply Hn; auto] |].
  all: split; [intros Hw | intros Hw Hc]; try discriminate; reflexivity.
Qed.

End InputCheck.

(** ** ReformProcessor: the geography step *)

Lemma for_fold_app {A S} (xs ys : list A) (acc : S) (body : S -> A -> M S) :
  for_fold (xs ++ ys) acc body
  = (acc' <- for_fold xs acc body ;; for_fold ys acc' body).
Proof.
  revert acc. induction xs as [| x xs IH]; intros acc; simpl.
  - reflexivity.
  - destruct (body acc x) as [e | acc']; simpl; [reflexivity | apply IH].
Qed.

Section GeographyStep.
Import ReformProcessor.
Context {Sim Modifier Params Weights ConstituencyDF Table : Type}.
Context {BudgetRow DistRow WLRow MetricRow CurveRow ScatterRow ConstRow DemoRow
         : Type}.

Abbreviation processor :=
  (ReformProcessor.t Sim Modifier Params Weights ConstituencyDF Table
     BudgetRow DistRow WLRow MetricRow CurveRow ScatterRow ConstRow DemoRow).
Abbreviation file_system := (FileSystem Weights ConstituencyDF).
Abbreviation accumulators :=
  (per_year DistRow WLRow MetricRow CurveRow ScatterRow ConstRow DemoRow).

Variables (fs : file_system) (self : processor) (baseline reformed : Sim).
Variables (dist : Z -> list DistRow) (table : Z -> Table)
          (wl : Z -> list WLRow) (met : Z -> list MetricRow)
          (curve : Z -> list CurveRow) (scatter : Z -> list ScatterRow).

Let rid := Reform.id (reform self).
Let rn := Reform.name (reform self).

Let others (y : Z) : Prop :=
  others_return self baseline reformed dist table wl met curve scatter y.

Let geography (y : Z) : M (list ConstRow * list DemoRow) :=
  _calculate_constituency fs self baseline reformed rid y.

Lemma process_year_geography (acc : accumulators) (y : Z) :
  others y ->
  process_year fs self baseline reformed acc y =
  match geography y with
  | inr rows =>
      ret {| all_distributional := all_distributional acc ++ dist y;
             all_winners_losers := all_winners_losers acc ++ wl y;
             all_metrics := all_metrics acc ++ met y;
             all_income_curve := all_income_curve acc ++ curve y;
             all_household_scatter := all_household_scatter acc ++ scatter y;
             all_constituency := all_constituency acc ++ fst rows;
             all_demographic := all_demographic acc ++ snd rows |}
  | inl (FileNotFoundError _) =>
      ret {| all_distributional := all_distributional acc ++ dist y;
             all_winners_losers := all_winners_losers acc ++ wl y;
             all_metrics := all_metrics acc ++ met y;
             all_income_curve := all_income_curve acc ++ curve y;
             all_household_scatter := all_household_scatter acc ++ scatter y;
             all_constituency := all_constituency acc;
             all_demographic := all_demographic acc |}
  | inl e => raise e
  end.
Proof.
  intros [Hdist [Hwl [Hmet [Hcurve Hscatter]]]].
  unfold process_year. fold rid rn. fold rid rn in Hdist, Hwl, Hmet, Hcurve,
    Hscatter.
  rewrite Hdist. cbn [bind ret].
  rewrite Hwl. cbn [bind ret].
  rewrite Hmet. cbn [bind ret].
  rewrite Hcurve. cbn [bind ret].
  rewrite Hscatter. cbn [bind ret].
  fold (geography y).
  destruct (geography y) as [[msg | | |] | [c d]]; reflexivity.
Qed.

Lemma for_years_geography (ys : list Z) (acc : accumulators) :
  (forall y, In y ys -> others y) ->
  (forall y, In y ys -> returns_or_not_found (geography y)) ->
  for_fold ys acc (process_year fs self baseline reformed) =
  ret {| all_distributional := all_distributional acc ++ flat_map dist ys;
         all_winners_losers := all_winners_losers acc ++ flat_map wl ys;
         all_metrics := all_metrics acc ++ flat_map met ys;
         all_income_curve := all_income_curve acc ++ flat_map curve ys;
         all_household_scatter :=
           all_household_scatter acc ++ flat_map scatter ys;
         all_constituency :=
           all_constituency acc
           ++ flat_map (fun y => fst (rows_or_none (geography y))) ys;
         all_demographic :=
           all_demographic acc
           ++ flat_map (fun y => snd (rows_or_none (geography y))) ys |}.
Proof.
  revert acc.
  induction ys as [| y ys IH]; intros acc Hothers Hgeo; simpl.
  - rewrite !app_nil_r. now destruct acc.
  - rewrite (process_year_geography acc y) by (apply Hothers; now left).
    assert (returns_or_not_found (geography y)) as Hy by (apply Hgeo; now left).
    destruct (geography y) as [[msg | | |] | [c d]]; try contradiction;
      cbn [bind ret];
      (rewrite IH;
       [| intros y' Hy'; apply Hothers; now right
        | intros y' Hy'; apply Hgeo; now right]);
      simpl; rewrite <- ?app_assoc, ?app_nil_r; reflexivity.
Qed.

(** X21.  The geography step of a year adds its constituency rows and its
    demographic rows together or not at all.  If the budgetary calculator
    returns, the other five calculators return for every configured year,
    and the geography step of every year either returns or raises
    [FileNotFoundError] (whatever raised it: the check of the paths, the
    reading of a file or one of the two calculators), then [process]
    returns; the years whose step raised contribute no constituency and no
    demographic row, the others contribute the rows of both calculators. *)
Theorem process_geography_all_or_nothing (budgetary : list BudgetRow) :
  budgetary_calc (calculators self) baseline reformed rid rn = ret budgetary ->
  (forall y, In y (years (config self)) ->
     others_return self baseline reformed dist table wl met curve scatter y) ->
  (forall y, In y (years (config self)) ->
     returns_or_not_found
       (_calculate_constituency fs self baseline reformed rid y)) ->
  process fs self baseline reformed =
  ret {| reform_id := rid;
         reform_name := rn;
         budgetary_impact := budgetary;
         distributional_impact := flat_map dist (years (config self));
         winners_losers := flat_map wl (years (config self));
         metrics := flat_map met (years (config self));
         income_curve := flat_map curve (years (config self));
         household_scatter := flat_map scatter (years (config self));
         constituency :=
           flat_map (fun y =>
               fst (rows_or_none
                      (_calculate_constituency fs self baseline reformed rid
                         y)))
             (years (config self));
         demographic_constituency :=
           flat_map (fun y =>
               snd (rows_or_none
                      (_calculate_constituency fs self baseline reformed rid
                         y)))
             (years (config self)) |}.
Proof.
  intros Hbudget Hothers Hgeo. unfold process. fold rid rn.
  rewrite Hbudget. cbn [bind ret].
  rewrite (for_years_geography _ _ Hothers Hgeo). reflexivity.
Qed.

(** X22.  Only [FileNotFoundError] is tolerated in the geography step.  If
    in some configured year the step raises another exception [e], while
    the calculators before it returned and the steps of the earlier years
    returned or raised [FileNotFoundError], then [process] raises [e]: no
    result is returned, not even the rows already calculated. *)
Theorem process_geography_error (budgetary : list BudgetRow)
    (before after : list Z) (y : Z) (e : exn) :
  years (config self) = before ++ y :: after ->
  budgetary_calc (calculators self) baseline reformed rid rn = ret budgetary ->
  (forall y', In y' (before ++ [y]) ->
     others_return self baseline reformed dist table wl met curve scatter y') ->
  (forall y', In y' before ->
     returns_or_not_found
       (_calculate_constituency fs self baseline reformed rid y')) ->
  _calculate_constituency fs self baseline reformed rid y = raise e ->
  (forall msg, e <> FileNotFoundError msg) ->
  process fs self baseline reformed = raise e.
Proof.
  intros Hyears Hbudget Hothers Hgeo Hraise Hother. unfold process.
  fold rid rn. rewrite Hbudget. cbn [bind ret]. rewrite Hyears.
  rewrite for_fold_app.
  rewrite for_years_geography;
    [| intros y' Hy'; apply Hothers, in_or_app; now left | exact Hgeo].
  cbn [bind ret]. simpl for_fold.
  rewrite process_year_geography
    by (apply Hothers, in_or_app; right; now left).
  unfold geography. rewrite Hraise. unfold raise.
  destruct e as [msg | | |]; try reflexivity.
  exfalso. now apply (Hother msg).
Qed.

End GeographyStep.

Lemma has_custom_baseline_scenario_witness :
  Reform.has_custom_baseline toy_reform = false /\
  Reform.to_baseline_scenario toy_reform = None.
Proof.
  pose proof (has_custom_baseline_scenario toy_reform) as [[_ Hnone] _].
  split; [reflexivity |].
  destruct (Reform.to_baseline_scenario toy_reform) eqn:E; [| reflexivity].
  exfalso. assert (Reform.has_custom_baseline toy_reform = true) as Habs
    by (apply Hnone; discriminate).
  discriminate Habs.
Defined.

Lemma check_input_data_agrees_witness :
  check_input_data no_weights_file toy_config
  = raise (FileNotFoundError
             ("Required file not found: "
              ++ ReformProcessor.weights_path toy_processor))
  /\ check_input_data (both_files demo_weights) toy_config = ret tt.
Proof.
  split.
  - apply (proj1 (proj2 (check_input_data_agrees no_weights_file
                           toy_processor))).
    reflexivity.
  - apply (proj1 (check_input_data_agrees (both_files demo_weights)
                    toy_processor)).
    intros [Habs | Habs]; discriminate Habs.
Defined.

Lemma process_geography_all_or_nothing_witness :
  exists result,
    ReformProcessor.process (both_files demo_weights) toy_processor tt tt
      = ret result /\
    ReformProcessor.constituency result
      = [ "constituency 2026"; "constituency 2027" ] /\
    ReformProcessor.demographic_constituency result
      = [ "demographic 2026"; "demographic 2027" ].
Proof.
  eexists. split.
  - refine (process_geography_all_or_nothing (both_files demo_weights)
              toy_processor tt tt
              (labelled "distributional") (fun _ => two_households_df)
              (labelled "winners_losers") (labelled "metrics")
              (labelled "income_curve") (labelled "household_scatter")
              [ "budgetary" ] _ _ _).
    + reflexivity.
    + intros y _. repeat split.
    + intros y _. exact I.
  - split; reflexivity.
Defined.

Lemma process_geography_error_witness :
  ReformProcessor.process (both_files demo_weights) failing_processor tt tt
  = raise IndexError.
Proof.
  refine (process_geography_error (both_files demo_weights) failing_processor
            tt tt
            (labelled "distributional") (fun _ => two_households_df)
            (labelled "winners_losers") (labelled "metrics")
            (labelled "income_curve") (labelled "household_scatter")
            [ "budgetary" ] [] [2027%Z] 2026%Z IndexError _ _ _ _ _ _).
  - reflexivity.
  - reflexivity.
  - intros y _. repeat split.
  - intros y [].
  - reflexivity.
  - discriminate.
Defined.

(** ** The processor built from a configuration *)

Lemma for_each_ret_Forall {A B} (P : B -> Prop) (xs : list A)
    (body : A -> M (list B)) (out : list B) :
  (forall x rows, In x xs -> body x = ret rows -> Forall P rows) ->
  for_each xs body = ret out -> Forall P out.
Proof.
  revert out. induction xs as [| x xs IH]; intros out Hbody; simpl.
  - intros [= <-]. constructor.
  - destruct (body x) as [e | rows] eqn:Ex; [discriminate |]. cbn [bind].
    destruct (for_each xs body) as [e | rest] eqn:Erest; [discriminate |].
    cbn [bind ret]. intros [= <-]. apply Forall_app. split.
    + apply (Hbody x rows); [now left | exact Ex].
    + apply IH; [| reflexivity].
      intros x' rows' Hx'. apply Hbody. now right.
Qed.

Lemma for_fold_invariant {A S} (P : S -> Prop) (xs : list A) (acc : S)
    (body : S -> A -> M S) (out : S) :
  P acc ->
  (forall a x a', In x xs -> P a -> body a x = ret a' -> P a') ->
  for_fold xs acc body = ret out -> P out.
Proof.
  revert acc. induction xs as [| x xs IH]; intros acc Hacc Hbody; simpl.
  - intros [= <-]. exact Hacc.
  - destruct (body acc x) as [e | acc'] eqn:Ex; [discriminate |]. cbn [bind].
    apply IH.
    + apply (Hbody acc x acc'); [now left | exact Hacc | exact Ex].
    + intros a x' a' Hx'. apply Hbody. now right.
Qed.

Lemma np_index_map {A B} (f : A -> B) (a : list A) (i : nat) (x : A) (y : B) :
  np_index (map f a) i = ret y -> np_index a i = ret x -> y = f x.
Proof.
  unfold np_index. rewrite nth_error_map.
  destruct (nth_error a i); simpl; [| discriminate].
  intros [= <-] [= <-]. reflexivity.
Qed.

Lemma scatter_rows_in_window (self : HouseholdScatterCalculator.t)
    (rid rn : string) (y : Z) (baseline_incomes income_changes weights : list Q)
    (household_ids : option (list Q))
    (rows : list HouseholdScatterCalculator.row) :
  HouseholdScatterCalculator.calculate_from_arrays self rid rn y
    baseline_incomes income_changes weights household_ids = ret rows ->
  Forall (fun r =>
            HouseholdScatterCalculator.in_window self
              (HouseholdScatterCalculator.baseline_income r) = true) rows.
Proof.
  unfold HouseholdScatterCalculator.calculate_from_arrays.
  apply for_each_ret_Forall. intros i out _.
  destruct (np_index (map _ baseline_incomes) i) as [e | m] eqn:Em;
    [discriminate |].
  cbn [bind]. destruct m; [| intros [= <-]; constructor].
  destruct (np_index baseline_incomes i) as [e | b] eqn:Eb; [discriminate |].
  cbn [bind].
  destruct (np_index income_changes i) as [e | c]; [discriminate |].
  cbn [bind]. destruct (np_index weights i) as [e | w]; [discriminate |].
  cbn [bind].
  pose proof (np_index_map _ _ _ _ _ Em Eb) as Hm.
  destruct household_ids as [ids |].
  - destruct (np_index ids i) as [e | x]; [discriminate |]. cbn [bind ret].
    intros [= <-]. now repeat constructor.
  - cbn [bind ret]. intros [= <-]. now repeat constructor.
Qed.

Section ScatterOfProcess.
Import ReformProcessor.
Context {Sim Modifier Params Weights ConstituencyDF Table : Type}.
Context {BudgetRow DistRow WLRow MetricRow CurveRow ScatterRow ConstRow DemoRow
         : Type}.

(** A property of the scatter rows of every year is a property of the
    scatter rows of the result. *)
Lemma process_scatter_rows (P : ScatterRow -> Prop)
    (fs : FileSystem Weights ConstituencyDF)
    (self : ReformProcessor.t Sim Modifier Params Weights ConstituencyDF Table
              BudgetRow DistRow WLRow MetricRow CurveRow ScatterRow ConstRow
              DemoRow)
    (baseline reformed : Sim)
    (result : ReformResult BudgetRow DistRow WLRow MetricRow CurveRow
                ScatterRow ConstRow DemoRow) :
  (forall y rows,
     household_scatter_calc (calculators self) baseline reformed
       (Reform.id (reform self)) (Reform.name (reform self)) y = ret rows ->
     Forall P rows) ->
  process fs self baseline reformed = ret result ->
  Forall P (household_scatter result).
Proof.
  intros Hcalc. unfold process.
  destruct (budgetary_calc _ _ _ _ _) as [e | budgetary]; [discriminate |].
  cbn [bind].
  destruct (for_fold _ _ _) as [e | acc] eqn:Efold; [discriminate |].
  cbn [bind ret]. intros [= <-]. cbn [household_scatter].
  revert Efold.
  apply (for_fold_invariant (fun a => Forall P (all_household_scatter a))).
  - constructor.
  - intros a y a' _ Ha. unfold process_year.
    destruct (distributional_calc _ _ _ _ _ _) as [e | [d t]];
      [discriminate |].
    cbn [bind]. destruct (winners_losers_calc _ _ _ _ _) as [e | w];
      [discriminate |].
    cbn [bind]. destruct (metrics_calc _ _ _ _ _ _) as [e | m];
      [discriminate |].
    cbn [bind]. destruct (income_curve_calc _ _ _ _ _ _) as [e | c];
      [discriminate |].
    cbn [bind].
    destruct (household_scatter_calc _ _ _ _ _ _) as [e | sc] eqn:Esc;
      [discriminate |].
    cbn [bind].
    destruct (except_FileNotFoundError _ _) as [e | [co de]]; [discriminate |].
    cbn [bind ret]. intros [= <-]. cbn [all_household_scatter].
    apply Forall_app. split; [exact Ha |]. now apply (Hcalc y).
Qed.

End ScatterOfProcess.

Section BuiltProcessor.
Context {MS : Type} `{MicroSeriesOps MS} `{MicroSeriesCount MS}.
Context {Modifier Params Sim : Type}.

(** X23.  Every household-scatter row of a result returned by the processor
    built from a configuration lies in the window of that configuration:
    its baseline income is at least 0 and at most
    [household_scatter_max_income], whatever the simulations, the files and
    the years are. *)
Theorem process_scatter_within_window
    (lib : SimulationLib Modifier Params Sim)
    (reform : Reform.t Modifier Params) (config : DataConfig Params)
    (fs : ReformProcessor.FileSystem (list (list Q)) (list constituency))
    (baseline reformed : Microsimulation.t MS) result :
  ReformProcessor.process fs (new_ReformProcessor lib reform (Some config))
    baseline reformed = ret result ->
  Forall (fun r =>
            0 <= HouseholdScatterCalculator.baseline_income r
              <= inject_Z (household_scatter_max_income config))
         (ReformProcessor.household_scatter result).
Proof.
  apply process_scatter_rows. intros y rows.
  cbn [new_ReformProcessor ReformProcessor.calculators
       ReformProcessor.household_scatter_calc].
  unfold HouseholdScatterCalculator.calculate.
  destruct (Microsimulation.calculate baseline "household_net_income" y _)
    as [e | bi]; [discriminate |].
  cbn [bind].
  destruct (Microsimulation.calculate reformed "household_net_income" y _)
    as [e | ri]; [discriminate |].
  cbn [bind].
  destruct (Microsimulation.calculate baseline "household_weight" y _)
    as [e | hw]; [discriminate |].
  cbn [bind].
  destruct (Microsimulation.calculate baseline "household_id" y _)
    as [e | hid]; [discriminate |].
  cbn [bind]. intros Hrows. apply scatter_rows_in_window in Hrows.
  eapply Forall_impl; [| exact Hrows].
  intros r Hr. cbv beta in Hr.
  unfold HouseholdScatterCalculator.in_window, np.ge in Hr.
  cbn [HouseholdScatterCalculator.min_income
       HouseholdScatterCalculator.max_income] in Hr.
  apply andb_true_iff in Hr. destruct Hr as [Hlo Hhi].
  apply Qle_bool_iff in Hlo. apply Qle_bool_iff in Hhi. split; assumption.
Qed.



End BuiltProcessor.

Lemma process_scatter_within_window_witness :
  exists result,
    ReformProcessor.process (both_files [ [1; 1; 1] ]) small_processor
      full_baseline full_reformed = ret result /\
    List.length (ReformProcessor.household_scatter result) = 2%nat /\
    Forall (fun r => 0 <= HouseholdScatterCalculator.baseline_income r <= 1000)
           (ReformProcessor.household_scatter result).
Proof.
  destruct (ReformProcessor.process (both_files [ [1; 1; 1] ]) small_processor
              full_baseline full_reformed) as [e | result] eqn:Erun.
  - exfalso. vm_compute in Erun. discriminate Erun.
  - exists result. split; [reflexivity |]. split.
    + vm_compute in Erun. injection Erun as <-. reflexivity.
    + exact (@process_scatter_within_window Series Series_ops Series_count
               unit unit _ (toy_simulation_lib 5) toy_reform small_config
               (both_files [ [1; 1; 1] ]) full_baseline full_reformed result
               Erun).
Defined.


(** ** The reforms of the budget *)

Lemma to_int_not_nil (z : Z) :
  Z.to_int z <> Decimal.Pos Decimal.Nil /\
  Z.to_int z <> Decimal.Neg Decimal.Nil.
Proof.
  split; intros Hnil; pose proof (DecimalZ.of_to z) as Hz;
    rewrite Hnil in Hz; simpl in Hz; subst z; discriminate Hnil.
Qed.

Lemma str_inj (a b : Z) : str a = str b -> a = b.
Proof.
  unfold str. intros Heq. apply DecimalZ.to_int_inj.
  destruct (to_int_not_nil a) as [Ha Ha'], (to_int_not_nil b) as [Hb Hb'].
  pose proof (NilZero.isi (Z.to_int a) Ha Ha') as Ea.
  pose proof (NilZero.isi (Z.to_int b) Hb Hb') as Eb.
  rewrite Heq in Ea. rewrite Ea in Eb. now injection Eb.
Qed.

Lemma str_dict_get_set_same {V} (d : list (string * V)) (k : string) (v : V) :
  str_dict_get (str_dict_set d k v) k = Some v.
Proof.
  induction d as [| [k' v'] d IH]; simpl.
  - now rewrite String.eqb_refl.
  - destruct (String.eqb k' k) eqn:E; simpl; rewrite E; [reflexivity | exact IH].
Qed.

Lemma str_dict_get_set_other {V} (d : list (string * V)) (k k' : string)
    (v : V) :
  k <> k' -> str_dict_get (str_dict_set d k v) k' = str_dict_get d k'.
Proof.
  intros Hne. induction d as [| [k0 v0] d IH]; simpl.
  - apply String.eqb_neq in Hne. now rewrite Hne.
  - destruct (String.eqb k0 k) eqn:E; simpl.
    + apply String.eqb_eq in E. subst k0.
      apply String.eqb_neq in Hne. now rewrite Hne.
    + destruct (String.eqb k0 k'); [reflexivity | exact IH].
Qed.

Lemma find_last {A} (p : A -> bool) (xs : list A) (x : A) :
  find p (xs ++ [x])
  = match find p xs with
    | Some y => Some y
    | None => if p x then Some x else None
    end.
Proof.
  induction xs as [| y xs IH]; simpl; [reflexivity |].
  now destruct (p y).
Qed.

(** A dict comprehension maps a key to the value of the last element that
    has this key. *)
Lemma dict_comprehension_get {A V} (key : A -> string) (value : A -> V)
    (xs : list A) (k : string) :
  str_dict_get (dict_comprehension key value xs) k
  = option_map value (find (fun x => String.eqb (key x) k) (rev xs)).
Proof.
  unfold dict_comprehension.
  assert (forall d,
            str_dict_get
              (fold_left (fun d x => str_dict_set d (key x) (value x)) xs d) k
            = match find (fun x => String.eqb (key x) k) (rev xs) with
              | Some x => Some (value x)
              | None => str_dict_get d k
              end) as Hgen.
  { induction xs as [| x xs IH]; intros d; simpl; [reflexivity |].
    rewrite IH, find_last.
    destruct (find _ (rev xs)); [reflexivity |].
    destruct (String.eqb (key x) k) eqn:E.
    - apply String.eqb_eq in E. subst k. apply str_dict_get_set_same.
    - apply String.eqb_neq in E. now apply str_dict_get_set_other. }
  rewrite Hgen. now destruct (find _ (rev xs)).
Qed.

Section Reforms.
Import reforms.

(** X25.  [_years_dict] gives the value to every requested year and to no
    other key: the key of a year is its decimal numeral, a year that was not
    requested has no entry, and without years (none given, or an empty
    list) the five default years 2026-2030 are the requested ones. *)
Theorem years_dict_lookup {V} (value : V) (years : option (list Z)) :
  let requested :=
    match years with
    | Some (y :: ys) => y :: ys
    | _ => DEFAULT_YEARS
    end in
  (forall y,
     str_dict_get (_years_dict value years) (str y)
     = if existsb (Z.eqb y) requested then Some value else None) /\
  (forall k v,
     str_dict_get (_years_dict value years) k = Some v ->
     v = value /\ exists y, In y requested /\ k = str y).
Proof.
  intros requested. unfold _years_dict. fold requested.
  split.
  - intros y. rewrite dict_comprehension_get.
    destruct (find _ (rev requested)) as [x |] eqn:Efind; simpl.
    + apply find_some in Efind. destruct Efind as [Hin Heq].
      apply String.eqb_eq, str_inj in Heq. subst x.
      apply in_rev in Hin.
      replace (existsb (Z.eqb y) requested) with true; [reflexivity |].
      symmetry. apply existsb_exists. exists y. split; [exact Hin |].
      apply Z.eqb_refl.
    + destruct (existsb (Z.eqb y) requested) eqn:Eex; [| reflexivity].
      apply existsb_exists in Eex. destruct Eex as [x [Hin Heq]].
      apply Z.eqb_eq in Heq. subst x.
      apply in_rev in Hin. apply (find_none _ _ Efind) in Hin.
      rewrite String.eqb_refl in Hin. discriminate Hin.
  - intros k v. rewrite dict_comprehension_get.
    destruct (find _ (rev requested)) as [x |] eqn:Efind; simpl;
      [| discriminate].
    intros [= <-]. split; [reflexivity |].
    apply find_some in Efind. destruct Efind as [Hin Heq].
    apply String.eqb_eq in Heq. exists x. split; [now apply in_rev | easy].
Qed.

(** X26.  The registry of reforms: [list_reform_ids] lists the ids of the
    reforms of [get_scottish_budget_2026_reforms], in their order;
    [get_reform] of the id of a listed reform gives that reform back; a
    reform returned for an id has this id and is a listed one; and
    [get_reform] is [None] exactly for the ids that are not listed. *)
Theorem get_reform_round_trip :
  list_reform_ids = map Reform.id get_scottish_budget_2026_reforms /\
  (forall r, In r get_scottish_budget_2026_reforms ->
             get_reform (Reform.id r) = Some r) /\
  (forall reform_id r, get_reform reform_id = Some r ->
     Reform.id r = reform_id /\ In r get_scottish_budget_2026_reforms) /\
  (forall reform_id, get_reform reform_id = None
                     <-> ~ In reform_id list_reform_ids).
Proof.
  assert (forall reform_id,
            get_reform reform_id
            = option_map (fun r => r)
                (find (fun r => String.eqb (Reform.id r) reform_id)
                      (rev get_scottish_budget_2026_reforms))) as Hget.
  { intros reform_id. apply dict_comprehension_get. }
  assert (list_reform_ids = map Reform.id get_scottish_budget_2026_reforms)
    as Hids by reflexivity.
  split; [exact Hids |]. split; [| split].
  - intros r [<- | [<- | []]]; reflexivity.
  - clear Hids. revert Hget.
    generalize get_scottish_budget_2026_reforms. intros rs Hget.
    intros reform_id r. rewrite Hget.
    destruct (find _ _) as [x |] eqn:Efind; simpl; [| discriminate].
    intros [= <-]. apply find_some in Efind. destruct Efind as [Hin Heq].
    apply String.eqb_eq in Heq.
    split; [exact Heq | exact (proj2 (in_rev _ _) Hin)].
  - revert Hget Hids. generalize list_reform_ids.
    generalize get_scottish_budget_2026_reforms. intros rs ids Hget ->.
    intros reform_id. rewrite Hget. split.
    + destruct (find _ _) as [x |] eqn:Efind; simpl; [discriminate |].
      intros _ Hin. apply in_map_iff in Hin. destruct Hin as [r [Hid Hr]].
      apply in_rev in Hr. apply (find_none _ _ Efind) in Hr.
      rewrite Hid, String.eqb_refl in Hr. discriminate Hr.
    + intros Hnot.
      destruct (find _ _) as [x |] eqn:Efind; simpl; [| reflexivity].
      exfalso. apply Hnot. apply find_some in Efind.
      destruct Efind as [Hin Heq]. apply String.eqb_eq in Heq.
      apply in_map_iff. exists x.
      split; [exact Heq | exact (proj2 (in_rev _ _) Hin)].
Qed.

End Reforms.

(** The child payment reform is defined but not registered. *)
Example child_payment_not_registered :
  reforms.get_reform "scottish_child_payment_increase" = None /\
  reforms.list_reform_ids
  = [ "scottish_threshold_freeze"; "two_child_limit_removal" ].
Proof. split; reflexivity. Qed.

(** The baseline of the two-child-limit reform sets the limit to 2 in each
    of the five default years. *)
Example two_child_limit_baseline :
  reforms._years_dict 2 None
  = [ ("2026", 2); ("2027", 2); ("2028", 2); ("2029", 2); ("2030", 2) ].
Proof. reflexivity. Qed.

(** ** DataPipeline: the frames and the files *)

Lemma concat_rows_app {A} (gathered rows : list A) :
  concat_rows gathered rows = gathered ++ rows.
Proof. destruct rows; simpl; [now rewrite app_nil_r | reflexivity]. Qed.

Lemma gather_rows (results : list reform_result) :
  gather results =
  {| Gathered.budgetary_impact :=
       flat_map ReformProcessor.budgetary_impact results;
     Gathered.distributional_impact :=
       flat_map ReformProcessor.distributional_impact results;
     Gathered.winners_losers :=
       flat_map ReformProcessor.winners_losers results;
     Gathered.metrics := flat_map ReformProcessor.metrics results;
     Gathered.income_curve := flat_map ReformProcessor.income_curve results;
     Gathered.household_scatter :=
       flat_map ReformProcessor.household_scatter results;
     Gathered.constituency := flat_map ReformProcessor.constituency results;
     Gathered.demographic_constituency :=
       flat_map ReformProcessor.demographic_constituency results |}.
Proof.
  unfold gather.
  assert (forall acc,
    fold_left gather_result results acc =
    {| Gathered.budgetary_impact :=
         Gathered.budgetary_impact acc
         ++ flat_map ReformProcessor.budgetary_impact results;
       Gathered.distributional_impact :=
         Gathered.distributional_impact acc
         ++ flat_map ReformProcessor.distributional_impact results;
       Gathered.winners_losers :=
         Gathered.winners_losers acc
         ++ flat_map ReformProcessor.winners_losers results;
       Gathered.metrics :=
         Gathered.metrics acc ++ flat_map ReformProcessor.metrics results;
       Gathered.income_curve :=
         Gathered.income_curve acc
         ++ flat_map ReformProcessor.income_curve results;
       Gathered.household_scatter :=
         Gathered.household_scatter acc
         ++ flat_map ReformProcessor.household_scatter results;
       Gathered.constituency :=
         Gathered.constituency acc
         ++ flat_map ReformProcessor.constituency results;
       Gathered.demographic_constituency :=
         Gathered.demographic_constituency acc
         ++ flat_map ReformProcessor.demographic_constituency results |})
    as Hgen.
  { induction results as [| result results IH]; intros acc; simpl.
    - rewrite !app_nil_r. now destruct acc.
    - rewrite IH. unfold gather_result. simpl.
      rewrite !concat_rows_app, <- !app_assoc. reflexivity. }
  apply Hgen.
Qed.

Lemma frame_of_saved {A Comparison SfcDF} (pandas : PandasLib SfcDF Comparison)
    (frame : list A -> table Comparison) (out filename : string)
    (rows : list A) :
  (forall l, len pandas (frame l) = List.length l) ->
  (if (0 <? len pandas (frame_of frame rows))%nat
   then [ (path_join out filename, frame_of frame rows) ]
   else [])
  = saved out filename frame rows.
Proof.
  intros Hlen. destruct rows as [| r rows]; simpl; [reflexivity |].
  now rewrite Hlen.
Qed.

Section SavedFiles.
Context {MS : Type} `{MicroSeriesOps MS} `{MicroSeriesCount MS}.
Context {Modifier Params Sim Dataset SfcDF Comparison : Type}.

Lemma saved_files_of_results_aux
    (fs : ReformProcessor.FileSystem (list (list Q)) (list constituency))
    (pandas : PandasLib SfcDF Comparison)
    (self : DataPipeline.t Modifier Params)
    (results : list reform_result) (config : option (DataConfig Params)) :
  let out := output_dir (DataPipeline.config self) in
  match sfc_comparison_of fs pandas
          (flat_map ReformProcessor.budgetary_impact results) config with
  | inl e => aggregate_results fs pandas results config = raise e
  | inr sfc =>
      exists data,
        aggregate_results fs pandas results config = ret data /\
        (str_dict_get data "constituency"
         = Some (frame_of ConstituencyFrame
                   (flat_map ReformProcessor.constituency results)) /\
         str_dict_get data "demographic_constituency"
         = Some (frame_of DemographicFrame
                   (flat_map ReformProcessor.demographic_constituency
                      results))) /\
        DataPipeline._save_all pandas self data =
        saved out "budgetary_impact.csv" BudgetaryFrame
          (flat_map ReformProcessor.budgetary_impact results)
        ++ saved out "distributional_impact.csv" DistributionalFrame
             (flat_map ReformProcessor.distributional_impact results)
        ++ saved out "winners_losers.csv" WinnersLosersFrame
             (flat_map ReformProcessor.winners_losers results)
        ++ saved out "metrics.csv" MetricsFrame
             (flat_map ReformProcessor.metrics results)
        ++ saved out "income_curve.csv" IncomeCurveFrame
             (flat_map ReformProcessor.income_curve results)
        ++ saved out "household_scatter_full.csv" HouseholdScatterFrame
             (flat_map ReformProcessor.household_scatter results)
        ++ saved out "constituency.csv" ConstituencyFrame
             (flat_map ReformProcessor.constituency results)
        ++ saved out "demographic_constituency.csv" DemographicFrame
             (flat_map ReformProcessor.demographic_constituency results)
        ++ (if (0 <? len pandas sfc)%nat
            then [ (path_join out "sfc_comparison.csv", sfc) ]
            else [])
  end.
Proof.
  intros out. unfold aggregate_results. rewrite gather_rows.
  cbn [Gathered.budgetary_impact Gathered.distributional_impact
       Gathered.winners_losers Gathered.metrics Gathered.income_curve
       Gathered.household_scatter Gathered.constituency
       Gathered.demographic_constituency].
  destruct (sfc_comparison_of fs pandas _ config) as [e | sfc];
    [reflexivity |].
  cbn [bind ret]. eexists. split; [reflexivity |].
  split; [split; reflexivity |].
  unfold DataPipeline._save_all, DataPipeline.file_mapping. fold out.
  cbn [flat_map fst snd str_dict_get String.eqb Ascii.eqb Bool.eqb].
  rewrite !frame_of_saved by reflexivity.
  rewrite app_nil_r. reflexivity.
Qed.

(** X27.  The frames of a run and the files written for them.  Only the
    comparison with the SFC estimates can make [aggregate_results] fail.
    When it does not, the frame of each of the eight tables holds the rows
    of all the reforms, in the order of the reforms, and [_save_all] writes
    the file of a table exactly when the table has a row (the household
    scatter as [household_scatter_full.csv]): a table without rows leaves
    no file, and the comparison is written when it has a row. *)
Theorem saved_files_of_results
    (fs : ReformProcessor.FileSystem (list (list Q)) (list constituency))
    (pandas : PandasLib SfcDF Comparison)
    (self : DataPipeline.t Modifier Params)
    (results : list reform_result) (config : option (DataConfig Params)) :
  let out := output_dir (DataPipeline.config self) in
  match sfc_comparison_of fs pandas
          (flat_map ReformProcessor.budgetary_impact results) config with
  | inl e => aggregate_results fs pandas results config = raise e
  | inr sfc =>
      exists data,
        aggregate_results fs pandas results config = ret data /\
        DataPipeline._save_all pandas self data =
        saved out "budgetary_impact.csv" BudgetaryFrame
          (flat_map ReformProcessor.budgetary_impact results)
        ++ saved out "distributional_impact.csv" DistributionalFrame
             (flat_map ReformProcessor.distributional_impact results)
        ++ saved out "winners_losers.csv" WinnersLosersFrame
             (flat_map ReformProcessor.winners_losers results)
        ++ saved out "metrics.csv" MetricsFrame
             (flat_map ReformProcessor.metrics results)
        ++ saved out "income_curve.csv" IncomeCurveFrame
             (flat_map ReformProcessor.income_curve results)
        ++ saved out "household_scatter_full.csv" HouseholdScatterFrame
             (flat_map ReformProcessor.household_scatter results)
        ++ saved out "constituency.csv" ConstituencyFrame
             (flat_map ReformProcessor.constituency results)
        ++ saved out "demographic_constituency.csv" DemographicFrame
             (flat_map ReformProcessor.demographic_constituency results)
        ++ (if (0 <? len pandas sfc)%nat
            then [ (path_join out "sfc_comparison.csv", sfc) ]
            else [])
  end.
Proof.
  intros out.
  pose proof (saved_files_of_results_aux fs pandas self results config)
    as Haux.
  cbv zeta in Haux. fold out in Haux.
  destruct (sfc_comparison_of fs pandas _ config) as [e | sfc];
    [exact Haux |].
  destruct Haux as [data [Hrun [_ Hwritten]]]. exists data. now split.
Qed.

End SavedFiles.

(** ** DataPipeline: a run without the constituency data *)

Section AbsentRows.
Import ReformProcessor.
Context {Sim Modifier Params Weights ConstituencyDF Table : Type}.
Context {BudgetRow DistRow WLRow MetricRow CurveRow ScatterRow ConstRow DemoRow
         : Type}.

(** Without the constituency data a result has no row of the two
    geography calculators. *)
Lemma process_absent_rows (fs : FileSystem Weights ConstituencyDF)
    (self : ReformProcessor.t Sim Modifier Params Weights ConstituencyDF Table
              BudgetRow DistRow WLRow MetricRow CurveRow ScatterRow ConstRow
              DemoRow)
    (baseline reformed : Sim)
    (result : ReformResult BudgetRow DistRow WLRow MetricRow CurveRow
                ScatterRow ConstRow DemoRow) :
  constituency_data_absent fs self ->
  process fs self baseline reformed = ret result ->
  constituency result = [] /\ demographic_constituency result = [].
Proof.
  intros Habsent. unfold process.
  destruct (budgetary_calc _ _ _ _ _) as [e | budgetary]; [discriminate |].
  cbn [bind].
  destruct (for_fold _ _ _) as [e | acc] eqn:Efold; [discriminate |].
  cbn [bind ret]. intros [= <-].
  cbn [constituency demographic_constituency].
  revert Efold.
  apply (for_fold_invariant
           (fun a => all_constituency a = [] /\ all_demographic a = [])).
  - split; reflexivity.
  - intros a y a' _ [Hc Hd]. unfold process_year.
    destruct (distributional_calc _ _ _ _ _ _) as [e | [d t]];
      [discriminate |].
    cbn [bind]. destruct (winners_losers_calc _ _ _ _ _) as [e | w];
      [discriminate |].
    cbn [bind]. destruct (metrics_calc _ _ _ _ _ _) as [e | m];
      [discriminate |].
    cbn [bind]. destruct (income_curve_calc _ _ _ _ _ _) as [e | c];
      [discriminate |].
    cbn [bind].
    destruct (household_scatter_calc _ _ _ _ _ _) as [e | sc];
      [discriminate |].
    cbn [bind].
    rewrite (calculate_constituency_absent fs self baseline reformed _ y
               Habsent).
    cbn [bind ret raise except_FileNotFoundError]. intros [= <-].
    cbn [all_constituency all_demographic]. now split.
Qed.

End AbsentRows.

Section RunWithoutConstituencyData.
Context {MS : Type} `{MicroSeriesOps MS} `{MicroSeriesCount MS}.
Context {Modifier Params Sim Dataset SfcDF Comparison : Type}.

Lemma sfc_comparison_frame
    (fs : ReformProcessor.FileSystem (list (list Q)) (list constituency))
    (pandas : PandasLib SfcDF Comparison)
    (rows : list BudgetaryImpactCalculator.row)
    (config : option (DataConfig Params)) (sfc : table Comparison) :
  sfc_comparison_of fs pandas rows config = ret sfc ->
  sfc = EmptyFrame \/ exists comparison, sfc = ComparisonFrame comparison.
Proof.
  unfold sfc_comparison_of.
  destruct config as [config |]; [| intros [= <-]; now left].
  destruct (0 <? List.length rows)%nat; [| intros [= <-]; now left].
  destruct (ReformProcessor.path_exists fs _); [| intros [= <-]; now left].
  destruct (read_sfc_csv pandas _) as [e | sfc_df]; [discriminate |].
  cbn [bind].
  destruct (merge_left pandas _ _ _) as [e | comparison]; [discriminate |].
  cbn [bind ret]. intros [= <-]. right. now exists comparison.
Qed.

(** X28.  A run without the constituency data.  With the input check, the
    run fails with [FileNotFoundError] before a dataset is loaded or a
    simulation built.  Without the check, whenever the run returns, the
    frames [constituency] and [demographic_constituency] are empty and no
    file is written for them: every file written holds a frame with rows,
    and none holds rows of the two geography calculators. *)
Theorem run_without_constituency_data
    (fs : ReformProcessor.FileSystem (list (list Q)) (list constituency))
    (microsimulation : MicrosimulationLib MS Modifier Params Dataset)
    (lib : SimulationLib Modifier Params Sim)
    (pandas : PandasLib SfcDF Comparison)
    (self : DataPipeline.t Modifier Params) :
  input_data_absent fs (DataPipeline.config self) ->
  (exists msg,
     DataPipeline.run fs microsimulation lib pandas self false
     = raise (FileNotFoundError msg)) /\
  (forall aggregated written,
     DataPipeline.run fs microsimulation lib pandas self true
     = ret (aggregated, written) ->
     str_dict_get aggregated "constituency" = Some EmptyFrame /\
     str_dict_get aggregated "demographic_constituency" = Some EmptyFrame /\
     Forall (fun file => (0 < len pandas (snd file))%nat) written /\
     (forall path rows, ~ In (path, ConstituencyFrame rows) written) /\
     (forall path rows, ~ In (path, DemographicFrame rows) written)).
Proof.
  intros Habsent. split.
  - unfold DataPipeline.run, check_input_data. cbn [negb].
    destruct (ReformProcessor.path_exists fs
                (path_join (data_dir (DataPipeline.config self))
                   "parliamentary_constituency_weights.h5")) eqn:Ew;
      cbn [negb bind raise].
    + destruct Habsent as [Hw | Hc]; [congruence |].
      rewrite Hc. cbn [negb bind raise]. eexists. reflexivity.
    + eexists. reflexivity.
  - intros aggregated written. unfold DataPipeline.run. cbn [negb bind ret].
    destruct (DataPipeline.load_dataset microsimulation self)
      as [e | dataset]; [discriminate |].
    cbn [bind].
    destruct (for_each (DataPipeline.reforms self) _) as [e | results]
      eqn:Eresults; [discriminate |].
    cbn [bind].
    assert (Forall (fun result =>
              ReformProcessor.constituency result = [] /\
              ReformProcessor.demographic_constituency result = [])
              results) as Hnone.
    { revert Eresults. apply for_each_ret_Forall. intros reform rows _.
      destruct (DataPipeline.simulations microsimulation self dataset reform)
        as [e | [baseline reformed]]; [discriminate |].
      cbn [bind].
      destruct (ReformProcessor.process fs _ baseline reformed)
        as [e | result] eqn:Eprocess; [discriminate |].
      cbn [bind ret]. intros [= <-]. constructor; [| constructor].
      exact (process_absent_rows fs
               (new_ReformProcessor lib reform
                  (Some (DataPipeline.config self)))
               baseline reformed result Habsent Eprocess). }
    assert (flat_map ReformProcessor.constituency results = [] /\
            flat_map ReformProcessor.demographic_constituency results = [])
      as [Hc Hd].
    { clear Eresults. induction Hnone as [| result results [Hrc Hrd] _ IH];
        simpl; [now split |].
      destruct IH as [IHc IHd]. now rewrite Hrc, Hrd, IHc, IHd. }
    pose proof (saved_files_of_results_aux fs pandas self results
                  (Some (DataPipeline.config self))) as Hsaved.
    cbv zeta in Hsaved.
    destruct (sfc_comparison_of fs pandas _ _) as [e | sfc] eqn:Esfc.
    + rewrite Hsaved. discriminate.
    + destruct Hsaved as [data [Hrun [[Hdc Hdd] Hwritten]]].
      rewrite Hrun. cbn [bind ret]. intros [= <- <-].
      rewrite Hdc, Hdd, Hwritten, Hc, Hd.
      apply sfc_comparison_frame in Esfc.
      split; [reflexivity |]. split; [reflexivity |].
      assert (forall A (frame : list A -> table Comparison) out name rows
                     file,
                In file (saved out name frame rows) ->
                file = (path_join out name, frame rows) /\
                (0 < List.length rows)%nat)
        as Hin.
      { intros A frame out name rows file. destruct rows; simpl;
          [contradiction |].
        intros [<- | []]. split; [reflexivity | lia]. }
      split; [| split].
      * apply Forall_forall. intros file Hfile.
        repeat (apply in_app_or in Hfile;
                destruct Hfile as [Hfile | Hfile];
                [apply Hin in Hfile; destruct Hfile as [-> Hrows];
                 exact Hrows |]).
        destruct (0 <? len pandas sfc)%nat eqn:Elen; [| contradiction].
        destruct Hfile as [<- | []]. now apply Nat.ltb_lt.
      * intros path rows Hfile.
        repeat (apply in_app_or in Hfile;
                destruct Hfile as [Hfile | Hfile];
                [apply Hin in Hfile; destruct Hfile as [Hfile Hrows];
                 first [discriminate Hfile | simpl in Hrows; lia] |]).
        destruct (0 <? len pandas sfc)%nat; [| contradiction].
        destruct Hfile as [Hfile | []].
        destruct Esfc as [-> | [comparison ->]]; discriminate Hfile.
      * intros path rows Hfile.
        repeat (apply in_app_or in Hfile;
                destruct Hfile as [Hfile | Hfile];
                [apply Hin in Hfile; destruct Hfile as [Hfile Hrows];
                 first [discriminate Hfile | simpl in Hrows; lia] |]).
        destruct (0 <? len pandas sfc)%nat; [| contradiction].
        destruct Hfile as [Hfile | []].
        destruct Esfc as [-> | [comparison ->]]; discriminate Hfile.
Qed.

End RunWithoutConstituencyData.

Lemma run_without_constituency_data_witness :
  exists aggregated written,
    DataPipeline.run no_weights_file toy_microsimulation
      (toy_simulation_lib 5) toy_pandas small_pipeline true
    = ret (aggregated, written) /\
    map fst written
    = [ "public/data/budgetary_impact.csv";
        "public/data/distributional_impact.csv";
        "public/data/winners_losers.csv";
        "public/data/metrics.csv";
        "public/data/income_curve.csv";
        "public/data/household_scatter_full.csv" ] /\
    str_dict_get aggregated "constituency" = Some EmptyFrame.
Proof.
  destruct (DataPipeline.run no_weights_file toy_microsimulation
              (toy_simulation_lib 5) toy_pandas small_pipeline true)
    as [e | [aggregated written]] eqn:Erun.
  - exfalso. vm_compute in Erun. discriminate Erun.
  - exists aggregated, written. split; [reflexivity |]. split.
    + vm_compute in Erun. injection Erun as <- <-. reflexivity.
    + assert (input_data_absent no_weights_file
                (DataPipeline.config small_pipeline)) as Habsent
        by (left; reflexivity).
      exact (proj1 (proj2 (@run_without_constituency_data Series Series_ops
                             Series_count unit unit _ unit unit (list pe_row)
                             no_weights_file toy_microsimulation
                             (toy_simulation_lib 5) toy_pandas small_pipeline
                             Habsent)
                      aggregated written Erun)).
Defined.

(** ** DataPipeline: the baseline of a reform *)

Section BaselinePriority.
Context {MS : Type} `{MicroSeriesOps MS} `{MicroSeriesCount MS}.
Context {Modifier Params Sim Dataset : Type}.

(** X29.  The simulations of a reform in a run.  The baseline simulation is
    built with the reform's own baseline scenario when the reform has a
    custom baseline, else with the baseline of the configuration, else
    without a scenario; the reformed simulation is built with the reform's
    scenario; both are built on the loaded dataset when there is one that
    counts as true, and without a dataset otherwise. *)
Theorem simulations_baseline_priority
    (microsimulation : MicrosimulationLib MS Modifier Params Dataset)
    (self : DataPipeline.t Modifier Params) (dataset : option Dataset)
    (reform : Reform.t Modifier Params) :
  DataPipeline.simulations microsimulation self dataset reform =
  (baseline <-
     new_Microsimulation microsimulation
       (usable_dataset microsimulation dataset)
       (effective_baseline (DataPipeline.config self) reform) ;;
   reformed <-
     new_Microsimulation microsimulation
       (usable_dataset microsimulation dataset)
       (Some (Reform.to_scenario reform)) ;;
   ret (baseline, reformed)).
Proof.
  unfold DataPipeline.simulations, usable_dataset, effective_baseline,
    Reform.has_custom_baseline, Reform.to_baseline_scenario.
  destruct dataset as [d |]; [destruct (dataset_bool microsimulation d) |];
    destruct (Reform.baseline_simulation_modifier reform),
      (Reform.baseline_parameter_changes reform);
    cbn [orb]; try reflexivity;
    destruct (get_baseline_scenario (DataPipeline.config self));
    reflexivity.
Qed.

(** X30.  The baseline of the configuration plays no part in [process]:
    the processor built from a configuration gives the same outcome
    whatever the global baseline parameter changes of the configuration
    are.  They only reach the baseline simulation built by [run]; the
    income curve is calculated against the reform's own baseline scenario,
    or against none. *)
Theorem process_ignores_global_baseline
    (lib : SimulationLib Modifier Params Sim)
    (reform : Reform.t Modifier Params) (config : DataConfig Params)
    (changes : option Params)
    (fs : ReformProcessor.FileSystem (list (list Q)) (list constituency))
    (baseline reformed : Microsimulation.t MS) :
  ReformProcessor.process fs
    (new_ReformProcessor lib reform (Some (with_baseline config changes)))
    baseline reformed
  = ReformProcessor.process fs (new_ReformProcessor lib reform (Some config))
      baseline reformed.
Proof. destruct config. reflexivity. Qed.

End BaselinePriority.

(** A reform without a baseline of its own under a configuration with a
    global baseline: the baseline simulation gets the scenario of the
    configuration, the income curve gets none. *)
Example global_baseline_only_in_simulation :
  effective_baseline (with_baseline small_config (Some tt)) toy_reform
  = Some (Build_Scenario None (Some tt)) /\
  Reform.to_baseline_scenario toy_reform = None.
Proof. split; reflexivity. Qed.
